(** * APIdata.py: the [API_to_data] client of the Statistics Norway table API

    A shallow embedding of [src/APIdata.py] (Python 3), and the properties
    of its methods.

    - A [str] is a sequence of Unicode code points.
    - A method is a function in a monad of state and exceptions: the
      state holds the attributes of [self], what was printed and the
      requests that were sent.
    - What the client asks of the outside is a parameter of the method
      that asks: the answers of the remote API ([read_json], [post]), and
      three tables of the libraries that the model does not spell out
      ([int] on digits beyond Latin-1, the dates that pandas reads
      outside the ISO shapes, [str.isprintable] outside ASCII).
    - [ast.literal_eval] is modelled on displays of strings; elsewhere it
      answers [NotModelled], about which nothing is stated. *)

From Stdlib Require Import ZArith NArith List Lia String Ascii Bool.
Import ListNotations.

Set Implicit Arguments.
Set Warnings "-register-all".

(** ** Python strings *)

Module PyStr.

(** A Python 3 [str] is a sequence of code points; a code point is a
    natural number. *)
Definition char := N.
Definition str := list char.

(** An ASCII literal of the source, read as a [str]. *)
Definition lit (s : string) : str :=
  List.map N_of_ascii (list_ascii_of_string s).

Definition eqb (a b : str) : bool :=
  if list_eq_dec N.eq_dec a b then true else false.

(** [s.startswith(p)] *)
Fixpoint startswith (p s : str) : bool :=
  match p, s with
  | [], _ => true
  | _ :: _, [] => false
  | a :: p', b :: s' => N.eqb a b && startswith p' s'
  end.

(** [old in s] for strings: substring test. *)
Fixpoint contains (old s : str) : bool :=
  startswith old s ||
  match s with
  | [] => false
  | _ :: s' => contains old s'
  end.

(** The scan of [str.replace] for a non-empty pattern: left to right, the
    occurrences replaced do not overlap.  [skip] counts the characters of
    the occurrence just replaced that are still to be passed over. *)
Fixpoint replace_scan (old new : str) (skip : nat) (s : str) : str :=
  match s with
  | [] => []
  | c :: s' =>
      match skip with
      | S k => replace_scan old new k s'
      | O =>
          if startswith old s
          then new ++ replace_scan old new (List.length old - 1) s'
          else c :: replace_scan old new 0 s'
      end
  end.

(** [s.replace(old, new)]; an empty pattern matches before every character
    and at the end. *)
Definition replace (old new s : str) : str :=
  match old with
  | [] => new ++ flat_map (fun c => c :: new) s
  | _ :: _ => replace_scan old new 0 s
  end.

(** [s[i:j]] for [0 <= i], [0 <= j]. *)
Definition slice (i j : nat) (s : str) : str :=
  firstn (j - i) (skipn i s).

(** Substitution of one character, the special case of [replace] that the
    client uses throughout. *)
Definition subst1 (k : char) (new : str) (c : char) : str :=
  if N.eqb c k then new else [c].

End PyStr.

Import PyStr.

Notation "'!' s" := (lit s) (at level 1, s at level 0, format "'!' s").

(** ** [search]: the query address (lines 86-92) *)

Module Search.

(** The table [convert], in the order in which the dictionary is written
    (the order in which [convert.items()] yields it).  The keys are the
    letters ae, AE, o-slash, O-slash, a-ring, A-ring of the Norwegian
    alphabet, the double quote, the two parentheses and the space. *)
Definition convert : list (str * str) :=
  [ ([230%N], !"%C3%A6"); ([198%N], !"%C3%86");
    ([248%N], !"%C3%B8"); ([216%N], !"%C3%98");
    ([229%N], !"%C3%A5"); ([197%N], !"%C3%85");
    ([34%N],  !"%22");    ([40%N],  !"%28");
    ([41%N],  !"%29");    ([32%N],  !"%20") ].

(** [for k, v in convert.items(): search_str = search_str.replace(k, v)] *)
Definition encode (search_str : str) : str :=
  fold_left (fun acc kv => replace (fst kv) (snd kv) acc) convert search_str.

(** ['{base_url}/{language}/table/?query={phrase}'.format(...)], then the
    loop over [convert]: the address handed to [pd.read_json]. *)
Definition search_str (burl language phrase : str) : str :=
  encode (burl ++ !"/" ++ language ++ !"/table/?query=" ++ phrase).

(** What the table says of one character: its replacement when it is a
    key, the character itself otherwise. *)
Definition convert_char (c : char) : str :=
  match find (fun kv => PyStr.eqb (fst kv) [c]) convert with
  | Some kv => snd kv
  | None => [c]
  end.

End Search.

(** ** The Python runtime: exceptions, [int], [str] *)

Module Py.

(** The exceptions that the modelled code can meet.  [HTTPError] stands
    for whatever a failed request or an unusable response raises.
    [NotModelled] is no exception of Python: it marks an input on which a
    library is asked for something that this development does not
    describe, so that nothing is stated about it. *)
Inductive exn :=
| TypeError | ValueError | KeyError | IndexError | AttributeError
| UnboundLocalError | SyntaxError | OutOfBoundsDatetime | HTTPError
| NotModelled.

Inductive outcome (A : Type) :=
| Return (a : A)
| Raise (e : exn).
Arguments Return {A} a.
Arguments Raise {A} e.

Definition obind {A B} (o : outcome A) (k : A -> outcome B) : outcome B :=
  match o with
  | Return a => k a
  | Raise e => Raise e
  end.

(** [[f(x) for x in l]] where [f] may raise. *)
Fixpoint omap {A B} (f : A -> outcome B) (l : list A) : outcome (list B) :=
  match l with
  | [] => Return []
  | x :: l' => obind (f x) (fun y => obind (omap f l') (fun ys => Return (y :: ys)))
  end.

(** A value handed to a parameter that the source leaves untyped. *)
Inductive arg :=
| ANone
| AInt (z : Z)
| AStr (s : str).

(** The characters that [int] passes over around a number, for code
    points below 256: the white space of ASCII, the next-line character
    and the no-break space. *)
Definition isspace (c : char) : bool :=
  ((9 <=? c) && (c <=? 13) || (c =? 32) || (c =? 133) || (c =? 160))%N.

Fixpoint lstrip (s : str) : str :=
  match s with
  | c :: s' => if isspace c then lstrip s' else s
  | [] => []
  end.

Definition strip (s : str) : str := rev (lstrip (rev (lstrip s))).

Definition digit_of (c : char) : option Z :=
  if ((48 <=? c) && (c <=? 57))%N then Some (Z.of_N (c - 48)) else None.

(** The digits of an integer literal: decimal digits, single underscores
    allowed between two digits. *)
Fixpoint digits_value (acc : Z) (after_digit : bool) (s : str) : option Z :=
  match s with
  | [] => if after_digit then Some acc else None
  | c :: s' =>
      if (c =? 95)%N
      then if after_digit then digits_value acc false s' else None
      else match digit_of c with
           | Some d => digits_value (10 * acc + d) true s'
           | None => None
           end
  end.

Section Int.

(** What [int] makes of a string that has a character above Latin-1, where
    the Unicode database says what a space or a decimal digit is: the
    number, or nothing on a [ValueError]. *)
Variable int_unicode : str -> option Z.

(** [int(s)] for a string: surrounding white space, an optional sign, the
    digits. *)
Definition int_of_str (s : str) : outcome Z :=
  if existsb (fun c => 255 <? c)%N s then
    match int_unicode s with
    | Some n => Return n
    | None => Raise ValueError
    end
  else
  let body := strip s in
  let '(sign, ds) :=
    match body with
    | 45%N :: r => ((-1)%Z, r)
    | 43%N :: r => (1%Z, r)
    | _ => (1%Z, body)
    end in
  match ds with
  | 95%N :: _ => Raise ValueError
  | _ => match digits_value 0 false ds with
         | Some v => Return (sign * v)%Z
         | None => Raise ValueError
         end
  end.

(** [int(x)] *)
Definition int (x : arg) : outcome Z :=
  match x with
  | ANone => Raise TypeError
  | AInt z => Return z
  | AStr s => int_of_str s
  end.

End Int.

(** The decimal digits of a non-negative integer, most significant first;
    [fuel] bounds the number of digits. *)
Fixpoint digits (fuel : nat) (n : Z) (acc : str) : str :=
  let acc' := Z.to_N (48 + n mod 10) :: acc in
  match fuel with
  | O => acc'
  | S f => if (n <? 10)%Z then acc' else digits f (n / 10) acc'
  end.

(** [str(n)] for an integer. *)
Definition str_of_int (n : Z) : str :=
  if (n <? 0)%Z
  then 45%N :: digits (Z.to_nat (Z.log2 (- n))) (- n) []
  else digits (Z.to_nat (Z.log2 n)) n [].

(** ['{:02d}'.format(n)]-style padding to [w] characters with zeros, as the
    date formats do for non-negative fields. *)
Definition zfill (w : nat) (s : str) : str :=
  repeat 48%N (w - List.length s) ++ s.

End Py.

Import Py.

(** ** Dates: the part of pandas and of [datetime] that the client calls *)

Module Dates.

Local Open Scope Z_scope.

(** A [pandas.Timestamp] at midnight: the client never builds another. *)
Record Timestamp := { year : Z; month : Z; day : Z }.

Definition is_leap (y : Z) : bool :=
  (y mod 4 =? 0) && (negb (y mod 100 =? 0) || (y mod 400 =? 0)).

Definition days_in_month (y m : Z) : Z :=
  match m with
  | 1 | 3 | 5 | 7 | 8 | 10 | 12 => 31
  | 4 | 6 | 9 | 11 => 30
  | 2 => if is_leap y then 29 else 28
  | _ => 0
  end.

Definition valid_date (y m d : Z) : bool :=
  (1 <=? m) && (m <=? 12) && (1 <=? d) && (d <=? days_in_month y m).

(** [datetime]'s [_days_before_year], [_days_before_month], [_ymd2ord]. *)
Definition days_before_year (y : Z) : Z :=
  let p := y - 1 in p * 365 + p / 4 - p / 100 + p / 400.

Definition days_before_month (y m : Z) : Z :=
  match m with
  | 1 => 0 | 2 => 31 | 3 => 59 | 4 => 90 | 5 => 120 | 6 => 151
  | 7 => 181 | 8 => 212 | 9 => 243 | 10 => 273 | 11 => 304 | _ => 334
  end + (if (2 <? m) && is_leap y then 1 else 0).

Definition toordinal (t : Timestamp) : Z :=
  days_before_year (year t) + days_before_month (year t) (month t) + day t.

(** [date.weekday()]: Monday is 0. *)
Definition weekday (t : Timestamp) : Z := (toordinal t + 6) mod 7.

(** [datetime]'s [_ord2ymd], the inverse of [toordinal]. *)
Definition fromordinal (n0 : Z) : Timestamp :=
  let n := n0 - 1 in
  let n400 := n / 146097 in let n := n mod 146097 in
  let n100 := n / 36524 in let n := n mod 36524 in
  let n4 := n / 1461 in let n := n mod 1461 in
  let n1 := n / 365 in let n := n mod 365 in
  let y := n400 * 400 + 1 + n100 * 100 + n4 * 4 + n1 in
  if (n1 =? 4) || (n100 =? 4)
  then {| year := y - 1; month := 12; day := 31 |}
  else
    let m := Z.shiftr (n + 50) 5 in
    let preceding := days_before_month y m in
    if n <? preceding
    then {| year := y; month := m - 1;
            day := n - (preceding - days_in_month y (m - 1)) + 1 |}
    else {| year := y; month := m; day := n - preceding + 1 |}.

(** A [Timestamp] counts nanoseconds since 1970 in 64 bits: midnights
    from 1677-09-22 to 2262-04-11. *)
Definition in_bounds (t : Timestamp) : bool :=
  let k := (year t * 100 + month t) * 100 + day t in
  (16770922 <=? k) && (k <=? 22620411).

Definition checked (t : Timestamp) : outcome Timestamp :=
  if in_bounds t then Return t else Raise OutOfBoundsDatetime.

(** The value of a run of exactly [List.length s] decimal digits. *)
Fixpoint number (acc : Z) (s : str) : option Z :=
  match s with
  | [] => Some acc
  | c :: s' =>
      match digit_of c with
      | Some d => number (10 * acc + d) s'
      | None => None
      end
  end.

(** The ISO 8601 shapes [YYYY], [YYYY-MM] and [YYYY-MM-DD] of a date of the
    calendar; [None] for any other string. *)
Definition parse_iso (s : str) : option (outcome Timestamp) :=
  let field (a : str) (k : Z -> option (outcome Timestamp)) :=
    match number 0 a with Some v => k v | None => None end in
  let date y m d :=
    if valid_date y m d
    then Some (checked {| year := y; month := m; day := d |})
    else None in
  match s with
  | [y1; y2; y3; y4] =>
      field [y1; y2; y3; y4] (fun y => date y 1 1)
  | [y1; y2; y3; y4; 45%N; m1; m2] =>
      field [y1; y2; y3; y4] (fun y => field [m1; m2] (fun m => date y m 1))
  | [y1; y2; y3; y4; 45%N; m1; m2; 45%N; d1; d2] =>
      field [y1; y2; y3; y4] (fun y => field [m1; m2] (fun m =>
      field [d1; d2] (fun d => date y m d)))
  | _ => None
  end.

(** [str(t)] for a [Timestamp] at midnight. *)
Definition Timestamp_str (t : Timestamp) : str :=
  zfill 4 (str_of_int (year t)) ++ !"-" ++ zfill 2 (str_of_int (month t))
  ++ !"-" ++ zfill 2 (str_of_int (day t)) ++ !" 00:00:00".

(** [_calc_julian_from_U_or_W] of [_strptime] for [%W] (weeks start on
    Monday): the day of the year of weekday [dow] (Monday 0) in week
    [week]; week 0 holds the days before the first Monday. *)
Definition calc_julian_from_W (y week dow : Z) : Z :=
  let first_weekday := weekday {| year := y; month := 1; day := 1 |} in
  let week_0_length := (7 - first_weekday) mod 7 in
  if week =? 0
  then 1 + dow - first_weekday
  else 1 + (week_0_length + 7 * (week - 1)) + dow.

Section Parser.

(** What [pandas] makes of a date string outside the shapes below, read
    without a format or with the format given: a string that is no date
    in one of the three ISO shapes (it goes to [dateutil]), a string with
    digits of another script. *)
Variable pandas_reads : option str -> str -> outcome Timestamp.

(** [strptime(s, '%Y-%W-%w')]: four digits, a week [0..53] of one or two
    digits, a weekday [0..6] with Sunday 0, and nothing after them. *)
Definition strptime_Y_W_w (s : str) : outcome Timestamp :=
  if existsb (fun c => 127 <? c)%N s then pandas_reads (Some !"%Y-%W-%w") s
  else
  let finish (y : option Z) (w : option Z) (d : char) :=
    match y, w, digit_of d with
    | Some y, Some w, Some d =>
        if (w <=? 53) && (d <=? 6)
        then
          let dow := if d =? 0 then 6 else d - 1 in
          let julian := calc_julian_from_W y w dow in
          let '(y, julian) :=
            if julian <=? 0
            then (y - 1, julian + (if is_leap (y - 1) then 366 else 365))
            else (y, julian) in
          checked (fromordinal (julian - 1
                     + toordinal {| year := y; month := 1; day := 1 |}))
        else Raise ValueError
    | _, _, _ => Raise ValueError
    end in
  match s with
  | [y1; y2; y3; y4; 45%N; w1; 45%N; d] =>
      finish (number 0 [y1; y2; y3; y4]) (number 0 [w1]) d
  | [y1; y2; y3; y4; 45%N; w1; w2; 45%N; d] =>
      finish (number 0 [y1; y2; y3; y4]) (number 0 [w1; w2]) d
  | _ => Raise ValueError
  end.

(** [pd.Timestamp(s)], [pd.to_datetime(s)] for one string. *)
Definition to_datetime (s : str) : outcome Timestamp :=
  match parse_iso s with
  | Some r => r
  | None => pandas_reads None s
  end.

(** [pd.date_range(start, periods=1, freq='M')]: the first month end on or
    after [start]. *)
Definition date_range_M_1 (start : str) : outcome (list Timestamp) :=
  obind (to_datetime start) (fun t =>
  obind (checked {| year := year t; month := month t;
                    day := days_in_month (year t) (month t) |}) (fun e =>
  Return [e])).

End Parser.

End Dates.

Import Dates.

(** ** The client's state and the monad of its methods *)

Module State.

(** One element of the list that [get_variables] returns: the dictionary
    of a variable of the table, with the four keys the client reads. *)
Record variable := {
  code : str;
  text : str;
  values : list str;
  valueTexts : list str
}.

(** The attributes of an [API_to_data] object ([__init__], lines 54-58). *)
Record API_to_data := {
  language : str;
  burl : str;
  furl : option str;
  variables : option (list variable);
  time : option str
}.

(** [API_to_data(language, base_url)] *)
Definition init (language base_url : str) : API_to_data :=
  {| language := language; burl := base_url;
     furl := None; variables := None; time := None |}.

(** A request sent to the remote API, with the body of a POST left
    abstract. *)
Inductive request (Body : Type) :=
| GET (url : str)
| POST (url : str) (json : Body).
Arguments GET {Body} url.
Arguments POST {Body} url json.

(** What a method can change: the object, what was printed, what was
    sent. *)
Record world (Body : Type) := {
  self : API_to_data;
  stdout : list str;
  wire : list (request Body)
}.

Section Monad.

Variable Body : Type.

Definition M (A : Type) : Type := world Body -> outcome A * world Body.

Definition ret {A} (a : A) : M A := fun w => (Return a, w).

Definition raise {A} (e : exn) : M A := fun w => (Raise e, w).

Definition bind {A B} (m : M A) (k : A -> M B) : M B :=
  fun w =>
    match m w with
    | (Return a, w') => k a w'
    | (Raise e, w') => (Raise e, w')
    end.

(** A computation that touches neither the object nor the outside. *)
Definition lift {A} (o : outcome A) : M A := fun w => (o, w).

Definition get_self : M API_to_data := fun w => (Return (self w), w).

Definition set_self (s : API_to_data) : M unit :=
  fun w => (Return tt, {| self := s; stdout := stdout w; wire := wire w |}).

(** [print(s)] *)
Definition print (s : str) : M unit :=
  fun w => (Return tt,
            {| self := self w; stdout := stdout w ++ [s]; wire := wire w |}).

(** A request leaves; [reply] is what comes back. *)
Definition send {A} (r : request Body) (reply : outcome A) : M A :=
  fun w => (reply,
            {| self := self w; stdout := stdout w; wire := wire w ++ [r] |}).

(** [try: m  except ...: h]: [handlers] gives the clause that takes an
    exception, if one does.  [NotModelled] is no exception and passes. *)
Definition try_except {A} (m : M A) (handlers : exn -> option (M A)) : M A :=
  fun w =>
    match m w with
    | (Raise NotModelled, w') => (Raise NotModelled, w')
    | (Raise e, w') =>
        match handlers e with
        | Some h => h w'
        | None => (Raise e, w')
        end
    | r => r
    end.

(** Reading a local variable that an earlier statement may have left
    unassigned. *)
Definition local {A} (v : option A) : M A :=
  match v with
  | Some a => ret a
  | None => raise UnboundLocalError
  end.

End Monad.

Arguments ret {Body A} a.
Arguments raise {Body A} e.
Arguments bind {Body A B} m k.
Arguments lift {Body A} o.
Arguments get_self {Body}.
Arguments set_self {Body} s.
Arguments print {Body} s.
Arguments send {Body A} r reply.
Arguments try_except {Body A} m handlers.
Arguments local {Body A} v.

End State.

Import State.

Declare Scope py_scope.
Delimit Scope py_scope with py.
Notation "x <- m ;; k" := (bind m (fun x => k))
  (at level 61, m at next level, right associativity) : py_scope.
Notation "m ;; k" := (bind m (fun _ => k))
  (at level 61, right associativity) : py_scope.
Open Scope py_scope.

(** ** Data frames *)

Module Frame.

(** A column with the default integer index: strings, numbers or
    timestamps. *)
Inductive Series :=
| StrCol (l : list str)
| NumCol (l : list Z)
| TimeCol (l : list Timestamp).

(** A [pandas.DataFrame]: its columns in order, each with its label. *)
Definition DataFrame := list (str * Series).

Definition columns (df : DataFrame) : list str := List.map fst df.

(** [df.columns[-2]] *)
Definition columns_m2 (df : DataFrame) : outcome str :=
  match rev (columns df) with
  | _ :: c :: _ => Return c
  | _ => Raise IndexError
  end.

(** The first column under a label. *)
Fixpoint column (df : DataFrame) (name : str) : outcome Series :=
  match df with
  | [] => Raise KeyError
  | (n, col) :: df' => if PyStr.eqb n name then Return col else column df' name
  end.

(** The number of columns under a label. *)
Definition count (df : DataFrame) (name : str) : nat :=
  List.length (filter (fun nc => PyStr.eqb (fst nc) name) df).

(** [df[name]]: the column under the label.  Under a label that comes
    twice pandas finds a frame, and a row where a cell is asked for; what
    the client then does with it is not modelled. *)
Definition getitem (df : DataFrame) (name : str) : outcome Series :=
  if Nat.ltb 1 (count df name) then Raise NotModelled else column df name.

(** [df[[a, b]]] *)
Definition getitems (df : DataFrame) (names : list str) : outcome DataFrame :=
  omap (fun n => obind (getitem df n) (fun col => Return (n, col))) names.

(** [marker in df.loc[0, name]]: the first cell of the column must be
    there, and must be a string to be searched.  (When the frame has the
    label twice the test is on a row of two cells: [getitem] does not
    model it.) *)
Definition loc0_contains (marker : str) (df : DataFrame) (name : str)
  : outcome bool :=
  obind (getitem df name) (fun col =>
  match col with
  | StrCol (s :: _) => Return (contains marker s)
  | NumCol (_ :: _) | TimeCol (_ :: _) => Raise TypeError
  | _ => Raise KeyError
  end).

(** [df.loc[:, name] = col] on a frame that has the column [name]. *)
Definition setcol (df : DataFrame) (name : str) (col : Series) : DataFrame :=
  List.map (fun nc => if PyStr.eqb (fst nc) name then (fst nc, col) else nc) df.

(** [df.columns = names] *)
Definition set_columns (df : DataFrame) (names : list str) : outcome DataFrame :=
  if Nat.eqb (List.length df) (List.length names)
  then Return (List.map (fun p => (fst p, snd (snd p))) (combine names df))
  else Raise ValueError.

(** The [.str] accessor: only a column of strings has it. *)
Definition str_accessor (col : Series) : outcome (list str) :=
  match col with
  | StrCol l => Return l
  | _ => Raise AttributeError
  end.

(** [col.str.replace(old, new)] *)
Definition str_replace (old new : str) (col : Series) : outcome Series :=
  obind (str_accessor col) (fun l => Return (StrCol (List.map (replace old new) l))).

(** [col.add(suffix)] *)
Definition add (suffix : str) (col : Series) : outcome Series :=
  match col with
  | StrCol l => Return (StrCol (List.map (fun s => s ++ suffix) l))
  | _ => Raise TypeError
  end.

(** [pd.to_datetime(col)] and [pd.to_datetime(col, format=...)], given the
    reading of one string.  Numbers count nanoseconds, which is outside
    the midnights modelled. *)
Definition to_datetime_col (parse : str -> outcome Timestamp) (col : Series)
  : outcome Series :=
  match col with
  | StrCol l => obind (omap parse l) (fun ts => Return (TimeCol ts))
  | TimeCol ts => Return (TimeCol ts)
  | NumCol _ => Raise NotModelled
  end.

(** [col.apply(f)] for a function [f] from strings to strings that starts
    by slicing its argument, which neither a number nor a timestamp
    allows. *)
Definition apply (f : str -> outcome str) (col : Series) : outcome Series :=
  match col with
  | StrCol l => obind (omap f l) (fun l' => Return (StrCol l'))
  | NumCol [] | TimeCol [] => Return col
  | _ => Raise TypeError
  end.

End Frame.

Import Frame.

(** ** [search]: the table of the matches (lines 94-118) *)

Module Matches.

(** [s.split(sep)] for a separator of one character: the pieces between
    its occurrences, one piece at least. *)
Fixpoint split (sep : char) (s : str) : list str :=
  match s with
  | [] => [[]]
  | c :: s' =>
      if N.eqb c sep then [] :: split sep s'
      else match split sep s' with
           | p :: ps => (c :: p) :: ps
           | [] => [[c]]
           end
  end.

(** [a < b] for strings: by code points, a proper prefix first. *)
Fixpoint str_ltb (a b : str) : bool :=
  match a, b with
  | _, [] => false
  | [], _ :: _ => true
  | x :: a', y :: b' => (x <? y)%N || (x =? y)%N && str_ltb a' b'
  end.

(** [l.sort(reverse=True)] for a list of strings: from the greatest to the
    least. *)
Fixpoint insert (x : str) (l : list str) : list str :=
  match l with
  | [] => [x]
  | y :: l' => if str_ltb x y then y :: insert x l' else x :: l
  end.

Definition sort_reverse (l : list str) : list str := fold_right insert [] l.

(** A column of the table that [search] returns: a column as
    [pd.read_json] gave it, or the pieces that [.str.get] took from the
    titles, with a gap (NaN) where a title has no such piece. *)
Inductive Column :=
| Read (col : Series)
| Pieces (l : list (option str)).

(** What [search] returns: the frame as it was read, with the default
    index, or a frame of columns with one column made the index. *)
Inductive Table :=
| Unindexed (df : DataFrame)
| Indexed (name : str) (index : Column) (data : list (str * Column)).

(** [len(df)]: the number of rows. *)
Definition len (df : DataFrame) : nat :=
  match df with
  | [] => 0
  | (_, StrCol l) :: _ => List.length l
  | (_, NumCol l) :: _ => List.length l
  | (_, TimeCol l) :: _ => List.length l
  end.

(** [col.str.split(sep)] *)
Definition str_split (sep : char) (col : Series) : outcome (list (list str)) :=
  obind (str_accessor col) (fun l => Return (List.map (split sep) l)).

(** [pieces.str.get(i)] *)
Definition str_get (i : nat) (pieces : list (list str)) : list (option str) :=
  List.map (fun p => nth_error p i) pieces.

Definition has (df : list (str * Column)) (name : str) : bool :=
  existsb (fun nc => PyStr.eqb (fst nc) name) df.

(** [df[name] = col]: in the place of the column [name], or after the last
    column when there is none. *)
Definition setitem (df : list (str * Column)) (name : str) (col : Column)
  : list (str * Column) :=
  if has df name
  then List.map (fun nc => if PyStr.eqb (fst nc) name then (fst nc, col) else nc) df
  else df ++ [(name, col)].

(** [del df[name]] on a frame that has the column; [set_index] removes
    the column that it makes the index in the same way. *)
Definition delitem (df : list (str * Column)) (name : str)
  : list (str * Column) :=
  filter (fun nc => negb (PyStr.eqb (fst nc) name)) df.

(** [df[name]] and [df[names]] *)
Fixpoint getcol (df : list (str * Column)) (name : str) : outcome Column :=
  match df with
  | [] => Raise KeyError
  | (n, col) :: df' => if PyStr.eqb n name then Return col else getcol df' name
  end.

Definition getcols (df : list (str * Column)) (names : list str)
  : outcome (list (str * Column)) :=
  omap (fun n => obind (getcol df n) (fun col => Return (n, col))) names.

Section Search.

Variable Body : Type.

(** The answer to a GET of the address of a search, as [pd.read_json]
    returns it or fails: a frame with the default index, whose labels are
    strings. *)
Variable read_json : str -> outcome DataFrame.

(** [search(self, phrase)].  Line 107 reads the column of the titles a
    second time, which line 106 has not changed. *)
Definition search (phrase : str) : M Body Table :=
  s <- get_self ;;
  let search_str := Search.search_str (burl s) (language s) phrase in
  df <- send (GET search_str) (read_json search_str) ;;
  if Nat.eqb (len df) 0
  then print !"No match" ;; ret (Unindexed df)
  else
    title <- lift (getitem df !"title") ;;
    pieces <- lift (str_split 58%N title) ;;
    let df := List.map (fun nc => (fst nc, Read (snd nc))) df in
    let df := setitem df !"table_id" (Pieces (str_get 0 pieces)) in
    let df := setitem df !"table_title" (Pieces (str_get 1 pieces)) in
    let df := delitem df !"title" in
    index <- lift (getcol df !"table_id") ;;
    let df := delitem df !"table_id" in
    let cols := sort_reverse (List.map fst df) in
    let cols := firstn (List.length cols - 2) cols in
    df <- lift (getcols df cols) ;;
    ret (Indexed !"table_id" index df).

End Search.

End Matches.

(** ** [fiksDato] and [prepare_dataframe] (lines 330-412) *)

Module Reshape.

Section Reshape.

Variable pandas_reads : option str -> str -> outcome Timestamp.
Variable int_unicode : str -> option Z.
Variable Body : Type.

Local Abbreviation M := (M Body).

(** Lines 331-336: the year and the month [quarter * 3], with a [0] put
    before the month when it is below 12. *)
Definition fiksDato_month (dato : str) : outcome str :=
  obind (int_of_str int_unicode (slice 5 6 dato)) (fun q =>
  let hjdat := (q * 3)%Z in
  let hjdat2 := str_of_int hjdat in
  if (hjdat <? 12)%Z
  then Return (slice 0 4 dato ++ !"-0" ++ hjdat2)
  else Return (slice 0 4 dato ++ !"-" ++ hjdat2)).

(** [fiksDato(self, dato)] *)
Definition fiksDato (dato : str) : outcome str :=
  obind (fiksDato_month dato) (fun dato =>
  obind (date_range_M_1 pandas_reads dato) (fun dates =>
  match dates with
  | d :: _ => Return (Timestamp_str d)
  | [] => Raise IndexError
  end)).

(** The local variables of [prepare_dataframe] that a branch may or may
    not assign; [freg] is the name that the two week branches assign. *)
Record locals := {
  df_ret : option DataFrame;
  freq : option str;
  freg : option str;
  periods : option Z
}.

Definition set_time (name : str) : M unit :=
  s <- get_self ;;
  set_self
    {| language := language s; burl := burl s; furl := furl s;
       variables := variables s; time := Some name |}.

(** [self.time] as the label of a column; line 358 has assigned it, and
    no column has the label [None]. *)
Definition self_time : M str :=
  s <- get_self ;;
  match time s with
  | Some t => ret t
  | None => raise KeyError
  end.

(** [df_ret = df[[self.time, val_col]]] *)
Definition take (df : DataFrame) (val_col : str) : M DataFrame :=
  t <- self_time ;;
  lift (getitems df [t; val_col]).

(** [df_ret.loc[:, self.time] = <conv>(df[self.time])] *)
Definition assign (df df_ret : DataFrame) (conv : Series -> outcome Series)
  : M DataFrame :=
  t <- self_time ;;
  col <- lift (obind (getitem df t) conv) ;;
  ret (setcol df_ret t col).

(** [marker in df_ret.loc[0, self.time]] *)
Definition marked (marker : str) (df_ret : DataFrame) : M bool :=
  t <- self_time ;;
  lift (loc0_contains marker df_ret t).

(** The four branches, which the two languages share but for the names
    they write.  [renames_time] is false in the one branch (Norwegian,
    quarter) that assigns the local [time_col] instead of [self.time]. *)
Definition month_branch (df : DataFrame) (val_col name : str) : M locals :=
  set_time name ;;
  df_ret <- take df val_col ;;
  df_ret <- assign df df_ret (fun col =>
              obind (str_replace !"M" !"-" col)
                    (to_datetime_col (to_datetime pandas_reads))) ;;
  ret {| df_ret := Some df_ret; freq := Some !"M"; freg := None;
         periods := Some 12%Z |}.

Definition week_branch (df : DataFrame) (val_col name : str) : M locals :=
  set_time name ;;
  df_ret <- take df val_col ;;
  df_ret <- assign df df_ret (fun col =>
              obind (str_replace !"U" !"-" col) (fun col =>
              obind (add !"-1" col)
                    (to_datetime_col (strptime_Y_W_w pandas_reads)))) ;;
  ret {| df_ret := Some df_ret; freq := None; freg := Some !"W";
         periods := Some 52%Z |}.

Definition quarter_branch (df : DataFrame) (val_col name : str)
    (renames_time : bool) : M locals :=
  (if renames_time then set_time name else ret tt) ;;
  df_ret <- take df val_col ;;
  df_ret <- assign df df_ret (fun col =>
              obind (str_replace !"K" !"-" col)
                    (to_datetime_col (to_datetime pandas_reads))) ;;
  df_ret <- assign df df_ret (apply fiksDato) ;;
  ret {| df_ret := Some df_ret; freq := Some !"q"; freg := None;
         periods := Some 4%Z |}.

Definition year_branch (df : DataFrame) (val_col name : str) : M locals :=
  set_time name ;;
  df_ret <- take df val_col ;;
  df_ret <- assign df df_ret (to_datetime_col (to_datetime pandas_reads)) ;;
  ret {| df_ret := Some df_ret; freq := Some !"y"; freg := None;
         periods := None |}.

(** The names written to [self.time]: "måned" and "år" have the letter
    a-ring, code point 229. *)
Definition maaned : str := !"m" ++ [229%N] ++ !"ned".
Definition aar : str := [229%N] ++ !"r".

(** The chain of tests on the first cell of the time column, lines 361-383
    and 385-407, with the names that the language writes. *)
Definition by_marker (df : DataFrame) (val_col : str)
    (month week quarter year : str) (renames_time : bool) : M locals :=
  df_ret <- take df val_col ;;
  m <- marked !"M" df_ret ;;
  if m then month_branch df val_col month else
  u <- marked !"U" df_ret ;;
  if u then week_branch df val_col week else
  k <- marked !"K" df_ret ;;
  if k then quarter_branch df val_col quarter renames_time
  else year_branch df val_col year.

(** [prepare_dataframe(self, df, val_col)] *)
Definition prepare_dataframe (df : DataFrame) (val_col : str)
  : M (DataFrame * str * Z) :=
  time_col <- lift (columns_m2 df) ;;
  set_time time_col ;;
  s <- get_self ;;
  l <- (if PyStr.eqb (language s) !"no"
        then by_marker df val_col maaned !"uke" !"kvartal" aar false
        else if PyStr.eqb (language s) !"en"
        then by_marker df val_col !"month" !"week" !"quarter" !"year" true
        else ret {| df_ret := None; freq := None; freg := None;
                    periods := None |}) ;;
  df_ret <- local (df_ret l) ;;
  df_ret <- lift (set_columns df_ret [ !"ds"; !"y" ]) ;;
  freq <- local (freq l) ;;
  periods <- local (periods l) ;;
  ret (df_ret, freq, periods).

End Reshape.

End Reshape.

Import Reshape.

(** ** Python literals: [repr], [str] of a list, [ast.literal_eval] *)

Module Literal.

(** The values that a query document is made of. *)
Inductive pyobj :=
| PStr (s : str)
| PList (l : list pyobj)
| PDict (d : list (str * pyobj)).

(** A source literal that contains double quotes, written here with an
    apostrophe in the place of each of them. *)
Definition qlit (s : string) : str :=
  List.map (fun c => if (c =? 39)%N then 34%N else c) (lit s).

Local Open Scope N_scope.

Definition hexdigit (n : N) : char := if n <? 10 then 48 + n else 87 + n.

Fixpoint hex (width : nat) (n : N) : str :=
  match width with
  | O => []
  | S w => hex w (n / 16) ++ [hexdigit (n mod 16)]
  end.

Section Repr.

(** [str.isprintable] for one character outside ASCII: a table of the
    Unicode database. *)
Variable isprintable : char -> bool.

(** One character of [repr(s)], inside the quotes [quote]. *)
Definition repr_char (quote c : char) : str :=
  if (c =? quote) || (c =? 92) then [92; c]
  else if c =? 9 then !"\t"
  else if c =? 10 then !"\n"
  else if c =? 13 then !"\r"
  else if (c <? 32) || (c =? 127) then !"\x" ++ hex 2 c
  else if c <? 127 then [c]
  else if isprintable c then [c]
  else if c <=? 255 then !"\x" ++ hex 2 c
  else if c <=? 65535 then !"\u" ++ hex 4 c
  else !"\U" ++ hex 8 c.

(** [repr(s)] for a string: apostrophes around it, unless it has an
    apostrophe and no double quote. *)
Definition repr (s : str) : str :=
  let quote := if existsb (N.eqb 39) s && negb (existsb (N.eqb 34) s)
               then 34 else 39 in
  [quote] ++ flat_map (repr_char quote) s ++ [quote].

Fixpoint join (sep : str) (l : list str) : str :=
  match l with
  | [] => []
  | [a] => a
  | a :: l' => a ++ sep ++ join sep l'
  end.

(** [str(l)] for a list of strings. *)
Definition str_of_list (l : list str) : str :=
  !"[" ++ join !", " (List.map repr l) ++ !"]".

End Repr.

(** *** [ast.literal_eval], on dictionary and list displays of strings

    The reader is a machine that takes one character at a time.  On a
    text that Python's grammar takes for something else than a display of
    strings (a number, a name, a tuple, a set, a comment, a prefixed or
    triple-quoted string, an escape other than the six below) it stops
    with [NotModelled]. *)

Inductive frame :=
| FList (acc : list pyobj)
| FDict (acc : list (str * pyobj)) (key : option str).

Inductive slot :=
| Expect (closable : bool)     (* a value, or a closing bracket if allowed *)
| Have (v : pyobj)             (* a value has just been read *)
| InStr (q : char) (acc : str) (* inside quotes [q] *)
| InEsc (q : char) (acc : str) (* after a backslash inside quotes *)
| Pending (q : char)           (* two quotes in a row have been read *)
| InName (acc : str).          (* in a name that follows a value *)

Definition pstate : Type := list frame * slot.

(** [d[k] = v] for the dictionary being built. *)
Fixpoint dict_set (d : list (str * pyobj)) (k : str) (v : pyobj)
  : list (str * pyobj) :=
  match d with
  | [] => [(k, v)]
  | (k', v') :: d' =>
      if PyStr.eqb k' k then (k', v) :: d' else (k', v') :: dict_set d' k v
  end.

Definition unescape (c : char) : option char :=
  if (c =? 92) || (c =? 39) || (c =? 34) then Some c
  else if c =? 110 then Some 10
  else if c =? 114 then Some 13
  else if c =? 116 then Some 9
  else None.

Definition is_name_start (c : char) : bool :=
  (97 <=? c) && (c <=? 122) || (65 <=? c) && (c <=? 90) || (c =? 95).

Definition is_name_char (c : char) : bool :=
  is_name_start c || (48 <=? c) && (c <=? 57).

(** The words that can continue an expression after a value. *)
Definition operators : list str :=
  [ !"if"; !"else"; !"in"; !"is"; !"and"; !"or"; !"not"; !"for"; !"async" ].

(** The letters of the prefixes of string literals. *)
Definition is_prefix_letter (c : char) : bool :=
  existsb (N.eqb c) (!"rubftRUBFT").

(** A name right after a value: a syntax error, unless it is one of the
    words above or the prefix of a string literal that follows. *)
Definition name_end (acc : str) (next : option char) : outcome pstate :=
  let prefix :=
    match next with
    | Some c => ((c =? 34) || (c =? 39)) && forallb is_prefix_letter acc
    | None => false
    end in
  if prefix || existsb (PyStr.eqb acc) operators
  then Raise NotModelled
  else Raise SyntaxError.

(** The nesting up to which the reader follows Python's. *)
Definition max_depth : nat := 50.

Definition push (f : frame) (stack : list frame) : outcome pstate :=
  if Nat.ltb (List.length stack) max_depth
  then Return (f :: stack, Expect true)
  else Raise NotModelled.

(** A character outside quotes. *)
Definition token (stack : list frame) (sl : slot) (c : char) : outcome pstate :=
  if (c =? 32) || (c =? 9) then Return (stack, sl)
  else if (c =? 10) || (c =? 13) then
    match stack, sl with
    | [], Expect _ => Raise NotModelled
    | _, _ => Return (stack, sl)
    end
  else
    match sl with
    | Expect closable =>
        if c =? 91 then push (FList []) stack
        else if c =? 123 then push (FDict [] None) stack
        else if (c =? 34) || (c =? 39) then Return (stack, InStr c [])
        else if c =? 93 then
          match closable, stack with
          | true, FList acc :: stack' => Return (stack', Have (PList acc))
          | _, _ => Raise SyntaxError
          end
        else if c =? 125 then
          match closable, stack with
          | true, FDict acc None :: stack' => Return (stack', Have (PDict acc))
          | _, _ => Raise SyntaxError
          end
        else if (c =? 44) || (c =? 58) then Raise SyntaxError
        else Raise NotModelled
    | Have v =>
        if c =? 44 then
          match stack with
          | FList acc :: stack' =>
              Return (FList (acc ++ [v]) :: stack', Expect true)
          | FDict acc (Some k) :: stack' =>
              Return (FDict (dict_set acc k v) None :: stack', Expect true)
          | _ => Raise NotModelled
          end
        else if c =? 93 then
          match stack with
          | FList acc :: stack' => Return (stack', Have (PList (acc ++ [v])))
          | _ => Raise SyntaxError
          end
        else if c =? 125 then
          match stack with
          | FDict acc (Some k) :: stack' =>
              Return (stack', Have (PDict (dict_set acc k v)))
          | FDict _ None :: _ => Raise NotModelled
          | _ => Raise SyntaxError
          end
        else if c =? 58 then
          match stack, v with
          | FDict acc None :: stack', PStr k =>
              Return (FDict acc (Some k) :: stack', Expect false)
          | _, _ => Raise NotModelled
          end
        else if is_name_start c then Return (stack, InName [c])
        else Raise NotModelled
    | _ => Raise NotModelled
    end.

Definition step (st : pstate) (c : char) : outcome pstate :=
  let '(stack, sl) := st in
  match sl with
  | InStr q acc =>
      if c =? q then
        Return (stack, match acc with [] => Pending q | _ => Have (PStr acc) end)
      else if c =? 92 then Return (stack, InEsc q acc)
      else if (c =? 10) || (c =? 13) then Raise SyntaxError
      else Return (stack, InStr q (acc ++ [c]))
  | InEsc q acc =>
      match unescape c with
      | Some c' => Return (stack, InStr q (acc ++ [c']))
      | None => Raise NotModelled
      end
  | Pending q =>
      if c =? q then Raise NotModelled else token stack (Have (PStr [])) c
  | InName acc =>
      if is_name_char c then Return (stack, InName (acc ++ [c]))
      else if 128 <=? c then Raise NotModelled
      else name_end acc (Some c)
  | _ => token stack sl c
  end.

Fixpoint run (st : pstate) (s : str) : outcome pstate :=
  match s with
  | [] => Return st
  | c :: s' => obind (step st c) (fun st' => run st' s')
  end.

(** The end of the text. *)
Definition finish (st : pstate) : outcome pyobj :=
  match st with
  | ([], Have v) => Return v
  | ([], Pending _) => Return (PStr [])
  | (_, InName acc) => obind (name_end acc None) (fun _ => Raise SyntaxError)
  | _ => Raise SyntaxError
  end.

(** A character that the text of a Python source can hold: not the null
    character, not half of a surrogate pair, not beyond Unicode. *)
Definition encodable (c : char) : bool :=
  negb (c =? 0) && ((c <? 55296) || (57343 <? c)) && (c <=? 1114111).

(** [ast.literal_eval(s)] *)
Definition literal_eval (s : str) : outcome pyobj :=
  if forallb encodable s
  then obind (run ([], Expect false) s) finish
  else Raise NotModelled.

End Literal.

Import Literal.

(** ** The widgets that [select] builds *)

Module Widgets.

(** [collections.OrderedDict(pairs)]: a key that comes again keeps its
    place and takes the new value. *)
Fixpoint odict_set (d : list (str * str)) (k v : str) : list (str * str) :=
  match d with
  | [] => [(k, v)]
  | (k', v') :: d' =>
      if PyStr.eqb k' k then (k', v) :: d' else (k', v') :: odict_set d' k v
  end.

Definition OrderedDict (pairs : list (str * str)) : list (str * str) :=
  fold_left (fun d kv => odict_set d (fst kv) (snd kv)) pairs [].

(** [widgets.SelectMultiple]: the options as (label, value) pairs and the
    values now selected. *)
Record SelectMultiple := {
  options : list (str * str);
  value : list str;
  rows : Z;
  width : str
}.

(** [widgets.Tab] *)
Record Tab := {
  children : list SelectMultiple;
  titles : list str
}.

(** The [widgets.VBox] of [select]; its children in order are
    [headline], [endline], [variables_container], [url_text], [button]. *)
Record VBox := {
  headline : str;
  endline : str;
  variables_container : Tab;
  url_text : str;
  button : str;
  border : str
}.

End Widgets.

Import Widgets.

(** ** The methods that talk to the API (lines 120-328) *)

Module Client.

(** What [pd.read_json] makes of the metadata of a table: one row for each
    variable, the title of the table in the first column and the
    variable in the second. *)
Record TableInfo := {
  title : str;
  table_variables : list variable
}.

Section Client.

(** [int] beyond Latin-1, as in [Py]. *)
Variable int_unicode : str -> option Z.

(** The remote API: the answer to a GET of the metadata address, as
    [pd.read_json] returns it or fails, and the answer to a POST of a
    query, as [pyjstat] and [json] read it or fail: the first frame and
    the label of the dataset. *)
Variable read_json : str -> outcome TableInfo.
Variable post : str -> pyobj -> outcome (DataFrame * str).

(** [str.isprintable] outside ASCII, as in [Literal]. *)
Variable isprintable : char -> bool.

Local Abbreviation M := (M pyobj).

Definition set_furl (url : str) : M unit :=
  s <- get_self ;;
  set_self
    {| language := language s; burl := burl s; furl := Some url;
       variables := variables s; time := time s |}.

Definition set_variables (vs : list variable) : M unit :=
  s <- get_self ;;
  set_self
    {| language := language s; burl := burl s; furl := furl s;
       variables := Some vs; time := time s |}.

(** [pd.read_json(self.furl)]; [None] is no address to read. *)
Definition read_furl : M TableInfo :=
  s <- get_self ;;
  match furl s with
  | Some url => send (GET url) (read_json url)
  | None => raise ValueError
  end.

(** [str(numb)] for the local [numb], an integer or a string. *)
Definition format_numb (numb : arg) : str :=
  match numb with
  | AInt n => str_of_int n
  | AStr s => s
  | ANone => !"None"
  end.

(** [get_variables(self, table_id)] *)
Definition get_variables (table_id : arg) : M (list variable) :=
  numb <- try_except
            (numb <- lift (int int_unicode table_id) ;;
             if Nat.eqb (List.length (str_of_int numb)) 4
             then ret (Some (AStr (!"0" ++ str_of_int numb)))
             else ret (Some (AInt numb)))
            (fun e => match e with
                      | ValueError =>
                          Some (print !"table_id mus be of type integer" ;;
                                ret None)
                      | _ => None
                      end) ;;
  s <- get_self ;;
  match furl s with
  | None =>
      numb <- local numb ;;
      set_furl (burl s ++ !"/" ++ language s ++ !"/table/" ++ format_numb numb)
  | Some _ => ret tt
  end ;;
  df <- read_furl ;;
  ret (table_variables df).

(** Lines 183-185: one dictionary from label to value for each variable. *)
Definition option_list (vars : list variable) : list (list (str * str)) :=
  List.map (fun v => OrderedDict (combine (valueTexts v) (values v))) vars.

(** [select(self, table_id)]; [furl] is set when [get_variables] has
    returned, so that the label [url_text] has its text. *)
Definition select (table_id : arg) : M VBox :=
  vars <- get_variables table_id ;;
  set_variables vars ;;
  table_info <- read_furl ;;
  table_title <- match table_variables table_info with
                 | _ :: _ => ret (title table_info)
                 | [] => raise IndexError
                 end ;;
  let selection_widgets :=
    List.map (fun o => {| options := o; value := []; rows := 8;
                          width := !"500px" |}) (option_list vars) in
  let variables_container :=
    {| children := selection_widgets; titles := List.map text vars |} in
  s <- get_self ;;
  url <- match furl s with
         | Some url => ret url
         | None => raise TypeError
         end ;;
  ret {| headline := table_title;
         endline := !"Select category and click on elements "
                    ++ [10%N] ++ !"            to be included in the table (CTRL-A selects "
                    ++ qlit "'all')";
         variables_container := variables_container;
         url_text := url;
         button := !"Click when finished";
         border := !"3px grey solid" |}.

(** The body of the loop of lines 267-272 for the widgets from index [x]
    on: the text of one entry of the query for each. *)
Fixpoint query_element (vars : option (list variable)) (x : nat)
    (tabs : list SelectMultiple) : outcome (list str) :=
  match tabs with
  | [] => Return []
  | tab :: tabs' =>
      let value_list := str_of_list isprintable (value tab) in
      obind (match vars with
             | None => Raise TypeError
             | Some vs => match nth_error vs x with
                          | Some v => Return (code v)
                          | None => Raise IndexError
                          end
             end) (fun code =>
      let element :=
        qlit "{'code': '" ++ code
        ++ qlit "', 'selection': {'filter': 'item', 'values': "
        ++ value_list ++ !" }}" in
      let element := replace [39%N] [34%N] element in
      obind (query_element vars (S x) tabs') (fun rest =>
      Return (element :: rest)))
  end.

(** The text of the query, lines 274-277. *)
Definition query_text (elements : list str) : str :=
  let all_elements := str_of_list isprintable elements in
  let all_elements := replace [39%N] [] all_elements in
  qlit "{'query': " ++ all_elements
  ++ qlit " , 'response': {'format': 'json-stat' }}".

(** [get_json(self, box, out)]; the text comes back as a [PStr]. *)
Definition get_json (box : option VBox) (out : str) : M pyobj :=
  box <- match box with
         | Some b => ret b
         | None => raise AttributeError
         end ;;
  s <- get_self ;;
  elements <- lift (query_element (variables s) 0
                      (children (variables_container box))) ;;
  let query := query_text elements in
  if PyStr.eqb out !"dict"
  then lift (literal_eval query)
  else ret (PStr query).

(** [to_dict(json_str)] *)
Definition to_dict (json_str : str) : outcome pyobj := literal_eval json_str.

(** [read_box(self, from_box)]: [None] is what a Python function returns
    when it ends without [return]. *)
Definition read_box (from_box : option VBox) : M (option (DataFrame * str)) :=
  try_except
    (query <- get_json from_box !"dict" ;;
     url <- match from_box with
            | Some b => ret (url_text b)
            | None => raise AttributeError
            end ;;
     r <- send (POST url query) (post url query) ;;
     ret (Some r))
    (fun e => match e with
              | TypeError =>
                  Some (print !"You must make choices in the box!" ;; ret None)
              | _ =>
                  Some (print !"You must make choices in the box!" ;; ret None)
              end).

End Client.

End Client.

Import Client.

(** * Notions for the statements *)

Module Notions.

(** ** Sessions *)

(** What lines 137-143 leave in [numb]. *)
Definition numb_of (n : Z) : arg :=
  if Nat.eqb (List.length (str_of_int n)) 4
  then AStr (!"0" ++ str_of_int n)
  else AInt n.

(** The address that line 146 builds. *)
Definition table_url (s : API_to_data) (numb : arg) : str :=
  burl s ++ !"/" ++ language s ++ !"/table/" ++ format_numb numb.

(** The object with [u] in [furl]. *)
Definition with_furl (s : API_to_data) (u : str) : API_to_data :=
  {| language := language s; burl := burl s; furl := Some u;
     variables := variables s; time := time s |}.

(** The world after one more GET of [u], with [u] in [furl]. *)
Definition fetched (w : world pyobj) (u : str) (out : list str) : world pyobj :=
  {| self := with_furl (self w) u;
     stdout := stdout w ++ out;
     wire := wire w ++ [GET u] |}.

(** The one message of [read_box]. *)
Definition choose : str := !"You must make choices in the box!".

(** The world after [print(s)], after a request [r], after an assignment
    to [self.time]. *)
Definition printed (w : world pyobj) (s : str) : world pyobj :=
  {| self := self w; stdout := stdout w ++ [s]; wire := wire w |}.

Definition sent (w : world pyobj) (r : request pyobj) : world pyobj :=
  {| self := self w; stdout := stdout w; wire := wire w ++ [r] |}.

Definition with_time (w : world pyobj) (name : str) : world pyobj :=
  {| self := {| language := language (self w); burl := burl (self w);
                furl := furl (self w); variables := variables (self w);
                time := Some name |};
     stdout := stdout w; wire := wire w |}.

(** ** Sample tables, sessions, boxes and frames *)

(** Nothing known of the strings that the model leaves to the libraries:
    the sessions below meet none. *)
Definition no_reading (format : option str) (s : str) : outcome Timestamp :=
  Raise NotModelled.

Definition no_int (s : str) : option Z := None.

(** The metadata of a table with two variables, whatever the address. *)
Definition sample_region : variable :=
  {| code := !"Region"; text := !"region";
     values := [ !"0301"; !"1103" ];
     valueTexts := [ !"Oslo"; !"Stavanger" ] |}.

(** The variable of the years. *)
Definition sample_year : variable :=
  {| code := !"Tid"; text := !"year";
     values := [ !"2019"; !"2020" ];
     valueTexts := [ !"2019"; !"2020" ] |}.

(** An API that answers every GET with the metadata of that table. *)
Definition sample_api (url : str) : outcome TableInfo :=
  Return {| title := !"10714: Sample table";
            table_variables := [sample_region; sample_year] |}.

(** [API_to_data()] with the default arguments, nothing printed, nothing
    sent. *)
Definition fresh : world pyobj :=
  {| self := init !"en" !"http://data.ssb.no/api/v0";
     stdout := []; wire := [] |}.

(** The address of the metadata of table 10714. *)
Definition url_10714 : str := !"http://data.ssb.no/api/v0/en/table/10714".

(** The session after [get_variables('10714')]. *)
Definition resolved : world pyobj :=
  snd (get_variables no_int sample_api (AStr !"10714") fresh).

(** A variable with the label "Sande" given to two values. *)
Definition sample_municipality : variable :=
  {| code := !"Region"; text := !"region";
     values := [ !"0713"; !"1103"; !"1514" ];
     valueTexts := [ !"Sande"; !"Stavanger"; !"Sande" ] |}.

(** An API that answers with the table of that one variable. *)
Definition municipality_api (url : str) : outcome TableInfo :=
  Return {| title := !"Sample table";
            table_variables := [sample_municipality] |}.

(** A table by country whose values are the names themselves. *)
Definition sample_country : variable :=
  {| code := !"Land"; text := !"country";
     values := [ !"Norway"; !"Cote d'Ivoire" ];
     valueTexts := [ !"Norway"; !"Cote d'Ivoire" ] |}.

(** An API that answers with the table by country and year. *)
Definition country_api (url : str) : outcome TableInfo :=
  Return {| title := !"Sample table";
            table_variables := [sample_country; sample_year] |}.

(** The table of printable characters for Latin-1, which [repr] consults
    above code point 126 only: the control characters, the no-break space
    and the soft hyphen are not printable.  The texts of the sessions
    below are ASCII and never consult it. *)
Definition latin1_printable (c : char) : bool :=
  negb ((c <=? 160) || (c =? 173))%N.

(** The box that [select('10714')] returns in a new session, with nothing
    selected, and the session after the call. *)
Definition sample_select : outcome VBox * world pyobj :=
  select no_int sample_api (AStr !"10714") fresh.

(** The same for the table by country. *)
Definition country_select : outcome VBox * world pyobj :=
  select no_int country_api (AStr !"10714") fresh.

(** The box of a call of [select], to hand to [get_json] or [read_box]. *)
Definition box_of (r : outcome VBox) : option VBox :=
  match r with
  | Return box => Some box
  | Raise _ => None
  end.

(** The box with the values [sels] selected, widget by widget. *)
Definition pick (sels : list (list str)) (box : option VBox) : option VBox :=
  option_map (fun b =>
    {| headline := headline b; endline := endline b;
       variables_container :=
         {| children :=
              List.map (fun p => {| options := options (fst p);
                                    value := snd p;
                                    rows := rows (fst p);
                                    width := width (fst p) |})
                (combine (children (variables_container b)) sels);
            titles := titles (variables_container b) |};
       url_text := url_text b; button := button b; border := border b |})
    box.

(** A server that refuses every query. *)
Definition refusing (url : str) (query : pyobj) : outcome (DataFrame * str) :=
  Raise HTTPError.

(** What the answering server returns: a frame and a label. *)
Definition answer : DataFrame * str :=
  ([ (!"year", StrCol [ !"2020" ]); (!"value", NumCol [5%Z]) ], !"Sample table").

(** A server that answers every query. *)
Definition answering (url : str) (query : pyobj) : outcome (DataFrame * str) :=
  Return answer.

(** The frame of a table by week, with one row. *)
Definition week_frame : DataFrame :=
  [ (!"week", StrCol [ !"2020U15" ]); (!"value", NumCol [5%Z]) ].

(** The frame of a table by year, with one row. *)
Definition year_frame : DataFrame :=
  [ (!"year", StrCol [ !"2020" ]); (!"value", NumCol [5%Z]) ].

(** ** Dates *)

(** The Monday of the ISO 8601 week [week] of the year [y]: week 1 is the
    week of the fourth of January. *)
Definition iso_monday (y week : Z) : Timestamp :=
  let jan4 := {| year := y; month := 1; day := 4 |} in
  fromordinal (toordinal jan4 - weekday jan4 + 7 * (week - 1)).

(** ** Queries as documents and as texts *)

(** One entry of a query, as a document. *)
Definition entry (code : str) (selected : list str) : pyobj :=
  PDict [ (!"code", PStr code);
          (!"selection", PDict [ (!"filter", PStr !"item");
                                 (!"values", PList (List.map PStr selected)) ]) ].

(** The query document of [get_json] with the entries [entries]. *)
Definition document (entries : list pyobj) : pyobj :=
  PDict [ (!"query", PList entries);
          (!"response", PDict [ (!"format", PStr !"json-stat") ]) ].

(** The entry of a code with the values selected for it. *)
Definition entry_of (e : str * list str) : pyobj := entry (fst e) (snd e).

Section Texts.

Local Open Scope N_scope.

(** A text between double quotes, between apostrophes. *)
Definition dquote (s : str) : str := [34] ++ s ++ [34].

Definition squote (s : str) : str := [39] ++ s ++ [39].

(** The texts of a list, joined, when each is between quotes [q]. *)
Definition quoted_list (q : char) (l : list str) : str :=
  !"[" ++ join !", " (List.map (fun s => [q] ++ s ++ [q]) l) ++ !"]".

(** The text of one entry, once its apostrophes are double quotes. *)
Definition element_text (code : str) (selected : list str) : str :=
  qlit "{'code': '" ++ code
  ++ qlit "', 'selection': {'filter': 'item', 'values': "
  ++ quoted_list 34 selected ++ !" }}".

(** The text of the entry of a code with the values selected for it. *)
Definition element_of (e : str * list str) : str :=
  element_text (fst e) (snd e).

(** The text of the whole query. *)
Definition query_nice (elements : list str) : str :=
  qlit "{'query': " ++ !"[" ++ join !", " elements ++ !"]"
  ++ qlit " , 'response': {'format': 'json-stat' }}".

(** The keys of a dictionary, in order. *)
Definition keys (d : list (str * str)) : list str := List.map fst d.

End Texts.

Section Remote.

Variable read_json : str -> outcome TableInfo.

(** What [get_variables] returns when the GET of [u] is answered. *)
Definition read_variables (u : str) : outcome (list variable) :=
  obind (read_json u) (fun df => Return (table_variables df)).

(** The GETs that a call of [select] sends when [furl] is [u]: one through
    [get_variables] and, when that one is answered, a second one. *)
Definition select_requests (u : str) : list (request pyobj) :=
  GET u :: match read_json u with
           | Return _ => [GET u]
           | Raise _ => []
           end.

End Remote.

Section Printable.

Variable isprintable : char -> bool.

Local Open Scope N_scope.

(** A character that [repr] writes as it is, whatever the quotes, and that
    [literal_eval] reads as it is: no quote, no backslash, printable. *)
Definition safe_char (c : char) : bool :=
  encodable c
  && (negb (c =? 39) && negb (c =? 34) && negb (c =? 92) && (32 <=? c)
      && ((c <? 127) || (127 <? c) && isprintable c)).

(** A text of such characters. *)
Definition safe (s : str) : bool := forallb safe_char s.

(** The same, but that the double quote is allowed. *)
Definition mild_char (c : char) : bool := safe_char c || (c =? 34).

(** A code and selected values that are all safe texts. *)
Definition safe_entry (e : str * list str) : bool :=
  safe (fst e) && forallb safe (snd e).

End Printable.

(** ** Searches *)

(** The substitutions of the search address, one by one: the space, the
    two parentheses, the double quote, and the letters ae, AE, o-slash,
    O-slash, a-ring, A-ring by their codes; any other character by
    itself. *)
Definition substitution (c : char) : str :=
  if (c =? 32)%N then !"%20"
  else if (c =? 40)%N then !"%28"
  else if (c =? 41)%N then !"%29"
  else if (c =? 34)%N then !"%22"
  else if (c =? 230)%N then !"%C3%A6"
  else if (c =? 198)%N then !"%C3%86"
  else if (c =? 248)%N then !"%C3%B8"
  else if (c =? 216)%N then !"%C3%98"
  else if (c =? 229)%N then !"%C3%A5"
  else if (c =? 197)%N then !"%C3%85"
  else [c].

(** A key of the table [convert]. *)
Definition is_key (c : char) : bool :=
  existsb (fun kv => PyStr.eqb (fst kv) [c]) Search.convert.

(** A text without any key. *)
Definition plain (s : str) : bool := forallb (fun c => negb (is_key c)) s.

(** What lines 106 and 107 take from a title: the piece before the first
    colon, and the piece after it. *)
Definition id_of_title (s : str) : option str :=
  nth_error (Matches.split 58%N s) 0.

Definition text_of_title (s : str) : option str :=
  nth_error (Matches.split 58%N s) 1.

(** Labels from the greatest to the least. *)
Fixpoint descending (l : list str) : bool :=
  match l with
  | [] => true
  | a :: l' => forallb (fun b => negb (Matches.str_ltb a b)) l' && descending l'
  end.

(** The answer of the API to a search: two matches. *)
Definition sample_matches (url : str) : outcome DataFrame :=
  Return [ (!"id", StrCol [ !"07459"; !"05810" ]);
           (!"path", StrCol [ !"/befolkning"; !"/befolkning" ]);
           (!"title", StrCol [ !"07459: Population, by sex and age";
                               !"05810: Population: by age" ]);
           (!"score", NumCol [2%Z; 1%Z]);
           (!"published", StrCol [ !"2020-02-27"; !"2020-02-27" ]) ].

(** ** More sessions, boxes and dictionaries *)

(** An API that answers no request. *)
Definition failing_api (url : str) : outcome TableInfo := Raise HTTPError.

(** A new session in a language that the client does not know. *)
Definition swedish : world pyobj :=
  {| self := init !"sv" !"http://data.ssb.no/api/v0";
     stdout := []; wire := [] |}.

(** A box without widgets, and the box that an option holds. *)
Definition empty_box : VBox :=
  {| headline := []; endline := [];
     variables_container := {| children := []; titles := [] |};
     url_text := []; button := []; border := [] |}.

Definition unbox (box : option VBox) : VBox :=
  match box with
  | Some b => b
  | None => empty_box
  end.

(** The value that a dictionary gives for a label. *)
Definition lookup (k : str) (d : list (str * str)) : option str :=
  option_map snd (find (fun kv => PyStr.eqb (fst kv) k) d).

(** ** Frames by month and by quarter *)

Section Cells.

Local Open Scope Z_scope.

(** The cell of a month: the year, the marker, the month with two
    digits; a row is the pair of the year and the month. *)
Definition month_cell (r : Z * Z) : str :=
  str_of_int (fst r) ++ !"M" ++ zfill 2 (str_of_int (snd r)).

(** The first day of a month. *)
Definition month_start (r : Z * Z) : Timestamp :=
  {| year := fst r; month := snd r; day := 1 |}.

(** A year that a [Timestamp] holds whole, with a number from 1 to
    [upto]. *)
Definition dated (upto : Z) (r : Z * Z) : Prop :=
  1678 <= fst r <= 2261 /\ 1 <= snd r <= upto.

(** The cell of a quarter: the year as it is written, the marker, the
    quarter; a row is the pair of the text of the year and the quarter. *)
Definition quarter_cell (r : str * Z) : str :=
  fst r ++ !"K" ++ str_of_int (snd r).

(** The same with a hyphen for the marker. *)
Definition quarter_hyphen (r : str * Z) : str :=
  fst r ++ !"-" ++ str_of_int (snd r).

(** The last day of a quarter at midnight, after the year: the four
    dates, written out. *)
Definition quarter_end_text (q : Z) : str :=
  match q with
  | 1 => !"-03-31 00:00:00"
  | 2 => !"-06-30 00:00:00"
  | 3 => !"-09-30 00:00:00"
  | _ => !"-12-31 00:00:00"
  end.

(** A row of a quarter: four digits that write a year from 1678 to 2261,
    and a quarter from 1 to 4. *)
Definition quarter_row (r : str * Z) : Prop :=
  List.length (fst r) = 4%nat /\
  (exists Y, number 0 (fst r) = Some Y /\ 1678 <= Y <= 2261) /\
  1 <= snd r <= 4.

(** The name that the branch taken at the first cell [cell] writes to
    [self.time]; none in the Norwegian quarter branch, which leaves it. *)
Definition time_name (language cell : str) : option str :=
  let no := PyStr.eqb language !"no" in
  if contains !"M" cell then Some (if no then maaned else !"month")
  else if contains !"U" cell then Some (if no then !"uke" else !"week")
  else if contains !"K" cell then (if no then None else Some !"quarter")
  else Some (if no then aar else !"year").

End Cells.

(** An outcome that is a [ValueError]. *)
Definition is_value_error (o : outcome Z) : bool :=
  match o with
  | Raise ValueError => true
  | _ => false
  end.

(** A reading of the dates that takes a year, a hyphen and one digit for
    the first day of that month, and knows nothing else. *)
Definition short_month_reading (format : option str) (s : str)
  : outcome Timestamp :=
  match format, s with
  | None, [y1; y2; y3; y4; 45%N; m] =>
      match number 0 [y1; y2; y3; y4], number 0 [m] with
      | Some y, Some m =>
          if valid_date y m 1
          then checked {| year := y; month := m; day := 1 |}
          else Raise ValueError
      | _, _ => Raise ValueError
      end
  | _, _ => Raise NotModelled
  end.

(** Frames with one column of time and one of values. *)
Definition month_frame : DataFrame :=
  [ (!"month", StrCol [ !"2020M01"; !"2020M02" ]);
    (!"value", NumCol [5%Z; 7%Z]) ].

Definition quarter_frame : DataFrame :=
  [ (!"quarter", StrCol [ !"2020K2" ]); (!"value", NumCol [5%Z]) ].

(** The frame by month with another label on the column of time. *)
Definition time_frame : DataFrame :=
  [ (!"time", StrCol [ !"2020M01"; !"2020M02" ]);
    (!"value", NumCol [5%Z; 7%Z]) ].

(** A frame by year whose years are numbers. *)
Definition number_frame : DataFrame :=
  [ (!"year", NumCol [2020%Z]); (!"value", NumCol [5%Z]) ].

End Notions.

Import Notions.

(** * Properties *)

(** ** Strings *)

Lemma str_eqb_spec (a b : str) : reflect (a = b) (PyStr.eqb a b).
Proof.
  unfold PyStr.eqb. destruct (list_eq_dec N.eq_dec a b); constructor; assumption.
Qed.

Lemma replace_char (k : char) (new s : str) :
  replace [k] new s = flat_map (subst1 k new) s.
Proof.
  unfold replace.
  induction s as [|c s IH]; [reflexivity|].
  cbn [replace_scan startswith flat_map List.length Nat.sub].
  unfold subst1 at 1. rewrite N.eqb_sym.
  destruct (N.eqb c k); cbn [andb]; rewrite IH; reflexivity.
Qed.

Lemma flat_map_flat_map (f g : char -> str) (s : str) :
  flat_map f (flat_map g s) = flat_map (fun c => flat_map f (g c)) s.
Proof.
  induction s as [|c s IH]; [reflexivity|].
  cbn [flat_map]. rewrite flat_map_app, IH. reflexivity.
Qed.

(** ** [search]: the encoding of the address *)

Section SearchEncoding.

Import Search.

Lemma eqb_single (k c : char) : PyStr.eqb [k] [c] = N.eqb c k.
Proof.
  unfold PyStr.eqb.
  destruct (list_eq_dec N.eq_dec [k] [c]) as [E|E], (N.eqb_spec c k);
    congruence.
Qed.

(** One key after the other: is [c] this key? *)
Ltac by_key c :=
  repeat match goal with
  | |- context [N.eqb c ?k] =>
      destruct (N.eqb_spec c k) as [->|];
      [ vm_compute; reflexivity | cbn [flat_map app] ]
  end.

(** The loop over [convert] treats each character on its own. *)
Lemma encode_flat_map (s : str) : encode s = flat_map convert_char s.
Proof.
  unfold encode, convert. cbn [fold_left fst snd].
  rewrite !replace_char, !flat_map_flat_map.
  apply flat_map_ext. intro c.
  unfold convert_char, convert, subst1. cbn [find fst snd].
  rewrite !eqb_single.
  by_key c. reflexivity.
Qed.

(** A replacement holds no key: encoding it changes nothing. *)
Lemma convert_char_fixed (c : char) :
  flat_map convert_char (convert_char c) = convert_char c.
Proof.
  unfold convert_char at 2 3, convert. cbn [find fst snd].
  rewrite !eqb_single.
  by_key c.
  rewrite app_nil_r.
  unfold convert_char, convert. cbn [find fst snd].
  rewrite !eqb_single.
  repeat match goal with
  | H : c <> ?k |- _ => rewrite (proj2 (N.eqb_neq c k) H); clear H
  end.
  reflexivity.
Qed.

(** The ten codes, and every other character kept. *)
Lemma convert_char_substitution (c : char) : convert_char c = substitution c.
Proof.
  unfold convert_char, convert, substitution. cbn [find fst snd].
  rewrite !eqb_single.
  repeat match goal with
  | |- context [N.eqb c ?k] =>
      destruct (N.eqb_spec c k) as [->|]; [reflexivity|]
  end.
  reflexivity.
Qed.

(** C9. The encoding of [search] is a function of the phrase that replaces
    every occurrence of a key once and keeps every other character: the
    space becomes %20, the parentheses %28 and %29, the double quote %22,
    the letters ae, AE, o-slash, O-slash, a-ring, A-ring %C3%A6, %C3%86,
    %C3%B8, %C3%98, %C3%A5, %C3%85.  Encoding an encoded string changes
    nothing. *)
Theorem search_encoding_idempotent (s : str) :
  encode (encode s) = encode s /\
  encode s = flat_map substitution s /\
  List.map (fun c => encode [c])
    [32; 40; 41; 34; 230; 198; 248; 216; 229; 197]%N
  = [ !"%20"; !"%28"; !"%29"; !"%22"; !"%C3%A6"; !"%C3%86"; !"%C3%B8";
      !"%C3%98"; !"%C3%A5"; !"%C3%85" ].
Proof.
  split; [|split].
  - rewrite !encode_flat_map, flat_map_flat_map.
    apply flat_map_ext. intro c. apply convert_char_fixed.
  - rewrite encode_flat_map. apply flat_map_ext.
    intro c. apply convert_char_substitution.
  - vm_compute. reflexivity.
Qed.

End SearchEncoding.

(** ** [get_variables] and [select]: the address of the metadata *)

Section Metadata.

Variable int_unicode : str -> option Z.
Variable read_json : str -> outcome TableInfo.

Local Abbreviation int := (int int_unicode).
Local Abbreviation int_of_str := (int_of_str int_unicode).
Local Abbreviation get_variables := (get_variables int_unicode).
Local Abbreviation select := (select int_unicode).
Local Abbreviation read_variables := (read_variables read_json).
Local Abbreviation select_requests := (select_requests read_json).

(** [int] of a string raises nothing but [ValueError]. *)
Lemma int_of_str_raises (s : str) (e : exn) :
  int_of_str s = Raise e -> e = ValueError.
Proof.
  unfold Py.int_of_str.
  match goal with |- context [existsb ?f s] => destruct (existsb f s) end.
  { destruct (int_unicode s); intro H; [discriminate|].
    injection H as <-; reflexivity. }
  destruct (strip s) as [|c r]; cbn.
  - intro H; injection H as <-; reflexivity.
  - repeat match goal with
    | |- context [match ?x with _ => _ end] => destruct x
    end; intro H; try discriminate; injection H as <-; reflexivity.
Qed.

Lemma with_furl_same (s : API_to_data) (u : str) :
  furl s = Some u -> with_furl s u = s.
Proof. destruct s; cbn; intros ->; reflexivity. Qed.

Ltac step_through :=
  unfold Client.get_variables, read_furl, set_furl, set_variables, bind, ret,
    raise, lift, local, send, print, get_self, set_self, try_except; cbn.

(** [get_variables] when the identifier is read as the integer [n]. *)
Lemma get_variables_int (table_id : arg) (n : Z) (w : world pyobj) :
  int table_id = Return n ->
  get_variables read_json table_id w =
  let u := match furl (self w) with
           | Some u => u
           | None => table_url (self w) (numb_of n)
           end in
  (read_variables u, fetched w u []).
Proof.
  intro Hn. step_through. rewrite Hn. cbn.
  unfold numb_of, fetched, Notions.read_variables, table_url, with_furl.
  destruct w as [s out wr]; cbn.
  destruct (Nat.eqb (List.length (str_of_int n)) 4); cbn;
    destruct (furl s) as [u|] eqn:Hf; cbn; rewrite ?Hf; cbn;
    rewrite ?app_nil_r;
    destruct (read_json _); cbn; try reflexivity;
    destruct s; cbn in *; subst; reflexivity.
Qed.

(** [get_variables] when the identifier is not the text of an integer. *)
Lemma get_variables_not_int (table_id : arg) (w : world pyobj) :
  int table_id = Raise ValueError ->
  get_variables read_json table_id w =
  match furl (self w) with
  | Some u =>
      (read_variables u, fetched w u [ !"table_id mus be of type integer" ])
  | None =>
      (Raise UnboundLocalError,
       {| self := self w;
          stdout := stdout w ++ [ !"table_id mus be of type integer" ];
          wire := wire w |})
  end.
Proof.
  intro Hn. step_through. rewrite Hn. cbn.
  unfold fetched, Notions.read_variables, with_furl.
  destruct w as [s out wr]; cbn.
  destruct (furl s) as [u|] eqn:Hf; cbn; rewrite ?Hf; cbn; [|reflexivity].
  destruct (read_json _); cbn; destruct s; cbn in *; subst; reflexivity.
Qed.

(** [get_variables] when [int] refuses the type of the identifier. *)
Lemma get_variables_none (w : world pyobj) :
  get_variables read_json ANone w = (Raise TypeError, w).
Proof. step_through. reflexivity. Qed.

Lemma int_cases (table_id : arg) :
  table_id = ANone \/ (exists n, int table_id = Return n)
  \/ int table_id = Raise ValueError.
Proof.
  destruct table_id as [|z|s]; cbn; [left; reflexivity | right; left; eauto |].
  right. destruct (int_of_str s) as [n|e] eqn:E; [left; eauto|].
  right. rewrite (int_of_str_raises _ E). reflexivity.
Qed.

(** With [furl] set, a call of [get_variables] on an identifier that is
    not [None] fetches [furl] once and leaves it. *)
Lemma get_variables_cached (table_id : arg) (w : world pyobj) (u : str) :
  furl (self w) = Some u -> table_id <> ANone ->
  exists out,
    get_variables read_json table_id w = (read_variables u, fetched w u out).
Proof.
  intros Hf Hid.
  destruct (int_cases table_id) as [E|[[n E]|E]]; [contradiction| |].
  - exists []. rewrite (get_variables_int _ w E), Hf. reflexivity.
  - exists [ !"table_id mus be of type integer" ].
    rewrite (get_variables_not_int _ w E), Hf. reflexivity.
Qed.

Lemma select_cached (table_id : arg) (w : world pyobj) (u : str) :
  furl (self w) = Some u -> table_id <> ANone ->
  let w2 := snd (select read_json table_id w) in
  furl (self w2) = Some u /\ wire w2 = wire w ++ select_requests u.
Proof.
  intros Hf Hid.
  destruct (get_variables_cached w Hf Hid) as [out E].
  unfold Client.select, Notions.select_requests, bind. rewrite E.
  unfold Notions.read_variables, fetched.
  destruct (read_json u) as [df|e] eqn:R; cbn; [|auto].
  rewrite R; cbn.
  destruct (table_variables df); cbn; rewrite <- app_assoc; auto.
Qed.

Lemma select_none (w : world pyobj) :
  select read_json ANone w = (Raise TypeError, w).
Proof. unfold Client.select, bind. rewrite get_variables_none. reflexivity. Qed.

(** C10. Once [furl] holds an address [u], a call of [get_variables] or of
    [select], whatever the table identifier, leaves [u] in [furl], and
    the requests it sends are GETs of [u]: one for [get_variables], one
    or two for [select], none only when the identifier is [None], which
    [int] refuses before anything is sent. *)
Theorem furl_is_kept (table_id : arg) (w : world pyobj) (u : str) :
  furl (self w) = Some u ->
  let w1 := snd (get_variables read_json table_id w) in
  let w2 := snd (select read_json table_id w) in
  furl (self w1) = Some u /\ furl (self w2) = Some u /\
  wire w1 = wire w ++ (match table_id with ANone => [] | _ => [GET u] end) /\
  wire w2 = wire w ++ (match table_id with
                       | ANone => []
                       | _ => select_requests u
                       end).
Proof.
  intros Hf.
  destruct table_id as [|z|s] eqn:Hid.
  - cbn zeta. rewrite get_variables_none, select_none. cbn.
    rewrite app_nil_r. auto.
  - assert (Hne : AInt z <> ANone) by discriminate.
    destruct (get_variables_cached w Hf Hne) as [out E].
    destruct (select_cached w Hf Hne) as [F W].
    cbn zeta. rewrite E. cbn. auto.
  - assert (Hne : AStr s <> ANone) by discriminate.
    destruct (get_variables_cached w Hf Hne) as [out E].
    destruct (select_cached w Hf Hne) as [F W].
    cbn zeta. rewrite E. cbn. auto.
Qed.

(** The amended C5. The address of the metadata is built once: the first
    call for an identifier that [int] reads puts it in [furl], and the
    calls that follow leave it there.  The metadata itself is fetched by
    every call: two calls of [get_variables] send two GETs of that
    address, and a call of [select] sends one more, and a second one when
    the first is answered. *)
Theorem address_cached_metadata_refetched
    (table_id : arg) (n : Z) (w : world pyobj) :
  int table_id = Return n ->
  let w1 := snd (get_variables read_json table_id w) in
  let w2 := snd (get_variables read_json table_id w1) in
  let w3 := snd (select read_json table_id w2) in
  exists u,
    (furl (self w) = None -> u = table_url (self w) (numb_of n)) /\
    furl (self w1) = Some u /\ furl (self w2) = Some u /\
    furl (self w3) = Some u /\
    wire w1 = wire w ++ [GET u] /\
    wire w2 = wire w ++ [GET u; GET u] /\
    wire w3 = wire w2 ++ select_requests u.
Proof.
  intros Hn.
  assert (Hne : table_id <> ANone) by (intros ->; discriminate).
  set (u := match furl (self w) with
            | Some u => u
            | None => table_url (self w) (numb_of n)
            end).
  assert (E1 : snd (get_variables read_json table_id w) = fetched w u [])
    by (rewrite (get_variables_int _ w Hn); reflexivity).
  assert (E2 : snd (get_variables read_json table_id (fetched w u []))
               = fetched (fetched w u []) u [])
    by (rewrite (get_variables_int _ (fetched w u []) Hn); reflexivity).
  assert (H2 : furl (self (fetched (fetched w u []) u [])) = Some u)
    by reflexivity.
  destruct (select_cached (fetched (fetched w u []) u []) H2 Hne) as [F W].
  cbn zeta. rewrite E1, E2. exists u.
  repeat split; try assumption; try reflexivity.
  - intros Hnone. unfold u. rewrite Hnone. reflexivity.
  - cbn. rewrite <- app_assoc. reflexivity.
Qed.

End Metadata.

(** In the session that has resolved table 10714, a call for table 5327
    leaves the address of 10714 in [furl] and fetches it. *)
Lemma furl_is_kept_witness :
  furl (self resolved) = Some url_10714 /\
  furl (self (snd (get_variables no_int sample_api (AInt 5327) resolved)))
  = Some url_10714 /\
  wire (snd (get_variables no_int sample_api (AInt 5327) resolved))
  = wire resolved ++ [GET url_10714].
Proof.
  assert (H : furl (self resolved) = Some url_10714) by reflexivity.
  split; [exact H|].
  pose proof (furl_is_kept no_int sample_api (AInt 5327) resolved H) as K.
  cbn zeta in K. destruct K as (K1 & _ & K3 & _).
  split; [exact K1 | exact K3].
Defined.

(** In a new session, two calls for table 10714 send two GETs of one
    address. *)
Lemma address_cached_metadata_refetched_witness :
  exists u,
    wire (snd (get_variables no_int sample_api (AStr !"10714") resolved))
    = [GET u; GET u].
Proof.
  assert (H : int no_int (AStr !"10714") = Return 10714%Z) by reflexivity.
  destruct (address_cached_metadata_refetched no_int sample_api (AStr !"10714")
              fresh H) as (u & _ & _ & _ & _ & _ & W & _).
  exists u. exact W.
Defined.

(** C5, as stated, fails: two calls of [get_variables('10714')] in a new
    session send two requests to the address of the metadata, not one at
    most. *)
Lemma two_calls_two_requests :
  let w1 := snd (get_variables no_int sample_api (AStr !"10714") fresh) in
  let w2 := snd (get_variables no_int sample_api (AStr !"10714") w1) in
  wire w2 = [GET url_10714; GET url_10714] /\
  ~ (List.length (wire w2) <= 1)%nat.
Proof.
  cbn zeta. split; [vm_compute; reflexivity|].
  vm_compute. intro H. inversion H as [|? H']. inversion H'.
Qed.

(** ** Decimal digits *)

Section Digits.

Local Open Scope Z_scope.

Lemma digits_last (fuel : nat) (n : Z) (acc : str) :
  0 <= n < 10 -> digits fuel n acc = Z.to_N (48 + n) :: acc.
Proof.
  intros H. destruct fuel; cbn [digits];
    rewrite (Z.mod_small n 10) by lia; [reflexivity|].
  destruct (Z.ltb_spec n 10); [reflexivity|lia].
Qed.

Lemma digits_more (fuel : nat) (n : Z) (acc : str) :
  10 <= n ->
  digits (S fuel) n acc = digits fuel (n / 10) (Z.to_N (48 + n mod 10) :: acc).
Proof.
  intros H. cbn [digits]. destruct (Z.ltb_spec n 10); [lia|reflexivity].
Qed.

Lemma fuel_from (n : Z) (k : Z) :
  2 ^ k <= n -> 0 <= k -> (Z.to_nat k <= Z.to_nat (Z.log2 n))%nat.
Proof.
  intros H Hk. apply Z2Nat.inj_le; try lia.
  - apply Z.log2_nonneg.
  - apply Z.log2_le_pow2; lia.
Qed.

(** The four digits of a number from 1000 to 9999. *)
Lemma str_of_int_4 (n : Z) :
  1000 <= n <= 9999 ->
  str_of_int n =
  List.map Z.to_N [48 + n / 1000; 48 + n / 100 mod 10; 48 + n / 10 mod 10;
                   48 + n mod 10].
Proof.
  intros H. unfold str_of_int.
  destruct (Z.ltb_spec n 0); [lia|].
  pose proof (@fuel_from n 3 ltac:(cbn; lia) ltac:(lia)) as F.
  destruct (Z.to_nat (Z.log2 n)) as [|[|[|f]]]; cbn in F; try lia.
  rewrite !digits_more, digits_last;
    try (Z.to_euclidean_division_equations; lia).
  rewrite !Z.div_div by lia.
  change (10 * 10 * 10) with 1000. change (10 * 10) with 100.
  reflexivity.
Qed.

(** The five digits of a number from 10000 to 99999. *)
Lemma str_of_int_5 (n : Z) :
  10000 <= n <= 99999 ->
  str_of_int n =
  List.map Z.to_N [48 + n / 10000; 48 + n / 1000 mod 10; 48 + n / 100 mod 10;
                   48 + n / 10 mod 10; 48 + n mod 10].
Proof.
  intros H. unfold str_of_int.
  destruct (Z.ltb_spec n 0); [lia|].
  pose proof (@fuel_from n 4 ltac:(cbn; lia) ltac:(lia)) as F.
  destruct (Z.to_nat (Z.log2 n)) as [|[|[|[|f]]]]; cbn in F; try lia.
  rewrite !digits_more, digits_last;
    try (Z.to_euclidean_division_equations; lia).
  rewrite !Z.div_div by lia.
  change (10 * 10 * 10 * 10) with 10000.
  change (10 * 10 * 10) with 1000. change (10 * 10) with 100.
  reflexivity.
Qed.

(** A decimal digit is read back. *)
Lemma digit_of_digit (d : Z) :
  0 <= d <= 9 -> digit_of (Z.to_N (48 + d)) = Some d.
Proof.
  intros H. unfold digit_of.
  assert (E : Z.to_N (48 + d) = (48 + Z.to_N d)%N) by lia.
  rewrite E.
  destruct (N.leb_spec 48 (48 + Z.to_N d)); [|lia].
  destruct (N.leb_spec (48 + Z.to_N d) 57); [|lia].
  cbn [andb]. f_equal. lia.
Qed.

Lemma digit_range (n k : Z) : 0 <= n -> 0 <= (n / k) mod 10 <= 9.
Proof. intros H. pose proof (Z.mod_pos_bound (n / k) 10). lia. Qed.

(** Texts of decimal digits. *)
Lemma digit_of_Some (c : char) (d : Z) :
  digit_of c = Some d -> (48 <= c <= 57)%N /\ d = Z.of_N (c - 48).
Proof.
  unfold digit_of.
  destruct (N.leb_spec 48 c) as [L1|L1], (N.leb_spec c 57) as [L2|L2];
    cbn [andb]; try discriminate.
  intros E. injection E as <-. auto.
Qed.

Lemma number_digits (s : str) (acc n : Z) :
  number acc s = Some n -> Forall (fun c => 48 <= c <= 57)%N s.
Proof.
  revert acc. induction s as [|c s IH]; intros acc H; [constructor|].
  cbn [number] in H. destruct (digit_of c) as [d|] eqn:E; [|discriminate].
  constructor; [exact (proj1 (digit_of_Some _ E)) | exact (IH _ H)].
Qed.

Lemma number_cons (acc : Z) (c : char) (s : str) :
  number acc (c :: s)
  = match digit_of c with
    | Some d => number (10 * acc + d) s
    | None => None
    end.
Proof. reflexivity. Qed.

Lemma number_nil (acc : Z) : number acc [] = Some acc.
Proof. reflexivity. Qed.

(** A year of four digits is written as it was read. *)
Lemma year_back (y : str) (Y : Z) :
  List.length y = 4%nat -> number 0 y = Some Y -> 1000 <= Y ->
  str_of_int Y = y.
Proof.
  intros Hl Hn HY.
  destruct y as [|a [|b [|c [|d [|]]]]]; try discriminate.
  rewrite number_cons in Hn.
  destruct (digit_of a) as [a'|] eqn:Ea; [|discriminate].
  rewrite number_cons in Hn.
  destruct (digit_of b) as [b'|] eqn:Eb; [|discriminate].
  rewrite number_cons in Hn.
  destruct (digit_of c) as [c'|] eqn:Ec; [|discriminate].
  rewrite number_cons in Hn.
  destruct (digit_of d) as [d'|] eqn:Ed; [|discriminate].
  rewrite number_nil in Hn.
  assert (Hn' : 10 * (10 * (10 * (10 * 0 + a') + b') + c') + d' = Y)
    by congruence.
  clear Hn.
  apply digit_of_Some in Ea, Eb, Ec, Ed.
  rewrite (@str_of_int_4 Y) by lia. cbn [List.map].
  repeat f_equal; Z.to_euclidean_division_equations; lia.
Qed.

End Digits.

(** ** [fiksDato]: from a quarter to the end of its last month *)

Section Years.

Local Open Scope Z_scope.

(** A number of four digits is read back from its text. *)
Lemma four_digits (Y : Z) :
  1000 <= Y <= 9999 ->
  exists y1 y2 y3 y4,
    str_of_int Y = [y1; y2; y3; y4] /\ number 0 [y1; y2; y3; y4] = Some Y.
Proof.
  intros H. rewrite (str_of_int_4 H). cbn [List.map].
  do 4 eexists. split; [reflexivity|].
  cbn [number].
  rewrite !digit_of_digit by (Z.to_euclidean_division_equations; lia).
  f_equal. Z.to_euclidean_division_equations; lia.
Qed.

(** The years that a [Timestamp] holds whole. *)
Lemma in_bounds_years (Y m d : Z) :
  1678 <= Y <= 2261 -> 1 <= m <= 12 -> 1 <= d <= 31 ->
  checked {| year := Y; month := m; day := d |}
  = Return {| year := Y; month := m; day := d |}.
Proof.
  intros HY Hm Hd. unfold checked, in_bounds. cbn [year month day].
  destruct (Z.leb_spec 16770922 ((Y * 100 + m) * 100 + d)); [|lia].
  destruct (Z.leb_spec ((Y * 100 + m) * 100 + d) 22620411); [|lia].
  reflexivity.
Qed.

End Years.

(** The run of [fiksDato] on a text whose year has the four digits of
    [Hnum] and whose quarter is known: the month, the date that pandas
    reads, the end of the month, its text. *)
Ltac read_quarter Hnum :=
  unfold Reshape.fiksDato;
  match goal with
  | |- obind ?f _ = _ =>
      let r := eval vm_compute in f in change f with r
  end;
  cbn [obind]; unfold date_range_M_1, Dates.to_datetime, parse_iso;
  rewrite Hnum;
  repeat (cbv beta iota zeta; match goal with
  | |- context [number 0 ?l] =>
      let r := eval vm_compute in (number 0 l) in change (number 0 l) with r
  | |- context [valid_date ?a ?b ?c] =>
      let r := eval vm_compute in (valid_date a b c) in
      change (valid_date a b c) with r
  end);
  cbv beta iota;
  rewrite in_bounds_years by lia; cbn [obind year month day];
  repeat match goal with
  | |- context [days_in_month ?a ?b] =>
      let r := eval vm_compute in (days_in_month a b) in
      change (days_in_month a b) with r
  end;
  rewrite in_bounds_years by lia; cbn [obind];
  unfold Timestamp_str; cbn [year month day];
  match type of Hnum with
  | number 0 ?l = Some ?Y => rewrite (@year_back l Y eq_refl Hnum) by lia
  end;
  reflexivity.

Section FiksDato.

Local Open Scope Z_scope.

Variable pandas_reads : option str -> str -> outcome Timestamp.
Variable int_unicode : str -> option Z.

Local Abbreviation fiksDato_month := (fiksDato_month int_unicode).
Local Abbreviation fiksDato := (fiksDato pandas_reads int_unicode).

(** C2, amended.  For a year from 1678 to 2261 written with its four
    digits [y] and a quarter [q] from 1 to 4, [fiksDato] on the text of
    the year, a hyphen and the quarter builds the year and the month 03,
    06, 09 or 12, and returns the text of the last day of that month: the
    31st of March, the 30th of June, the 30th of September, the 31st of
    December, at midnight. *)
Theorem fiksDato_quarter (y : str) (Y q : Z) :
  List.length y = 4%nat -> number 0 y = Some Y ->
  1678 <= Y <= 2261 -> 1 <= q <= 4 ->
  let dato := y ++ !"-" ++ str_of_int q in
  fiksDato_month dato
  = Return (y ++ match q with
                 | 1 => !"-03"
                 | 2 => !"-06"
                 | 3 => !"-09"
                 | _ => !"-12"
                 end) /\
  fiksDato dato
  = Return (y ++ match q with
                 | 1 => !"-03-31 00:00:00"
                 | 2 => !"-06-30 00:00:00"
                 | 3 => !"-09-30 00:00:00"
                 | _ => !"-12-31 00:00:00"
                 end).
Proof.
  intros Hl Hnum HY Hq dato. subst dato.
  destruct y as [|y1 [|y2 [|y3 [|y4 [|]]]]]; try discriminate.
  assert (Hq' : q = 1 \/ q = 2 \/ q = 3 \/ q = 4) by lia.
  destruct Hq' as [-> | [-> | [-> | ->]]];
    (split; [vm_compute; reflexivity | read_quarter Hnum]).
Qed.

End FiksDato.

(** The second quarter of 2020 ends on 2020-06-30. *)
Lemma fiksDato_quarter_witness :
  fiksDato no_reading no_int !"2020-2" = Return !"2020-06-30 00:00:00".
Proof.
  exact (proj2 (@fiksDato_quarter no_reading no_int !"2020" 2020 2 eq_refl
                  eq_refl ltac:(lia) ltac:(lia))).
Defined.

(** C2, as stated for every year, fails: the year 1600 is beyond what a
    [Timestamp] holds, and [pd.date_range] raises; the year 999 has three
    digits, the sixth character of "999-2" is missing, and [int]
    raises. *)
Lemma fiksDato_other_years :
  fiksDato no_reading no_int !"1600-2" = Raise OutOfBoundsDatetime /\
  fiksDato no_reading no_int !"999-2" = Raise ValueError.
Proof. split; vm_compute; reflexivity. Qed.

(** ** [prepare_dataframe]: weekly and yearly data *)

(** What the week branch leaves behind for "2020U15": the date is Monday
    2020-04-13, the start of week 15 when weeks are counted from the
    first Monday of the year, the frequency is in [freg], and [freq] is
    not assigned. *)
Lemma week_branch_2020U15 :
  fst (week_branch no_reading week_frame !"value" !"week" fresh)
  = Return {| df_ret := Some [ (!"week",
                                TimeCol [ {| year := 2020; month := 4;
                                             day := 13 |} ]);
                               (!"value", NumCol [5%Z]) ];
              freq := None; freg := Some !"W"; periods := Some 52%Z |}
  /\ iso_monday 2020 15 = {| year := 2020; month := 4; day := 6 |}.
Proof. split; vm_compute; reflexivity. Qed.

(** At the frame of "2020U15", reading [freq] for the result raises
    [UnboundLocalError]. *)
Lemma week_frame_raises :
  prepare_dataframe no_reading no_int week_frame !"value" fresh
  = (Raise UnboundLocalError, with_time fresh !"week").
Proof. vm_compute. reflexivity. Qed.

(** What the year branch leaves behind for "2020": the date 2020-01-01
    and the frequency "y", and no [periods]. *)
Lemma year_branch_2020 :
  fst (year_branch no_reading year_frame !"value" !"year" fresh)
  = Return {| df_ret := Some [ (!"year",
                                TimeCol [ {| year := 2020; month := 1;
                                             day := 1 |} ]);
                               (!"value", NumCol [5%Z]) ];
              freq := Some !"y"; freg := None; periods := None |}.
Proof. vm_compute. reflexivity. Qed.

(** At the frame of "2020", reading [periods] for the result raises
    [UnboundLocalError]. *)
Lemma year_frame_raises :
  prepare_dataframe no_reading no_int year_frame !"value" fresh
  = (Raise UnboundLocalError, with_time fresh !"year").
Proof. vm_compute. reflexivity. Qed.

Section NeverReturns.

Variable pandas_reads : option str -> str -> outcome Timestamp.
Variable int_unicode : str -> option Z.
Variable Body : Type.

Local Abbreviation week_branch := (week_branch pandas_reads).
Local Abbreviation year_branch := (year_branch pandas_reads).
Local Abbreviation month_branch := (month_branch pandas_reads).
Local Abbreviation quarter_branch := (quarter_branch pandas_reads int_unicode).
Local Abbreviation by_marker := (by_marker pandas_reads int_unicode).
Local Abbreviation prepare_dataframe :=
  (prepare_dataframe pandas_reads int_unicode).

Lemma str_eqb_refl (a : str) : PyStr.eqb a a = true.
Proof. destruct (str_eqb_spec a a); congruence. Qed.

Ltac unfold_m :=
  unfold Reshape.by_marker, Reshape.week_branch, Reshape.year_branch, take,
    assign, marked, set_time, self_time, bind, ret, raise, lift, local,
    get_self, set_self.

(** Case analysis on the outcomes, the innermost first. *)
Ltac cases :=
  cbn [fst snd obind];
  repeat match goal with
  | |- context [match ?x with Return _ => _ | Raise _ => _ end] =>
      lazymatch x with
      | context [match _ with Return _ => _ | Raise _ => _ end] => fail
      | context [obind _ _] => fail
      | _ => destruct x; cbn [fst snd obind]
      end
  | |- context [obind ?x _] =>
      lazymatch x with
      | context [obind _ _] => fail
      | _ => destruct x; cbn [fst snd obind]
      end
  end;
  auto.

(** The week branch returns no [freq]. *)
Lemma week_branch_no_freq (df : DataFrame) (val_col name : str)
    (w : world Body) :
  match fst (week_branch df val_col name w) with
  | Return l => freq l = None
  | Raise _ => True
  end.
Proof.
  unfold_m. cbn. cases.
Qed.

(** The year branch returns no [periods]. *)
Lemma year_branch_no_periods (df : DataFrame) (val_col name : str)
    (w : world Body) :
  match fst (year_branch df val_col name w) with
  | Return l => periods l = None
  | Raise _ => True
  end.
Proof.
  unfold_m. cbn. cases.
Qed.

(** The column of time in the frame of the two columns. *)
Lemma getitem_first (t val_col : str) (c v : Series) :
  val_col <> t -> getitem [(t, c); (val_col, v)] t = Return c.
Proof.
  intros Hne. unfold getitem, count. cbn [filter fst column].
  rewrite str_eqb_refl.
  destruct (str_eqb_spec val_col t); [contradiction|]. reflexivity.
Qed.

(** The tests on the first cell of the time column [t]. *)
Lemma by_marker_cell (df : DataFrame) (val_col t s : str) (cells : list str)
    (month week quarter year : str) (renames : bool) (w : world Body) :
  time (self w) = Some t -> val_col <> t ->
  getitem df t = Return (StrCol (s :: cells)) ->
  by_marker df val_col month week quarter year renames w =
  match getitem df val_col with
  | Raise e => (Raise e, w)
  | Return _ =>
      if contains !"M" s then month_branch df val_col month w
      else if contains !"U" s then week_branch df val_col week w
      else if contains !"K" s
           then quarter_branch df val_col quarter renames w
           else year_branch df val_col year w
  end.
Proof.
  intros Ht Hne Hg.
  unfold Reshape.by_marker, take, marked, self_time, bind, ret, raise, lift,
    get_self.
  rewrite Ht. unfold getitems. cbn [omap obind]. rewrite Hg. cbn [obind].
  destruct (getitem df val_col) as [c|e]; cbn [obind]; [|reflexivity].
  rewrite Ht. unfold loc0_contains. rewrite (getitem_first _ _ Hne).
  cbn [obind].
  destruct (contains !"M" s); [reflexivity|].
  rewrite Ht, (getitem_first _ _ Hne). cbn [obind].
  destruct (contains !"U" s); [reflexivity|].
  rewrite Ht, (getitem_first _ _ Hne). cbn [obind].
  destruct (contains !"K" s); reflexivity.
Qed.

(** After the branches: a result needs [freq] and [periods]. *)
Lemma needs_freq_and_periods (m : M Body locals) (w : world Body) :
  match fst (m w) with
  | Return l => freq l = None \/ periods l = None
  | Raise _ => True
  end ->
  exists e,
    fst (bind m (fun l =>
           df_ret <- local (df_ret l) ;;
           df_ret <- lift (set_columns df_ret [ !"ds"; !"y" ]) ;;
           freq <- local (freq l) ;;
           periods <- local (periods l) ;;
           ret (df_ret, freq, periods)) w) = Raise e.
Proof.
  unfold bind, local, lift, ret, raise.
  destruct (m w) as [[l|e] w1]; cbn; [|eauto].
  intros H.
  destruct (df_ret l); cbn; [|eauto].
  destruct (set_columns _ _); cbn; [|eauto].
  destruct H as [H|H].
  - rewrite H. cbn. eauto.
  - destruct (freq l); cbn; [|eauto]. rewrite H. cbn. eauto.
Qed.

(** C1, on the code: for every frame by week, that is when the first cell
    of the time column has a "U" and no "M", [prepare_dataframe] returns
    nothing.  It raises, in every language: the week branch assigns
    [freg], and the result reads [freq].  The labels of the frame are
    distinct, and the values are not under the label of the time. *)
Theorem week_data_never_returns (df : DataFrame) (val_col t s : str)
    (cells : list str) (w : world Body) :
  NoDup (columns df) -> val_col <> t ->
  columns_m2 df = Return t ->
  getitem df t = Return (StrCol (s :: cells)) ->
  contains !"M" s = false -> contains !"U" s = true ->
  exists e, fst (prepare_dataframe df val_col w) = Raise e.
Proof.
  intros _ Hne Hc Hg HM HU.
  unfold Reshape.prepare_dataframe.
  unfold bind at 1. unfold lift at 1. rewrite Hc.
  unfold bind at 1. unfold set_time at 1. unfold bind at 1.
  unfold get_self at 1, set_self at 1. cbn [fst snd].
  unfold bind at 1. unfold get_self at 1.
  set (w1 := {| self := _; stdout := _; wire := _ |}).
  assert (Ht : time (self w1) = Some t) by reflexivity.
  apply needs_freq_and_periods.
  destruct (PyStr.eqb (language (self w1)) !"no");
    [|destruct (PyStr.eqb (language (self w1)) !"en")].
  - erewrite by_marker_cell; [|exact Ht|exact Hne|exact Hg]. rewrite HM, HU.
    destruct (getitem df val_col); [|exact I].
    pose proof (week_branch_no_freq df val_col !"uke" w1) as F.
    destruct (fst (week_branch df val_col !"uke" w1)); auto.
  - erewrite by_marker_cell; [|exact Ht|exact Hne|exact Hg]. rewrite HM, HU.
    destruct (getitem df val_col); [|exact I].
    pose proof (week_branch_no_freq df val_col !"week" w1) as F.
    destruct (fst (week_branch df val_col !"week" w1)); auto.
  - left. reflexivity.
Qed.

(** C6, on the code: for every frame by year, that is when the first cell
    of the time column has none of the three markers,
    [prepare_dataframe] returns nothing.  It raises, in every language:
    the year branch assigns no [periods], and the result reads it.  The
    labels of the frame are distinct, and the values are not under the
    label of the time. *)
Theorem year_data_never_returns (df : DataFrame) (val_col t s : str)
    (cells : list str) (w : world Body) :
  NoDup (columns df) -> val_col <> t ->
  columns_m2 df = Return t ->
  getitem df t = Return (StrCol (s :: cells)) ->
  contains !"M" s = false -> contains !"U" s = false ->
  contains !"K" s = false ->
  exists e, fst (prepare_dataframe df val_col w) = Raise e.
Proof.
  intros _ Hne Hc Hg HM HU HK.
  unfold Reshape.prepare_dataframe.
  unfold bind at 1. unfold lift at 1. rewrite Hc.
  unfold bind at 1. unfold set_time at 1. unfold bind at 1.
  unfold get_self at 1, set_self at 1. cbn [fst snd].
  unfold bind at 1. unfold get_self at 1.
  set (w1 := {| self := _; stdout := _; wire := _ |}).
  assert (Ht : time (self w1) = Some t) by reflexivity.
  apply needs_freq_and_periods.
  destruct (PyStr.eqb (language (self w1)) !"no");
    [|destruct (PyStr.eqb (language (self w1)) !"en")].
  - erewrite by_marker_cell; [|exact Ht|exact Hne|exact Hg].
    rewrite HM, HU, HK.
    destruct (getitem df val_col); [|exact I].
    pose proof (year_branch_no_periods df val_col aar w1) as F.
    destruct (fst (year_branch df val_col aar w1)); auto.
  - erewrite by_marker_cell; [|exact Ht|exact Hne|exact Hg].
    rewrite HM, HU, HK.
    destruct (getitem df val_col); [|exact I].
    pose proof (year_branch_no_periods df val_col !"year" w1) as F.
    destruct (fst (year_branch df val_col !"year" w1)); auto.
  - left. reflexivity.
Qed.

End NeverReturns.

(** The frame of "2020U15" in a new English session. *)
Lemma week_data_never_returns_witness :
  exists e,
    fst (prepare_dataframe no_reading no_int week_frame !"value" fresh)
    = Raise e.
Proof.
  apply (@week_data_never_returns no_reading no_int pyobj week_frame !"value"
           !"week" !"2020U15" [] fresh); try reflexivity.
  - repeat constructor; cbn; intuition discriminate.
  - discriminate.
Defined.

(** The frame of "2020" in a new English session. *)
Lemma year_data_never_returns_witness :
  exists e,
    fst (prepare_dataframe no_reading no_int year_frame !"value" fresh)
    = Raise e.
Proof.
  apply (@year_data_never_returns no_reading no_int pyobj year_frame !"value"
           !"year" !"2020" [] fresh); try reflexivity.
  - repeat constructor; cbn; intuition discriminate.
  - discriminate.
Defined.

(** ** [get_variables]: the table identifier *)

Section Identifier.

Local Open Scope Z_scope.

(** What lines 138-140 leave in [numb] for a number of four digits and
    for one of five. *)
Lemma numb_of_4 (n : Z) :
  1000 <= n <= 9999 ->
  format_numb (numb_of n)
  = !"0" ++ List.map Z.to_N [48 + n / 1000; 48 + n / 100 mod 10;
                             48 + n / 10 mod 10; 48 + n mod 10].
Proof.
  intros H. unfold numb_of. rewrite (str_of_int_4 H).
  cbn [List.map List.length Nat.eqb format_numb app]. reflexivity.
Qed.

Lemma numb_of_5 (n : Z) :
  10000 <= n <= 99999 ->
  format_numb (numb_of n)
  = List.map Z.to_N [48 + n / 10000; 48 + n / 1000 mod 10;
                     48 + n / 100 mod 10; 48 + n / 10 mod 10; 48 + n mod 10].
Proof.
  intros H. unfold numb_of. rewrite (str_of_int_5 H).
  cbn [List.map List.length Nat.eqb format_numb].
  rewrite (str_of_int_5 H). reflexivity.
Qed.

(** In a session without an address, an identifier that [int] reads as a
    number of four digits goes into the address with a zero before its
    digits, five characters in all, and that address is fetched. *)
Theorem four_digit_identifier_padded
    (int_unicode : str -> option Z) (read_json : str -> outcome TableInfo)
    (table_id : arg) (n : Z) (w : world pyobj) :
  int int_unicode table_id = Return n -> 1000 <= n <= 9999 ->
  furl (self w) = None ->
  let numb := !"0" ++ List.map Z.to_N [48 + n / 1000; 48 + n / 100 mod 10;
                                       48 + n / 10 mod 10; 48 + n mod 10] in
  let u := burl (self w) ++ !"/" ++ language (self w) ++ !"/table/" ++ numb in
  List.length numb = 5%nat /\
  get_variables int_unicode read_json table_id w
  = (read_variables read_json u, fetched w u []).
Proof.
  intros Hn H Hf numb u. split; [reflexivity|].
  rewrite (get_variables_int int_unicode read_json _ w Hn), Hf.
  cbv zeta. unfold table_url. rewrite (numb_of_4 H). reflexivity.
Qed.

(** In a session without an address, an identifier that [int] reads as a
    number of five digits goes into the address as its five digits,
    and that address is fetched. *)
Theorem five_digit_identifier_kept
    (int_unicode : str -> option Z) (read_json : str -> outcome TableInfo)
    (table_id : arg) (n : Z) (w : world pyobj) :
  int int_unicode table_id = Return n -> 10000 <= n <= 99999 ->
  furl (self w) = None ->
  let numb := List.map Z.to_N [48 + n / 10000; 48 + n / 1000 mod 10;
                               48 + n / 100 mod 10; 48 + n / 10 mod 10;
                               48 + n mod 10] in
  let u := burl (self w) ++ !"/" ++ language (self w) ++ !"/table/" ++ numb in
  get_variables int_unicode read_json table_id w
  = (read_variables read_json u, fetched w u []).
Proof.
  intros Hn H Hf numb u.
  rewrite (get_variables_int int_unicode read_json _ w Hn), Hf.
  cbv zeta. unfold table_url. rewrite (numb_of_5 H). reflexivity.
Qed.

(** An identifier of five digits that starts with two zeros loses them. *)
Lemma leading_zeros_lost :
  furl (self (snd (get_variables no_int sample_api (AStr !"00123") fresh)))
  = Some !"http://data.ssb.no/api/v0/en/table/123".
Proof. vm_compute. reflexivity. Qed.

(** In a new session the message is printed, and reading [numb] for the
    address raises [UnboundLocalError] before anything is sent. *)
Lemma unreadable_identifier_new_session :
  get_variables no_int sample_api (AStr !"abc") fresh
  = (Raise UnboundLocalError,
     {| self := self fresh;
        stdout := [ !"table_id mus be of type integer" ];
        wire := [] |}).
Proof. vm_compute. reflexivity. Qed.

(** C3, on the code: when the identifier is not the text of an integer
    and [furl] holds an address [u], [get_variables] prints its message
    and goes on: it fetches [u] and returns the variables of that table.
    Nothing is raised, and a request is sent. *)
Theorem unreadable_identifier_is_fetched
    (int_unicode : str -> option Z) (read_json : str -> outcome TableInfo)
    (table_id : arg) (w : world pyobj) (u : str) :
  int int_unicode table_id = Raise ValueError -> furl (self w) = Some u ->
  get_variables int_unicode read_json table_id w
  = (read_variables read_json u,
     fetched w u [ !"table_id mus be of type integer" ]).
Proof.
  intros Hn Hf.
  rewrite (get_variables_not_int int_unicode read_json _ w Hn), Hf.
  reflexivity.
Qed.

End Identifier.

(** The identifier "abc" in the session that has resolved table 10714:
    the variables of table 10714 come back, after a second GET. *)
Lemma unreadable_identifier_is_fetched_witness :
  get_variables no_int sample_api (AStr !"abc") resolved
  = (Return [sample_region; sample_year],
     {| self := self resolved;
        stdout := [ !"table_id mus be of type integer" ];
        wire := [GET url_10714; GET url_10714] |}).
Proof.
  rewrite (@unreadable_identifier_is_fetched no_int sample_api (AStr !"abc")
             resolved url_10714) by reflexivity.
  vm_compute. reflexivity.
Defined.

(** The identifier 5327 in a new session: the address ends with
    "05327". *)
Lemma four_digit_identifier_padded_witness :
  get_variables no_int sample_api (AInt 5327) fresh
  = (Return [sample_region; sample_year],
     fetched fresh !"http://data.ssb.no/api/v0/en/table/05327" []).
Proof.
  exact (proj2 (@four_digit_identifier_padded no_int sample_api (AInt 5327)
                  5327%Z fresh eq_refl ltac:(lia) eq_refl)).
Defined.

(** The identifier "10714" in a new session. *)
Lemma five_digit_identifier_kept_witness :
  get_variables no_int sample_api (AStr !"10714") fresh
  = (Return [sample_region; sample_year], fetched fresh url_10714 []).
Proof.
  exact (@five_digit_identifier_kept no_int sample_api (AStr !"10714")
           10714%Z fresh eq_refl ltac:(lia) eq_refl).
Defined.

(** ** [select]: labels and values *)

Section Options.

Lemma odict_set_fresh (d : list (str * str)) (k v : str) :
  ~ In k (List.map fst d) -> odict_set d k v = d ++ [(k, v)].
Proof.
  induction d as [|[k' v'] d IH]; cbn; [reflexivity|].
  intros H. destruct (str_eqb_spec k' k) as [->|Hne].
  - exfalso. apply H. left. reflexivity.
  - rewrite IH; [reflexivity|]. intro Hin. apply H. right. exact Hin.
Qed.

Lemma OrderedDict_from (d pairs : list (str * str)) :
  NoDup (List.map fst (d ++ pairs)) ->
  fold_left (fun d kv => odict_set d (fst kv) (snd kv)) pairs d = d ++ pairs.
Proof.
  revert d. induction pairs as [|[k v] pairs IH]; intros d H; cbn.
  - rewrite app_nil_r. reflexivity.
  - rewrite odict_set_fresh.
    + rewrite IH; rewrite <- app_assoc; [reflexivity|exact H].
    + rewrite map_app in H. cbn in H.
      apply NoDup_remove_2 in H. intro Hin. apply H.
      apply in_or_app. left. exact Hin.
Qed.

(** When the labels of a variable are all different, the options of its
    widget are the pairs of [valueTexts[i]] and [values[i]], in order. *)
Lemma distinct_labels_aligned (v : variable) :
  NoDup (List.map fst (combine (valueTexts v) (values v))) ->
  option_list [v] = [combine (valueTexts v) (values v)].
Proof.
  intros H. unfold option_list, OrderedDict. cbn [List.map].
  rewrite OrderedDict_from; [reflexivity | exact H].
Qed.

End Options.

(** At a variable with a repeated label: the widget that [select] builds
    has two options where the variable has three values; its first option
    pairs "Sande", the label of value "0713", with the value "1514", and
    no option has the value "0713". *)
Lemma repeated_label_breaks_alignment :
  option_map (fun box => List.map options
                           (children (variables_container box)))
    (match fst (select no_int municipality_api (AStr !"10714") fresh) with
     | Return box => Some box
     | Raise _ => None
     end)
  = Some [ [ (!"Sande", !"1514"); (!"Stavanger", !"1103") ] ]
  /\ combine (valueTexts sample_municipality) (values sample_municipality)
     = [ (!"Sande", !"0713"); (!"Stavanger", !"1103"); (!"Sande", !"1514") ].
Proof. split; vm_compute; reflexivity. Qed.

(** The two regions of the sample table. *)
Lemma distinct_labels_aligned_witness :
  option_list [sample_region]
  = [ [ (!"Oslo", !"0301"); (!"Stavanger", !"1103") ] ].
Proof.
  apply (distinct_labels_aligned sample_region).
  repeat constructor; cbn; intuition discriminate.
Defined.

Section Labels.

Lemma odict_set_keys (d : list (str * str)) (k v : str) :
  (In k (keys d) /\ keys (odict_set d k v) = keys d)
  \/ (~ In k (keys d) /\ keys (odict_set d k v) = keys d ++ [k]).
Proof.
  induction d as [|[k' v'] d IH]; cbn.
  - right. split; [tauto | reflexivity].
  - destruct (str_eqb_spec k' k) as [->|Hne]; cbn.
    + left. split; [left; reflexivity | reflexivity].
    + destruct IH as [[Hin E]|[Hnin E]].
      * left. split; [right; exact Hin | f_equal; exact E].
      * right. split; [intros [H|H]; [congruence | contradiction]|].
        unfold keys in *. rewrite E. reflexivity.
Qed.

(** The keys of the dictionary built from [pairs] on top of [d]: no key
    twice, and every key a key of [d] or of [pairs]. *)
Lemma fold_odict_keys (pairs d : list (str * str)) :
  NoDup (keys d) ->
  let r := fold_left (fun d kv => odict_set d (fst kv) (snd kv)) pairs d in
  NoDup (keys r) /\ incl (keys r) (keys d ++ keys pairs).
Proof.
  revert d. induction pairs as [|[k v] pairs IH]; intros d Hd; cbn.
  - split; [exact Hd|]. rewrite app_nil_r. apply incl_refl.
  - destruct (odict_set_keys d k v) as [[Hin E]|[Hnin E]].
    + destruct (IH (odict_set d k v)) as [N I]; [rewrite E; exact Hd|].
      split; [exact N|]. rewrite E in I.
      intros x Hx. specialize (I x Hx). apply in_app_or in I.
      apply in_or_app. destruct I as [I|I]; [left; exact I|].
      right. right. exact I.
    + destruct (IH (odict_set d k v)) as [N I].
      { rewrite E. apply NoDup_app; [exact Hd | constructor; [tauto|constructor] |].
        intros x Hx [<-|[]]. contradiction. }
      split; [exact N|]. rewrite E, <- app_assoc in I. exact I.
Qed.

(** C7, on the code: a label that comes twice costs an option.  The
    dictionary that [select] builds for a variable (lines 183-185) then
    has fewer pairs than the variable has values with labels, so that the
    options are not the pairs of [valueTexts[i]] and [values[i]]. *)
Theorem repeated_label_loses_option (v : variable) :
  let pairs := combine (valueTexts v) (values v) in
  ~ NoDup (List.map fst pairs) ->
  (List.length (OrderedDict pairs) < List.length pairs)%nat.
Proof.
  intros pairs Hdup.
  destruct (@fold_odict_keys pairs [] (NoDup_nil _)) as [N I].
  fold (OrderedDict pairs) in N, I. cbn [keys List.map app] in I.
  destruct (Nat.lt_ge_cases (List.length (OrderedDict pairs))
              (List.length pairs)) as [L|L]; [exact L|].
  exfalso. apply Hdup.
  apply (NoDup_incl_NoDup N).
  - unfold keys. rewrite !length_map. exact L.
  - exact I.
Qed.

End Labels.

(** The variable with "Sande" twice: two options for three values. *)
Lemma repeated_label_loses_option_witness :
  (List.length (OrderedDict (combine (valueTexts sample_municipality)
                               (values sample_municipality)))
   < List.length (combine (valueTexts sample_municipality)
                    (values sample_municipality)))%nat.
Proof.
  apply (repeated_label_loses_option sample_municipality).
  intro H. inversion H as [|x l Hnotin Hrest]; subst.
  apply Hnotin. right. left. reflexivity.
Defined.

(** ** [read_box]: what is caught and what is sent *)

Section ReadBox.

Variable post : str -> pyobj -> outcome (DataFrame * str).
Variable isprintable : char -> bool.

(** [get_json] reads the object and the box and changes nothing. *)
Lemma get_json_pure (box : option VBox) (out : str) (w : world pyobj) :
  snd (get_json isprintable box out w) = w.
Proof.
  unfold get_json, bind, ret, raise, lift, get_self.
  destruct box as [b|]; cbn; [|reflexivity].
  destruct (query_element _ _ _ _); cbn; [|reflexivity].
  destruct (PyStr.eqb out _); reflexivity.
Qed.

Lemma get_json_none (out : str) (w : world pyobj) :
  get_json isprintable None out w = (Raise AttributeError, w).
Proof. reflexivity. Qed.

(** The amended C8. [read_box] lets no exception through: when building
    the query, posting it or reading the answer raises, a [TypeError] or
    any other, it prints the one message and returns [None].  It does not
    look at the selections: whenever [get_json] returns a query, the
    query is posted to the address of the box, and the message is printed
    only when that request or the reading of its answer fails.  (Where
    the model of [literal_eval] or of the remote API says
    [NotModelled], nothing is stated.) *)
Theorem read_box_catches_and_posts (from_box : option VBox) (w : world pyobj) :
  read_box post isprintable from_box w =
  match fst (get_json isprintable from_box !"dict" w), from_box with
  | Return query, Some box =>
      let w' := sent w (POST (url_text box) query) in
      match post (url_text box) query with
      | Return r => (Return (Some r), w')
      | Raise NotModelled => (Raise NotModelled, w')
      | Raise _ => (Return None, printed w' choose)
      end
  | Raise NotModelled, _ => (Raise NotModelled, w)
  | _, _ => (Return None, printed w choose)
  end.
Proof.
  destruct from_box as [box|].
  - unfold read_box, try_except, bind.
    pose proof (get_json_pure (Some box) !"dict" w) as P.
    destruct (get_json isprintable (Some box) !"dict" w) as [[q|e] w1];
      cbn in P; subst w1; cbn.
    + unfold send, ret. destruct (post (url_text box) q) as [r|e]; cbn.
      * reflexivity.
      * destruct e; reflexivity.
    + destruct e; reflexivity.
  - reflexivity.
Qed.

End ReadBox.

(** C8, as stated, fails: with nothing selected in the box, [read_box]
    posts the query with two empty lists of values.  When the server
    refuses it, the message comes after the request; when the server
    answers it, there is no message and the answer is returned. *)
Lemma empty_selection_is_posted :
  let box := box_of (fst sample_select) in
  let w := snd sample_select in
  let query := document [entry !"Region" []; entry !"Tid" []] in
  read_box refusing latin1_printable box w
  = (Return None, printed (sent w (POST url_10714 query)) choose)
  /\ read_box answering latin1_printable box w
     = (Return (Some answer), sent w (POST url_10714 query)).
Proof. cbn zeta. split; vm_compute; reflexivity. Qed.

(** ** [get_json]: the text of the query *)

Section QueryText.

Variable isprintable : char -> bool.

Local Open Scope N_scope.

Local Abbreviation safe_char := (safe_char isprintable).
Local Abbreviation safe := (safe isprintable).
Local Abbreviation mild_char := (mild_char isprintable).

Lemma safe_char_facts (c : char) :
  safe_char c = true ->
  c <> 39 /\ c <> 34 /\ c <> 92 /\ 32 <= c /\ c <> 127 /\
  (127 < c -> isprintable c = true).
Proof.
  unfold Notions.safe_char. intros H.
  apply andb_prop in H. destruct H as [_ H].
  repeat (apply andb_prop in H; destruct H as [H ?]).
  repeat match goal with
  | H : negb (_ =? _) = true |- _ =>
      apply negb_true_iff, N.eqb_neq in H
  | H : (_ <=? _) = true |- _ => apply N.leb_le in H
  end.
  repeat split; try assumption.
  - intros ->. cbn in H0. discriminate.
  - intro L. apply orb_prop in H0. destruct H0 as [H0|H0].
    + apply N.ltb_lt in H0. lia.
    + apply andb_prop in H0. apply H0.
Qed.

Lemma repr_char_mild (c : char) :
  mild_char c = true -> repr_char isprintable 39 c = [c].
Proof.
  unfold Notions.mild_char. intros H. apply orb_prop in H. destruct H as [H|H].
  - destruct (safe_char_facts _ H) as (H1 & H2 & H3 & H4 & H5 & H6).
    unfold repr_char.
    rewrite (proj2 (N.eqb_neq c 39) H1), (proj2 (N.eqb_neq c 92) H3).
    cbn [orb].
    destruct (N.eqb_spec c 9); [lia|].
    destruct (N.eqb_spec c 10); [lia|].
    destruct (N.eqb_spec c 13); [lia|].
    destruct (N.ltb_spec c 32); [lia|].
    destruct (N.eqb_spec c 127); [lia|]. cbn [orb].
    destruct (N.ltb_spec c 127); [reflexivity|].
    rewrite H6 by lia. reflexivity.
  - apply N.eqb_eq in H. subst c. reflexivity.
Qed.

Lemma flat_map_id (f : char -> str) (s : str) :
  (forall c, In c s -> f c = [c]) -> flat_map f s = s.
Proof.
  induction s as [|c s IH]; intros H; cbn; [reflexivity|].
  rewrite (H c (or_introl eq_refl)), IH; [reflexivity|].
  intros c' Hc. apply H. right. exact Hc.
Qed.

Lemma mild_no_apostrophe (s : str) :
  forallb mild_char s = true -> existsb (N.eqb 39) s = false.
Proof.
  induction s as [|c s IH]; cbn [existsb forallb]; [reflexivity|].
  intros H. apply andb_prop in H. destruct H as [Hc Hs].
  rewrite (IH Hs), orb_false_r.
  unfold Notions.mild_char in Hc. apply orb_prop in Hc. destruct Hc as [Hc|Hc].
  - destruct (safe_char_facts _ Hc) as (H1 & _).
    apply N.eqb_neq. congruence.
  - apply N.eqb_eq in Hc. subst c. reflexivity.
Qed.

(** [repr] of a text without apostrophes or backslashes, all printable:
    the text between apostrophes. *)
Lemma repr_mild (s : str) :
  forallb mild_char s = true -> repr isprintable s = squote s.
Proof.
  intros H. unfold repr, squote.
  rewrite (mild_no_apostrophe _ H). cbn [andb].
  rewrite flat_map_id; [reflexivity|].
  intros c Hc. apply repr_char_mild.
  rewrite forallb_forall in H. apply H. exact Hc.
Qed.

Lemma safe_mild (s : str) : safe s = true -> forallb mild_char s = true.
Proof.
  unfold Notions.safe. rewrite !forallb_forall. intros H c Hc.
  unfold Notions.mild_char. rewrite (H c Hc). reflexivity.
Qed.

Lemma str_of_list_mild (l : list str) :
  forallb (forallb mild_char) l = true ->
  str_of_list isprintable l = quoted_list 39 l.
Proof.
  intros H. unfold str_of_list, quoted_list.
  rewrite (map_ext_in (repr isprintable) (fun s => [39] ++ s ++ [39]));
    [reflexivity|].
  intros s Hs. apply repr_mild.
  rewrite forallb_forall in H. apply H. exact Hs.
Qed.


Lemma flat_map_join (f : char -> str) (sep : str) (l : list str) :
  flat_map f (join sep l) = join (flat_map f sep) (List.map (flat_map f) l).
Proof.
  induction l as [|a [|b l] IH]; [reflexivity | reflexivity |].
  change (join sep (a :: b :: l)) with (a ++ sep ++ join sep (b :: l)).
  rewrite !flat_map_app, IH. reflexivity.
Qed.

Lemma subst_mild (new s : str) :
  forallb mild_char s = true -> flat_map (subst1 39 new) s = s.
Proof.
  intros H. apply flat_map_id. intros c Hc.
  rewrite forallb_forall in H. specialize (H c Hc).
  unfold subst1. destruct (N.eqb_spec c 39) as [->|]; [|reflexivity].
  unfold Notions.mild_char in H. apply orb_prop in H. destruct H as [H|H].
  - destruct (safe_char_facts _ H) as (H1 & _). congruence.
  - discriminate.
Qed.

(** Replacing the apostrophes of [str(l)] by [new], when no text of [l]
    has an apostrophe of its own. *)
Lemma requote (new : str) (l : list str) :
  forallb (forallb mild_char) l = true ->
  flat_map (subst1 39 new) (quoted_list 39 l)
  = !"[" ++ join !", " (List.map (fun s => new ++ s ++ new) l) ++ !"]".
Proof.
  intros H. unfold quoted_list.
  rewrite !flat_map_app, flat_map_join, map_map.
  change (flat_map (subst1 39 new) !"[") with !"[".
  change (flat_map (subst1 39 new) !"]") with !"]".
  change (flat_map (subst1 39 new) !", ") with !", ".
  do 3 f_equal. apply map_ext_in. intros s Hs.
  rewrite !flat_map_app.
  change (flat_map (subst1 39 new) [39]) with (new ++ []).
  rewrite app_nil_r, subst_mild; [reflexivity|].
  rewrite forallb_forall in H. apply H. exact Hs.
Qed.

Lemma forallb_app_true (f : char -> bool) (a b : str) :
  forallb f a = true -> forallb f b = true -> forallb f (a ++ b) = true.
Proof. intros Ha Hb. rewrite forallb_app, Ha, Hb. reflexivity. Qed.

Lemma quoted_list_mild (l : list str) :
  forallb safe l = true -> forallb mild_char (quoted_list 34 l) = true.
Proof.
  intros H. unfold quoted_list.
  apply forallb_app_true; [reflexivity|].
  apply forallb_app_true; [|reflexivity].
  induction l as [|a [|b l] IH]; [reflexivity | |].
  - cbn [List.map join]. cbn [forallb] in H.
    apply andb_prop in H. destruct H as [Ha _].
    apply forallb_app_true; [reflexivity|].
    apply forallb_app_true; [apply safe_mild; exact Ha | reflexivity].
  - change (forallb safe (a :: b :: l)) with (safe a && forallb safe (b :: l))
      in H.
    apply andb_prop in H. destruct H as [Ha Hl].
    change (join !", " (List.map (fun s => [34] ++ s ++ [34]) (a :: b :: l)))
      with (([34] ++ a ++ [34]) ++ !", "
            ++ join !", " (List.map (fun s => [34] ++ s ++ [34]) (b :: l))).
    apply forallb_app_true.
    + apply forallb_app_true; [reflexivity|].
      apply forallb_app_true; [apply safe_mild; exact Ha | reflexivity].
    + apply forallb_app_true; [reflexivity | exact (IH Hl)].
Qed.

Lemma element_text_mild (code : str) (selected : list str) :
  safe code = true -> forallb safe selected = true ->
  forallb mild_char (element_text code selected) = true.
Proof.
  intros Hc Hs. unfold element_text.
  apply forallb_app_true; [reflexivity|].
  apply forallb_app_true; [apply safe_mild; exact Hc|].
  apply forallb_app_true; [reflexivity|].
  apply forallb_app_true; [apply quoted_list_mild; exact Hs | reflexivity].
Qed.

Lemma safe_list_mild (l : list str) :
  forallb safe l = true -> forallb (forallb mild_char) l = true.
Proof.
  rewrite !forallb_forall. intros H s Hs. apply safe_mild, H, Hs.
Qed.

(** Lines 268-272 for one widget. *)
Lemma element_replaced (code : str) (selected : list str) :
  safe code = true -> forallb safe selected = true ->
  replace [39] [34]
    (qlit "{'code': '" ++ code
     ++ qlit "', 'selection': {'filter': 'item', 'values': "
     ++ str_of_list isprintable selected ++ !" }}")
  = element_text code selected.
Proof.
  intros Hc Hs. rewrite replace_char, !flat_map_app.
  rewrite (str_of_list_mild _ (safe_list_mild _ Hs)).
  rewrite (requote [34] _ (safe_list_mild _ Hs)).
  rewrite (subst_mild _ _ (safe_mild _ Hc)).
  reflexivity.
Qed.

(** Lines 274-277. *)
Lemma query_text_nice (elements : list str) :
  forallb (forallb mild_char) elements = true ->
  query_text isprintable elements = query_nice elements.
Proof.
  intros H. unfold query_text, query_nice.
  rewrite (str_of_list_mild _ H), replace_char, (requote [] _ H).
  rewrite (map_ext (fun s => [] ++ s ++ []) (fun s => s)), map_id.
  - rewrite <- !app_assoc. reflexivity.
  - intros s. cbn [app]. apply app_nil_r.
Qed.

End QueryText.

(** ** [get_json]: reading the text back *)

Section QueryRead.

Variable isprintable : char -> bool.

Local Open Scope N_scope.

Local Abbreviation safe := (safe isprintable).
Local Abbreviation safe_entry := (safe_entry isprintable).

Lemma run_app (st : pstate) (a b : str) :
  run st (a ++ b) = obind (run st a) (fun st' => run st' b).
Proof.
  revert st. induction a as [|c a IH]; intros st; cbn [run app obind].
  - reflexivity.
  - destruct (step st c); cbn [obind]; [apply IH | reflexivity].
Qed.

(** Inside double quotes, a safe text is taken as it is. *)
Lemma run_in_string (stk : list frame) (acc s : str) :
  safe s = true ->
  run (stk, InStr 34 acc) s = Return (stk, InStr 34 (acc ++ s)).
Proof.
  revert acc. induction s as [|c s IH]; intros acc H; cbn [run].
  - rewrite app_nil_r. reflexivity.
  - apply andb_prop in H. destruct H as [Hc Hs].
    destruct (safe_char_facts _ _ Hc) as (H1 & H2 & H3 & H4 & _).
    cbn [step].
    destruct (N.eqb_spec c 34); [contradiction|].
    destruct (N.eqb_spec c 92); [contradiction|].
    destruct (N.eqb_spec c 10); [lia|].
    destruct (N.eqb_spec c 13); [lia|].
    cbn [orb obind]. rewrite IH by exact Hs. rewrite <- app_assoc. reflexivity.
Qed.

(** A safe text between double quotes where a value may stand, and the
    character after it. *)
Lemma run_string (stk : list frame) (b : bool) (s : str) (c : char)
    (rest : str) :
  safe s = true -> c <> 34 ->
  run (stk, Expect b) (dquote s ++ c :: rest)
  = obind (token stk (Have (PStr s)) c) (fun st => run st rest).
Proof.
  intros Hs Hc. unfold dquote.
  change ([34] ++ s ++ [34]) with (34 :: s ++ [34]).
  rewrite <- app_comm_cons. cbn [run].
  change (step (stk, Expect b) 34) with (Return (A:=pstate) (stk, InStr 34 [])).
  cbn [obind]. rewrite <- app_assoc, run_app.
  rewrite run_in_string by exact Hs.
  cbn [obind app run step].
  rewrite N.eqb_refl.
  destruct s as [|a s]; cbn [obind app step].
  - destruct (N.eqb_spec c 34); [contradiction|]. reflexivity.
  - reflexivity.
Qed.


Lemma push_ok (f : frame) (stk : list frame) :
  (List.length stk < max_depth)%nat -> push f stk = Return (f :: stk, Expect true).
Proof.
  intros H. unfold push.
  destruct (Nat.ltb_spec (List.length stk) max_depth); [reflexivity|lia].
Qed.

(** The texts of a list display, after the opening bracket. *)
Lemma run_items (stk : list frame) (acc : list pyobj) (l : list str)
    (rest : str) :
  forallb safe l = true ->
  run (FList acc :: stk, Expect true)
      (join !", " (List.map dquote l) ++ 93 :: rest)
  = run (stk, Have (PList (acc ++ List.map PStr l))) rest.
Proof.
  revert acc. induction l as [|a [|b l] IH]; intros acc H.
  - rewrite app_nil_r. reflexivity.
  - cbn [forallb] in H. apply andb_prop in H. destruct H as [Ha _].
    cbn [List.map join]. rewrite run_string by (exact Ha || discriminate).
    reflexivity.
  - change (forallb safe (a :: b :: l)) with (safe a && forallb safe (b :: l))
      in H.
    apply andb_prop in H. destruct H as [Ha Hl].
    change (join !", " (List.map dquote (a :: b :: l)))
      with (dquote a ++ 44 :: 32 :: join !", " (List.map dquote (b :: l))).
    rewrite <- app_assoc, <- !app_comm_cons.
    rewrite run_string by (exact Ha || discriminate).
    change (token (FList acc :: stk) (Have (PStr a)) 44)
      with (Return (A:=pstate) (FList (acc ++ [PStr a]) :: stk, Expect true)).
    cbn [obind run].
    change (step (FList (acc ++ [PStr a]) :: stk, Expect true) 32)
      with (Return (A:=pstate) (FList (acc ++ [PStr a]) :: stk, Expect true)).
    cbn [obind]. rewrite IH by exact Hl.
    rewrite <- app_assoc. reflexivity.
Qed.

(** A list display of safe texts. *)
Lemma run_value_list (stk : list frame) (b : bool) (l : list str)
    (rest : str) :
  (List.length stk < max_depth)%nat -> forallb safe l = true ->
  run (stk, Expect b) (quoted_list 34 l ++ rest)
  = run (stk, Have (PList (List.map PStr l))) rest.
Proof.
  intros Hd H. unfold quoted_list.
  change (!"[" ++ join !", " (List.map (fun s => [34] ++ s ++ [34]) l) ++ !"]")
    with (91 :: join !", " (List.map dquote l) ++ [93]).
  rewrite <- app_comm_cons, <- app_assoc. cbn [run app].
  change (step (stk, Expect b) 91) with (push (FList []) stk).
  rewrite push_ok by exact Hd. cbn [obind].
  rewrite run_items by exact H. reflexivity.
Qed.

(** The reader on a text of the source, character by character. *)
Ltac by_steps :=
  lazy -[push];
  rewrite ?push_ok by (cbn [List.length]; unfold max_depth in *; lia);
  lazy -[push]; reflexivity.

(** One entry of the query. *)
Lemma run_element (stk : list frame) (b : bool) (code : str)
    (selected : list str) (rest : str) :
  (List.length stk + 3 <= max_depth)%nat ->
  safe code = true -> forallb safe selected = true ->
  run (stk, Expect b) (element_text code selected ++ rest)
  = run (stk, Have (entry code selected)) rest.
Proof.
  intros Hd Hc Hs. unfold element_text.
  rewrite <- !app_assoc.
  assert (E1 : run (stk, Expect b) (qlit "{'code': '")
               = Return (FDict [] (Some !"code") :: stk, InStr 34 []))
    by by_steps.
  assert (E2 : run (FDict [] (Some !"code") :: stk, InStr 34 code)
                 (qlit "', 'selection': {'filter': 'item', 'values': ")
               = Return (FDict [ (!"filter", PStr !"item") ] (Some !"values")
                         :: FDict [ (!"code", PStr code) ] (Some !"selection")
                         :: stk, Expect false))
    by (destruct code; by_steps).
  assert (E3 : run (FDict [ (!"filter", PStr !"item") ] (Some !"values")
                    :: FDict [ (!"code", PStr code) ] (Some !"selection")
                    :: stk, Have (PList (List.map PStr selected))) !" }}"
               = Return (stk, Have (entry code selected)))
    by by_steps.
  rewrite run_app, E1. cbn [obind].
  rewrite run_app, run_in_string by exact Hc. cbn [obind app].
  rewrite run_app, E2. cbn [obind].
  rewrite run_value_list by (cbn [List.length]; lia || exact Hs).
  rewrite run_app, E3. reflexivity.
Qed.

(** The entries of the query, after the opening bracket. *)
Lemma run_elements (stk : list frame) (acc : list pyobj)
    (l : list (str * list str)) (rest : str) :
  (List.length stk + 4 <= max_depth)%nat ->
  forallb (fun e => safe (fst e) && forallb safe (snd e)) l = true ->
  run (FList acc :: stk, Expect true)
      (join !", " (List.map (fun e => element_text (fst e) (snd e)) l)
       ++ 93 :: rest)
  = run (stk, Have (PList (acc ++ List.map (fun e => entry (fst e) (snd e)) l)))
        rest.
Proof.
  intros Hd. revert acc. induction l as [|a [|b l] IH]; intros acc H.
  - rewrite app_nil_r. reflexivity.
  - cbn [forallb] in H. apply andb_prop in H. destruct H as [Ha _].
    apply andb_prop in Ha. destruct Ha as [Hc Hs].
    cbn [List.map join].
    rewrite run_element by (cbn [List.length]; lia || assumption).
    reflexivity.
  - change (forallb (fun e => safe (fst e) && forallb safe (snd e))
              (a :: b :: l))
      with (safe (fst a) && forallb safe (snd a)
            && forallb (fun e => safe (fst e) && forallb safe (snd e))
                 (b :: l)) in H.
    apply andb_prop in H. destruct H as [Ha Hl].
    apply andb_prop in Ha. destruct Ha as [Hc Hs].
    change (join !", "
              (List.map (fun e => element_text (fst e) (snd e)) (a :: b :: l)))
      with (element_text (fst a) (snd a) ++ 44 :: 32
            :: join !", "
                 (List.map (fun e => element_text (fst e) (snd e)) (b :: l))).
    rewrite <- app_assoc, <- !app_comm_cons.
    rewrite run_element by (cbn [List.length]; lia || assumption).
    cbn [run].
    change (step (FList acc :: stk, Have (entry (fst a) (snd a))) 44)
      with (Return (A:=pstate)
              (FList (acc ++ [entry (fst a) (snd a)]) :: stk, Expect true)).
    cbn [obind].
    change (step (FList (acc ++ [entry (fst a) (snd a)]) :: stk, Expect true) 32)
      with (Return (A:=pstate)
              (FList (acc ++ [entry (fst a) (snd a)]) :: stk, Expect true)).
    cbn [obind]. rewrite IH by exact Hl.
    rewrite <- app_assoc. reflexivity.
Qed.


Lemma mild_encodable (s : str) :
  forallb (mild_char isprintable) s = true -> forallb encodable s = true.
Proof.
  rewrite !forallb_forall. intros H c Hc. specialize (H c Hc).
  unfold Notions.mild_char, Notions.safe_char in H.
  apply orb_prop in H. destruct H as [H|H].
  - apply andb_prop in H. apply H.
  - apply N.eqb_eq in H. subst c. reflexivity.
Qed.

Lemma join_mild (l : list str) :
  forallb (forallb (mild_char isprintable)) l = true ->
  forallb (mild_char isprintable) (join !", " l) = true.
Proof.
  induction l as [|a [|b l] IH]; [reflexivity | |].
  - cbn [forallb join]. intros H. apply andb_prop in H. apply H.
  - intros H.
    change (forallb (forallb (mild_char isprintable)) (a :: b :: l))
      with (forallb (mild_char isprintable) a
            && forallb (forallb (mild_char isprintable)) (b :: l)) in H.
    apply andb_prop in H. destruct H as [Ha Hl].
    change (join !", " (a :: b :: l)) with (a ++ !", " ++ join !", " (b :: l)).
    apply forallb_app_true; [exact Ha|].
    apply forallb_app_true; [reflexivity | exact (IH Hl)].
Qed.

Lemma elements_mild (l : list (str * list str)) :
  forallb safe_entry l = true ->
  forallb (forallb (mild_char isprintable)) (List.map element_of l) = true.
Proof.
  rewrite !forallb_forall. intros H s Hs.
  apply in_map_iff in Hs. destruct Hs as (e & <- & He).
  specialize (H e He). apply andb_prop in H. destruct H as [Hc Hv].
  apply element_text_mild; assumption.
Qed.

(** The text of a query of safe codes and values is read back as the
    document of its entries. *)
Lemma literal_eval_query (l : list (str * list str)) :
  forallb safe_entry l = true ->
  literal_eval (query_nice (List.map element_of l))
  = Return (document (List.map entry_of l)).
Proof.
  intros H. unfold literal_eval.
  rewrite mild_encodable.
  - unfold query_nice.
    assert (E1 : run ([], Expect false) (qlit "{'query': " ++ !"[")
                 = Return ([FList []; FDict [] (Some !"query")], Expect true))
      by by_steps.
    assert (E3 : run ([FDict [] (Some !"query")],
                      Have (PList (List.map entry_of l)))
                   (qlit " , 'response': {'format': 'json-stat' }}")
                 = Return ([], Have (document (List.map entry_of l))))
      by by_steps.
    rewrite app_assoc, run_app, E1. cbn [obind].
    change (!"]" ++ qlit " , 'response': {'format': 'json-stat' }}")
      with (93 :: qlit " , 'response': {'format': 'json-stat' }}").
    unfold element_of.
    rewrite run_elements
      by (exact H || (cbn [List.length]; unfold max_depth; lia)).
    cbn [app]. fold entry_of. rewrite E3. reflexivity.
  - unfold query_nice.
    apply forallb_app_true; [reflexivity|].
    apply forallb_app_true; [reflexivity|].
    apply forallb_app_true; [apply join_mild, elements_mild, H|].
    reflexivity.
Qed.

(** The loop of lines 267-272 on safe codes and values. *)
Lemma query_element_safe (pre suf : list variable)
    (tabs : list SelectMultiple) :
  (List.length tabs <= List.length suf)%nat ->
  forallb safe_entry
    (List.map (fun p => (code (fst p), value (snd p))) (combine suf tabs))
  = true ->
  query_element isprintable (Some (pre ++ suf)) (List.length pre) tabs
  = Return (List.map element_of
              (List.map (fun p => (code (fst p), value (snd p)))
                 (combine suf tabs))).
Proof.
  revert pre suf. induction tabs as [|t tabs IH]; intros pre suf Hl H.
  - destruct suf; reflexivity.
  - destruct suf as [|v suf]; [cbn in Hl; lia|].
    cbn [combine List.map forallb fst snd] in H |- *.
    apply andb_prop in H. destruct H as [Hv H].
    apply andb_prop in Hv. cbn [fst snd] in Hv. destruct Hv as [Hc Hs].
    cbn [query_element].
    rewrite nth_error_app2, Nat.sub_diag by lia. cbn [nth_error obind].
    rewrite element_replaced by assumption.
    assert (E : pre ++ v :: suf = (pre ++ [v]) ++ suf)
      by (rewrite <- app_assoc; reflexivity).
    assert (L : S (List.length pre) = List.length (pre ++ [v]))
      by (rewrite length_app; cbn; lia).
    rewrite E, L, IH by (cbn in Hl; lia || exact H).
    reflexivity.
Qed.

(** On a box whose widgets stand for the variables of the session, with
    codes and selected values that are safe texts, [get_json] returns the
    document that has one entry for each widget, in order: the code of
    the variable, the filter "item" and the values selected in the
    widget, an empty list when none is. *)
Theorem get_json_safe (w : world pyobj) (box : VBox) (vars : list variable) :
  variables (self w) = Some vars ->
  let tabs := children (variables_container box) in
  let entries :=
    List.map (fun p => (code (fst p), value (snd p))) (combine vars tabs) in
  (List.length tabs <= List.length vars)%nat ->
  forallb safe_entry entries = true ->
  get_json isprintable (Some box) !"dict" w
  = (Return (document (List.map entry_of entries)), w).
Proof.
  intros Hv tabs entries Hl H.
  unfold get_json, bind, ret, lift, get_self. rewrite Hv.
  pose proof (@query_element_safe [] vars tabs Hl H) as Q.
  cbn [app List.length] in Q. fold tabs. rewrite Q.
  rewrite query_text_nice by (apply elements_mild, H).
  change (PyStr.eqb !"dict" !"dict") with true. cbv iota.
  fold entries. rewrite literal_eval_query by exact H. reflexivity.
Qed.

End QueryRead.

(** "Norway" selected for the first variable, nothing for the second. *)
Lemma get_json_safe_witness :
  get_json latin1_printable
    (pick [ [ !"Norway" ]; [] ] (box_of (fst country_select)))
    !"dict" (snd country_select)
  = (Return (document [entry !"Land" [ !"Norway" ]; entry !"Tid" []]),
     snd country_select).
Proof.
  refine (@get_json_safe latin1_printable (snd country_select) _
            [sample_country; sample_year] _ _ _);
    vm_compute; reflexivity.
Defined.

(** *** A value with an apostrophe *)

(** The text that [get_json] builds when "Cote d'Ivoire" is selected for
    the first variable and nothing for the second: the apostrophe of the
    value has become a double quote. *)
Lemma apostrophe_text :
  fst (get_json latin1_printable
         (pick [ [ !"Cote d'Ivoire" ]; [] ] (box_of (fst country_select)))
         !"str" (snd country_select))
  = Return (PStr (query_nice
      [ qlit "{'code': 'Land', 'selection': {'filter': 'item', 'values': ['Cote d'Ivoire'] }}";
        element_text !"Tid" [] ])).
Proof. vm_compute. reflexivity. Qed.

(** C4, at the selection of "Cote d'Ivoire" alone: [get_json] returns no
    document; [literal_eval] raises [SyntaxError] on the text. *)
Theorem apostrophe_breaks_query :
  get_json latin1_printable
    (pick [ [ !"Cote d'Ivoire" ]; [] ] (box_of (fst country_select)))
    !"dict" (snd country_select)
  = (Raise SyntaxError, snd country_select).
Proof. vm_compute. reflexivity. Qed.

(** With "Norway" selected instead, the document has its two entries. *)
Lemma norway_query :
  fst (get_json latin1_printable
         (pick [ [ !"Norway" ]; [] ] (box_of (fst country_select)))
         !"dict" (snd country_select))
  = Return (document [entry !"Land" [ !"Norway" ]; entry !"Tid" []]).
Proof. vm_compute. reflexivity. Qed.

(** ** [search]: the address, and the table of the matches *)

Import Matches.

Section SearchAddress.

Import Search.

(** The ten keys, by code point. *)
Lemma is_key_eq (c : char) :
  is_key c = existsb (N.eqb c) [230; 198; 248; 216; 229; 197; 34; 40; 41; 32]%N.
Proof.
  unfold is_key, convert. cbn [existsb fst]. rewrite !eqb_single. reflexivity.
Qed.

(** A key is replaced by a code without keys; another character is
    kept. *)
Lemma convert_char_cases (x : char) :
  (is_key x = true /\ forallb (fun c => negb (is_key c)) (convert_char x) = true
   /\ convert_char x <> [x])
  \/ (is_key x = false /\ convert_char x = [x]).
Proof.
  rewrite is_key_eq. unfold convert_char, convert. cbn [find fst snd existsb].
  rewrite !eqb_single.
  repeat match goal with
  | |- context [N.eqb x ?k] =>
      destruct (N.eqb_spec x k) as [->|];
      [ left; repeat split; try (vm_compute; reflexivity); discriminate
      | cbn [orb] ]
  end.
  right. split; reflexivity.
Qed.

(** An encoded text has no key. *)
Lemma encode_plain (s : str) : plain (encode s) = true.
Proof.
  rewrite encode_flat_map. unfold plain.
  induction s as [|x s IH]; [reflexivity|].
  cbn [flat_map]. rewrite forallb_app, IH, andb_true_r.
  destruct (convert_char_cases x) as [(_ & H & _)|(K & E)]; [exact H|].
  rewrite E. cbn [forallb]. rewrite K. reflexivity.
Qed.

(** The address that [search] reads has none of the ten keys of [convert]
    left in it: no space, no double quote, no parenthesis, none of the
    six letters, whatever the base address, the language and the
    phrase. *)
Theorem search_address_has_no_key (burl language phrase : str) :
  plain (search_str burl language phrase) = true.
Proof. apply encode_plain. Qed.

(** The loop over [convert] runs on the whole address: the base address
    and the language are encoded in the same way as the phrase, and the
    text between them is kept. *)
Theorem search_address_parts (burl language phrase : str) :
  search_str burl language phrase
  = encode burl ++ !"/" ++ encode language ++ !"/table/?query="
    ++ encode phrase.
Proof.
  unfold search_str. rewrite !encode_flat_map, !flat_map_app. reflexivity.
Qed.

(** The encoding changes a text exactly when the text has a key of
    [convert]: every other character, a percent sign or an ampersand as
    well, goes into the address as it is. *)
Theorem encode_fixes_plain (s : str) : encode s = s <-> plain s = true.
Proof.
  split.
  - intros E. rewrite <- E. apply encode_plain.
  - intros P. rewrite encode_flat_map. apply flat_map_id.
    intros c Hc. unfold plain in P. rewrite forallb_forall in P.
    specialize (P c Hc). apply negb_true_iff in P.
    destruct (convert_char_cases c) as [(K & _)|(_ & E)]; [congruence|exact E].
Qed.

End SearchAddress.

(** The phrase "pharma*" is kept. *)
Lemma encode_fixes_plain_witness :
  Search.encode !"pharma*" = !"pharma*".
Proof.
  apply (proj2 (encode_fixes_plain !"pharma*")). reflexivity.
Defined.

Section Titles.

Local Open Scope N_scope.

(** [split] returns one piece at least. *)
Lemma split_cons (sep : char) (s : str) :
  exists p ps, split sep s = p :: ps.
Proof.
  destruct s as [|c s]; cbn [split]; [eauto|].
  destruct (N.eqb c sep); [eauto|].
  destruct (split sep s); eauto.
Qed.

(** No piece has the separator. *)
Lemma split_pieces (sep : char) (s : str) :
  forallb (fun p => negb (existsb (N.eqb sep) p)) (split sep s) = true.
Proof.
  induction s as [|c s IH]; [reflexivity|].
  cbn [split]. destruct (N.eqb_spec c sep) as [->|Hne].
  - cbn [forallb existsb negb]. exact IH.
  - destruct (split sep s) as [|p ps]; cbn [forallb existsb negb andb] in *.
    + rewrite (proj2 (N.eqb_neq sep c)) by congruence. reflexivity.
    + rewrite (proj2 (N.eqb_neq sep c)) by congruence. exact IH.
Qed.

(** Joining the pieces with the separator gives the text back. *)
Lemma join_split (sep : char) (s : str) : join [sep] (split sep s) = s.
Proof.
  induction s as [|c s IH]; [reflexivity|].
  cbn [split]. destruct (N.eqb_spec c sep) as [->|Hne].
  - destruct (split_cons sep s) as (p & ps & E). rewrite E in *.
    change (join [sep] ([] :: p :: ps)) with ([sep] ++ join [sep] (p :: ps)).
    rewrite IH. reflexivity.
  - destruct (split sep s) as [|p [|q ps]].
    + cbn in IH. subst s. reflexivity.
    + cbn in IH. subst s. reflexivity.
    + change (join [sep] ((c :: p) :: q :: ps))
        with (c :: (p ++ [sep] ++ join [sep] (q :: ps))).
      change (join [sep] (p :: q :: ps))
        with (p ++ [sep] ++ join [sep] (q :: ps)) in IH.
      rewrite IH. reflexivity.
Qed.

(** What lines 106 and 107 make of a title: [table_id] is the text before
    the first colon, the whole title when there is no colon;
    [table_title] is a gap when there is no colon, and otherwise the text
    between the first colon and the second, so that what follows a second
    colon is lost. *)
Theorem title_pieces (s : str) :
  exists id,
    id_of_title s = Some id /\ existsb (N.eqb 58) id = false /\
    match text_of_title s with
    | None => s = id
    | Some t =>
        existsb (N.eqb 58) t = false /\
        exists more,
          s = id ++ !":" ++ t ++ more /\
          (more = [] \/ exists m, more = !":" ++ m)
    end.
Proof.
  unfold id_of_title, text_of_title.
  pose proof (split_pieces 58 s) as P.
  pose proof (join_split 58 s) as J.
  destruct (split_cons 58 s) as (id & rest & E). rewrite E in *.
  destruct rest as [|t ps].
  - exists id. cbn [nth_error forallb] in *.
    apply andb_prop in P. destruct P as [P _]. apply negb_true_iff in P.
    cbn [join] in J. auto.
  - exists id. cbn [nth_error forallb] in *.
    apply andb_prop in P. destruct P as [P1 P].
    apply andb_prop in P. destruct P as [P2 _].
    apply negb_true_iff in P1, P2.
    repeat split; try assumption.
    destruct ps as [|q ps].
    + exists []. split; [|left; reflexivity].
      rewrite app_nil_r. symmetry. exact J.
    + exists (!":" ++ join [58%N] (q :: ps)). split; [|right; eauto].
      symmetry. exact J.
Qed.

End Titles.

Section Sorting.

(** The order of strings: "not less than" is transitive, and "less than"
    goes one way only. *)
Lemma str_ltb_trans_ge (a b c : str) :
  str_ltb a b = false -> str_ltb b c = false -> str_ltb a c = false.
Proof.
  revert b c. induction a as [|x a IH]; intros [|y b] [|z c]; cbn [str_ltb];
    try discriminate; try reflexivity.
  destruct (N.ltb_spec x y), (N.eqb_spec x y), (N.ltb_spec y z),
    (N.eqb_spec y z), (N.ltb_spec x z), (N.eqb_spec x z);
    cbn [orb andb]; try discriminate; try reflexivity; try lia.
  apply IH.
Qed.

Lemma str_ltb_asym (a b : str) : str_ltb a b = true -> str_ltb b a = false.
Proof.
  revert b. induction a as [|x a IH]; intros [|y b]; cbn [str_ltb];
    try discriminate; try reflexivity.
  destruct (N.ltb_spec x y), (N.eqb_spec x y), (N.ltb_spec y x),
    (N.eqb_spec y x); cbn [orb andb]; try discriminate; try reflexivity;
    try lia.
  apply IH.
Qed.

Lemma insert_In (x : str) (l : list str) (z : str) :
  In z (insert x l) <-> z = x \/ In z l.
Proof.
  induction l as [|y l IH]; cbn [insert In].
  - intuition.
  - destruct (str_ltb x y); cbn [In]; [rewrite IH|]; intuition.
Qed.

Lemma insert_length (x : str) (l : list str) :
  List.length (insert x l) = S (List.length l).
Proof.
  induction l as [|y l IH]; cbn [insert]; [reflexivity|].
  destruct (str_ltb x y); cbn [List.length]; [rewrite IH|]; reflexivity.
Qed.

(** Sorting: the labels stay, and stand from the greatest to the
    least. *)
Lemma insert_descending (x : str) (l : list str) :
  descending l = true -> descending (insert x l) = true.
Proof.
  induction l as [|y l IH]; cbn [insert descending]; [reflexivity|].
  intros H. apply andb_prop in H. destruct H as [Hy Hl].
  destruct (str_ltb x y) eqn:E; cbn [descending forallb].
  - rewrite (IH Hl), andb_true_r.
    rewrite forallb_forall in Hy |- *. intros z Hz.
    apply insert_In in Hz. destruct Hz as [->|Hz]; [|apply Hy, Hz].
    rewrite (str_ltb_asym _ _ E). reflexivity.
  - rewrite E, Hy, Hl. cbn [negb andb]. rewrite andb_true_r.
    rewrite forallb_forall in Hy |- *. intros z Hz.
    specialize (Hy z Hz). apply negb_true_iff in Hy. apply negb_true_iff.
    exact (str_ltb_trans_ge _ _ _ E Hy).
Qed.

Lemma sort_reverse_descending (l : list str) :
  descending (sort_reverse l) = true.
Proof.
  induction l as [|x l IH]; [reflexivity|].
  apply insert_descending, IH.
Qed.

Lemma sort_reverse_In (l : list str) (z : str) :
  In z (sort_reverse l) <-> In z l.
Proof.
  induction l as [|x l IH]; cbn [sort_reverse fold_right In]; [tauto|].
  fold (sort_reverse l). rewrite insert_In, IH. intuition.
Qed.

Lemma sort_reverse_length (l : list str) :
  List.length (sort_reverse l) = List.length l.
Proof.
  induction l as [|x l IH]; [reflexivity|].
  cbn [sort_reverse fold_right]. fold (sort_reverse l).
  rewrite insert_length, IH. reflexivity.
Qed.

(** In such a list, no label of the front is less than a label of the
    back. *)
Lemma descending_app (a b : list str) :
  descending (a ++ b) = true ->
  descending a = true /\
  forall x y, In x a -> In y b -> str_ltb x y = false.
Proof.
  induction a as [|h a IH]; cbn [app descending].
  - intros _. split; [reflexivity|]. intros x y [].
  - intros H. apply andb_prop in H. destruct H as [Hh Ha].
    destruct (IH Ha) as [D F].
    rewrite forallb_app in Hh. apply andb_prop in Hh. destruct Hh as [H1 H2].
    rewrite H1, D. split; [reflexivity|].
    intros x y [<-|Hx] Hy; [|exact (F x y Hx Hy)].
    rewrite forallb_forall in H2. apply negb_true_iff, H2, Hy.
Qed.

End Sorting.

Section SearchTable.

Variable read_json : str -> outcome DataFrame.

Local Abbreviation search := (search (Body:=pyobj) read_json).

(** A call of [search] sends one GET, of the encoded address, and leaves
    the object as it was.  It prints "No match" and returns the frame as
    read exactly when the answer has no rows; when reading the answer
    raises, so does the call. *)
Theorem search_sends_one_request (phrase : str) (w : world pyobj) :
  let url := Search.search_str (burl (self w)) (language (self w)) phrase in
  let w' := snd (search phrase w) in
  self w' = self w /\ wire w' = wire w ++ [GET url] /\
  match read_json url with
  | Return df =>
      if Nat.eqb (len df) 0
      then fst (search phrase w) = Return (Unindexed df)
           /\ stdout w' = stdout w ++ [ !"No match" ]
      else stdout w' = stdout w
  | Raise e => fst (search phrase w) = Raise e /\ stdout w' = stdout w
  end.
Proof.
  unfold Matches.search, bind, get_self, send, print, ret, lift.
  cbn [fst snd self wire stdout].
  destruct (read_json _) as [df|e]; cbn [fst snd self wire stdout]; [|auto].
  destruct (Nat.eqb (len df) 0); cbn [fst snd self wire stdout]; [auto|].
  repeat match goal with
  | |- context [match ?x with Return _ => _ | Raise _ => _ end] =>
      lazymatch x with
      | context [match _ with Return _ => _ | Raise _ => _ end] => fail
      | _ => destruct x; cbn [fst snd self wire stdout]
      end
  end; auto.
Qed.

Lemma getitem_In (df : DataFrame) (name : str) (col : Series) :
  getitem df name = Return col -> In (name, col) df.
Proof.
  unfold getitem. destruct (Nat.ltb 1 (count df name)); [discriminate|].
  induction df as [|[n c] df IH]; cbn [column]; [discriminate|].
  destruct (str_eqb_spec n name) as [->|Hne].
  - intros H. injection H as ->. left. reflexivity.
  - intros H. right. exact (IH H).
Qed.

Lemma has_false (df : list (str * Column)) (name : str) :
  ~ In name (List.map fst df) -> has df name = false.
Proof.
  intros H. unfold has. apply not_true_is_false. intros E.
  apply existsb_exists in E. destruct E as ([n c] & Hin & E).
  cbn [fst] in E. destruct (str_eqb_spec n name) as [->|]; [|discriminate].
  apply H. apply in_map_iff. exists (name, c). auto.
Qed.

Lemma delitem_absent (df : list (str * Column)) (name : str) :
  ~ In name (List.map fst df) -> delitem df name = df.
Proof.
  induction df as [|[n c] df IH]; cbn [delitem filter List.map fst In];
    [reflexivity|].
  intros H. destruct (str_eqb_spec n name) as [->|Hne]; [tauto|].
  cbn [negb]. fold (delitem df name). rewrite IH by tauto. reflexivity.
Qed.

Lemma delitem_app (a b : list (str * Column)) (name : str) :
  delitem (a ++ b) name = delitem a name ++ delitem b name.
Proof. apply filter_app. Qed.

Lemma delitem_In (df : list (str * Column)) (name : str) (nc : str * Column) :
  In nc (delitem df name) <-> In nc df /\ fst nc <> name.
Proof.
  unfold delitem. rewrite filter_In.
  destruct (str_eqb_spec (fst nc) name); cbn [negb]; intuition congruence.
Qed.

(** Deleting the one column of a label. *)
Lemma delitem_length (df : list (str * Column)) (name : str) :
  NoDup (List.map fst df) -> In name (List.map fst df) ->
  List.length (delitem df name) = (List.length df - 1)%nat.
Proof.
  induction df as [|[n c] df IH]; cbn [List.map fst In]; [tauto|].
  intros N H. inversion N as [|? ? Hn N']; subst.
  cbn [delitem filter fst]. fold (delitem df name).
  destruct (str_eqb_spec n name) as [->|Hne]; cbn [negb List.length].
  - rewrite delitem_absent by exact Hn. lia.
  - destruct H as [H|H]; [contradiction|].
    rewrite (IH N' H).
    destruct df; [destruct H|cbn [List.length]; lia].
Qed.

Lemma getcol_app (a b : list (str * Column)) (name : str) :
  ~ In name (List.map fst a) -> getcol (a ++ b) name = getcol b name.
Proof.
  induction a as [|[n c] a IH]; cbn [app getcol List.map fst In];
    [reflexivity|].
  intros H. destruct (str_eqb_spec n name) as [->|Hne]; [tauto|].
  apply IH. tauto.
Qed.

Lemma getcol_In (df : list (str * Column)) (name : str) :
  In name (List.map fst df) ->
  exists col, getcol df name = Return col /\ In (name, col) df.
Proof.
  induction df as [|[n c] df IH]; cbn [getcol List.map fst In]; [tauto|].
  intros H. destruct (str_eqb_spec n name) as [->|Hne].
  - exists c. auto.
  - destruct H as [H|H]; [contradiction|].
    destruct (IH H) as (col & E & Hin). exists col. auto.
Qed.

(** Selecting labels that the frame has. *)
Lemma getcols_In (df : list (str * Column)) (names : list str) :
  (forall n, In n names -> In n (List.map fst df)) ->
  exists data,
    getcols df names = Return data /\ List.map fst data = names /\
    forall nc, In nc data -> In nc df.
Proof.
  unfold getcols. induction names as [|n names IH]; intros H; cbn [omap].
  - exists []. repeat split. intros nc [].
  - destruct (getcol_In df n (H n (or_introl eq_refl))) as (col & E & Hin).
    destruct IH as (data & D & F & I).
    { intros m Hm. apply H. right. exact Hm. }
    rewrite E. cbn [obind]. rewrite D. cbn [obind].
    exists ((n, col) :: data). cbn [List.map fst]. rewrite F.
    repeat split. intros nc [<-|Hnc]; [exact Hin | exact (I nc Hnc)].
Qed.

(** On an answer with rows, distinct labels, a column "title" of texts
    and no column "table_id" or "table_title": [search] returns the table
    indexed by the identifiers taken from the titles; its columns are all
    but two of the columns of the answer other than "title", with
    "table_title" among the candidates; they stand by label from the
    greatest to the least, each with the cells it had, and the two that
    are left out are ones whose labels are the least. *)
Theorem search_orders_columns (phrase : str) (w : world pyobj)
    (df : DataFrame) (titles : list str) :
  let url := Search.search_str (burl (self w)) (language (self w)) phrase in
  read_json url = Return df -> len df <> 0%nat ->
  NoDup (columns df) ->
  getitem df !"title" = Return (StrCol titles) ->
  ~ In !"table_id" (columns df) -> ~ In !"table_title" (columns df) ->
  exists data,
    search phrase w
    = (Return (Indexed !"table_id" (Pieces (List.map id_of_title titles)) data),
       sent w (GET url)) /\
    List.length data = (List.length df - 2)%nat /\
    descending (List.map fst data) = true /\
    (forall name col, In (name, col) data ->
       (name = !"table_title"
        /\ col = Pieces (List.map text_of_title titles))
       \/ (name <> !"title" /\ exists c, In (name, c) df /\ col = Read c)) /\
    (forall name, In name (!"table_title" :: columns df) ->
       name <> !"title" -> ~ In name (List.map fst data) ->
       forall k, In k (List.map fst data) -> str_ltb k name = false).
Proof.
  intros url R Hlen N Ht Hid Htt.
  set (read := List.map (fun nc : str * Series => (fst nc, Read (snd nc))) df).
  assert (Names : List.map fst read = columns df).
  { unfold read, columns. rewrite map_map. reflexivity. }
  set (tt := (!"table_title", Pieces (List.map text_of_title titles))).
  set (tid := (!"table_id", Pieces (List.map id_of_title titles))).
  set (rest := delitem read !"title" ++ [tt]).
  assert (Hin : In !"title" (columns df)).
  { apply in_map_iff. exists (!"title", StrCol titles).
    split; [reflexivity | apply getitem_In, Ht]. }
  assert (Sub : forall n, In n (List.map fst (delitem read !"title")) ->
                          In n (columns df) /\ n <> !"title").
  { intros n Hn. apply in_map_iff in Hn. destruct Hn as (nc & <- & Hnc).
    apply delitem_In in Hnc. destruct Hnc as [Hnc Hne].
    split; [|exact Hne]. rewrite <- Names. apply in_map. exact Hnc. }
  set (sorted := sort_reverse (List.map fst rest)).
  set (kept := firstn (List.length sorted - 2) sorted).
  destruct (getcols_In rest kept) as (data & D & F & I).
  { intros n Hn. apply (sort_reverse_In (List.map fst rest)).
    change (In n sorted).
    rewrite <- (firstn_skipn (List.length sorted - 2) sorted).
    apply in_or_app. left. exact Hn. }
  exists data.
  assert (Run : search phrase w
                = (Return (Indexed !"table_id"
                     (Pieces (List.map id_of_title titles)) data),
                   sent w (GET url))).
  { unfold Matches.search, bind, get_self, send, lift, ret.
    cbn [fst snd self]. fold url. rewrite R. cbn [fst snd].
    destruct (Nat.eqb_spec (len df) 0) as [E|_]; [contradiction|].
    rewrite Ht. cbn [str_split str_accessor obind fst snd].
    fold read. unfold str_get. rewrite !map_map.
    change (List.map (fun x => nth_error (split 58%N x) 0) titles)
      with (List.map id_of_title titles).
    change (List.map (fun x => nth_error (split 58%N x) 1) titles)
      with (List.map text_of_title titles).
    assert (E1 : setitem read !"table_id" (Pieces (List.map id_of_title titles))
                 = read ++ [tid]).
    { unfold setitem. rewrite has_false by (rewrite Names; exact Hid).
      reflexivity. }
    assert (E2 : setitem (read ++ [tid]) !"table_title"
                   (Pieces (List.map text_of_title titles))
                 = read ++ [tid; tt]).
    { unfold setitem. rewrite has_false.
      - rewrite <- app_assoc. reflexivity.
      - rewrite map_app, Names. cbn [List.map fst]. intros H.
        apply in_app_or in H. destruct H as [H|[H|[]]];
          [contradiction | discriminate]. }
    assert (E3 : delitem (read ++ [tid; tt]) !"title"
                 = delitem read !"title" ++ [tid; tt])
      by (rewrite delitem_app; reflexivity).
    assert (E4 : getcol (delitem read !"title" ++ [tid; tt]) !"table_id"
                 = Return (Pieces (List.map id_of_title titles))).
    { rewrite getcol_app; [reflexivity|]. intros H. apply Sub in H. tauto. }
    assert (E5 : delitem (delitem read !"title" ++ [tid; tt]) !"table_id"
                 = rest).
    { rewrite delitem_app, delitem_absent; [reflexivity|].
      intros H. apply Sub in H. tauto. }
    rewrite E1, E2, E3, E4, E5. cbn [obind fst snd].
    fold rest sorted kept. rewrite D. reflexivity. }
  assert (LenRest : List.length (List.map fst rest) = List.length df).
  { unfold rest. rewrite length_map, length_app, delitem_length.
    - cbn [List.length]. unfold read. rewrite length_map.
      pose proof (in_map_iff fst df !"title") as X.
      destruct df; [destruct Hin|cbn [List.length]; lia].
    - rewrite Names. exact N.
    - rewrite Names. exact Hin. }
  assert (Split : sorted = kept ++ skipn (List.length sorted - 2) sorted)
    by (symmetry; apply firstn_skipn).
  pose proof (sort_reverse_descending (List.map fst rest)) as Desc.
  fold sorted in Desc. rewrite Split in Desc.
  apply descending_app in Desc. destruct Desc as [DK Low].
  split; [exact Run|]. split; [|split; [|split]].
  - rewrite <- (length_map fst data), F. unfold kept.
    rewrite length_firstn. unfold sorted.
    rewrite sort_reverse_length, LenRest. lia.
  - rewrite F. exact DK.
  - intros name col Hnc. apply I in Hnc. unfold rest in Hnc.
    apply in_app_or in Hnc. destruct Hnc as [Hnc|[Hnc|[]]].
    + right. apply delitem_In in Hnc. destruct Hnc as [Hnc Hne].
      split; [exact Hne|]. unfold read in Hnc. apply in_map_iff in Hnc.
      destruct Hnc as ([n c] & E & Hc). cbn [fst snd] in E.
      injection E as -> <-. eauto.
    + left. injection Hnc as <- <-. auto.
  - intros name Hname Hne Hnot k Hk. rewrite F in Hnot, Hk.
    apply Low; [exact Hk|].
    assert (Hs : In name sorted).
    { apply sort_reverse_In. unfold rest. rewrite map_app.
      apply in_or_app. destruct Hname as [<-|Hname]; [right; left; reflexivity|].
      left. rewrite <- Names in Hname. apply in_map_iff in Hname.
      destruct Hname as (nc & <- & Hnc). apply in_map.
      apply delitem_In. auto. }
    rewrite Split in Hs. apply in_app_or in Hs. tauto.
Qed.

End SearchTable.

(** The two matches of the sample answer: of its five columns and
    "table_title", three are returned. *)
Lemma search_orders_columns_witness :
  exists data,
    search sample_matches !"folke" fresh
    = (Return (Indexed !"table_id"
                 (Pieces [ Some !"07459"; Some !"05810" ]) data),
       sent fresh (GET !"http://data.ssb.no/api/v0/en/table/?query=folke"))
    /\ List.length data = 3%nat.
Proof.
  destruct (@search_orders_columns sample_matches !"folke" fresh
              [ (!"id", StrCol [ !"07459"; !"05810" ]);
                (!"path", StrCol [ !"/befolkning"; !"/befolkning" ]);
                (!"title", StrCol [ !"07459: Population, by sex and age";
                                    !"05810: Population: by age" ]);
                (!"score", NumCol [2%Z; 1%Z]);
                (!"published", StrCol [ !"2020-02-27"; !"2020-02-27" ]) ]
              [ !"07459: Population, by sex and age";
                !"05810: Population: by age" ])
    as (data & Run & Len & _).
  - reflexivity.
  - discriminate.
  - repeat constructor; cbn; intuition discriminate.
  - reflexivity.
  - cbn; intuition discriminate.
  - cbn; intuition discriminate.
  - exists data. split; [exact Run | exact Len].
Defined.

(** ** [get_variables]: identifiers as texts, and sessions without an address *)

Section IdentifierText.

Local Open Scope Z_scope.

Variable int_unicode : str -> option Z.
Variable read_json : str -> outcome TableInfo.

Lemma lstrip_digits (s : str) :
  Forall (fun c => 48 <= c <= 57)%N s -> lstrip s = s.
Proof.
  intros [|c r Hc _]; [reflexivity|].
  cbn [lstrip]. unfold isspace.
  destruct (N.leb_spec 9 c), (N.leb_spec c 13), (N.eqb_spec c 32),
    (N.eqb_spec c 133), (N.eqb_spec c 160);
    cbn [andb orb]; try reflexivity; lia.
Qed.

Lemma strip_digits (s : str) :
  Forall (fun c => 48 <= c <= 57)%N s -> strip s = s.
Proof.
  intros H. unfold strip. rewrite (lstrip_digits H), lstrip_digits.
  - apply rev_involutive.
  - apply Forall_rev. exact H.
Qed.

(** Without underscores, [int] reads the digits as [number] does. *)
Lemma digits_value_number (s : str) (acc : Z) (b : bool) :
  s <> [] -> Forall (fun c => 48 <= c <= 57)%N s ->
  digits_value acc b s = number acc s.
Proof.
  revert acc b. induction s as [|c s IH]; intros acc b Hs H; [contradiction|].
  inversion H as [|? ? Hc Hrest]; subst.
  cbn [digits_value number].
  destruct (N.eqb_spec c 95); [lia|].
  destruct (digit_of c) as [d|]; [|reflexivity].
  destruct s as [|c' s]; [reflexivity|].
  apply IH; [discriminate | exact Hrest].
Qed.

(** [int] reads a text of decimal digits as the number they write. *)
Lemma int_of_digits (s : str) (n : Z) :
  s <> [] -> number 0 s = Some n -> int_of_str int_unicode s = Return n.
Proof.
  intros Hs Hn. pose proof (number_digits _ _ Hn) as D.
  unfold Py.int_of_str.
  assert (E : existsb (fun c => (255 <? c)%N) s = false).
  { apply not_true_is_false. intros X. apply existsb_exists in X.
    destruct X as (c & Hc & X). rewrite Forall_forall in D.
    specialize (D c Hc). apply N.ltb_lt in X. lia. }
  rewrite E, (strip_digits D).
  destruct s as [|c r]; [contradiction|].
  inversion D as [|? ? Hc _]; subst.
  assert (C : (c = 48 \/ c = 49 \/ c = 50 \/ c = 51 \/ c = 52 \/ c = 53
               \/ c = 54 \/ c = 55 \/ c = 56 \/ c = 57)%N) by lia.
  rewrite <- (digits_value_number 0 false Hs D) in Hn.
  repeat (destruct C as [-> | C]; [cbv iota beta; rewrite Hn; f_equal; lia|]).
  subst c. cbv iota beta. rewrite Hn. f_equal. lia.
Qed.

(** A number below [10 ^ k] has at most [k] digits. *)
Lemma digits_length (fuel : nat) (k : nat) (n : Z) (acc : str) :
  (1 <= k)%nat -> 0 <= n < 10 ^ Z.of_nat k ->
  (List.length (digits fuel n acc) <= k + List.length acc)%nat.
Proof.
  revert k n acc. induction fuel as [|f IH]; intros k n acc Hk Hn;
    cbn [digits].
  - cbn [List.length]. lia.
  - destruct (Z.ltb_spec n 10); [cbn [List.length]; lia|].
    destruct k as [|[|k]]; [lia | cbn in Hn; lia |].
    specialize (IH (S k) (n / 10) (Z.to_N (48 + n mod 10) :: acc)).
    cbn [List.length] in IH.
    assert (0 <= n / 10 < 10 ^ Z.of_nat (S k)).
    { rewrite (Nat2Z.inj_succ (S k)), Z.pow_succ_r in Hn by lia.
      split; [apply Z.div_pos; lia|].
      apply Z.div_lt_upper_bound; lia. }
    specialize (IH ltac:(lia) H0). lia.
Qed.

Lemma short_number (n : Z) :
  0 <= n < 1000 -> Nat.eqb (List.length (str_of_int n)) 4 = false.
Proof.
  intros H. unfold str_of_int. destruct (Z.ltb_spec n 0); [lia|].
  pose proof (@digits_length (Z.to_nat (Z.log2 n)) 3 n [] ltac:(lia)
                ltac:(cbn; lia)) as L.
  cbn [List.length Nat.add] in L.
  apply Nat.eqb_neq. lia.
Qed.

(** An identifier given as a text of five digits, in a session without
    an address: when its number is 1000 or more the address ends with the
    text as given, the leading zero of "07459" included; below 1000 the
    zeros are lost and the address ends with the number. *)
Theorem five_digit_text_kept (s : str) (n : Z) (w : world pyobj) :
  List.length s = 5%nat -> number 0 s = Some n ->
  furl (self w) = None ->
  let numb := if 1000 <=? n then s else str_of_int n in
  let u := burl (self w) ++ !"/" ++ language (self w) ++ !"/table/" ++ numb in
  get_variables int_unicode read_json (AStr s) w
  = (read_variables read_json u, fetched w u []).
Proof.
  intros Hl Hn Hf numb u.
  assert (Hs : s <> []) by (intros ->; discriminate).
  rewrite (get_variables_int int_unicode read_json (AStr s) w
             (int_of_digits Hs Hn)), Hf.
  cbv zeta.
  assert (E : table_url (self w) (numb_of n) = u); [|rewrite E; reflexivity].
  unfold table_url, u. do 3 f_equal. subst numb.
  destruct s as [|a [|b [|c [|d [|e [|]]]]]]; try discriminate.
  rewrite number_cons in Hn.
  destruct (digit_of a) as [a'|] eqn:Ea; [|discriminate].
  rewrite number_cons in Hn.
  destruct (digit_of b) as [b'|] eqn:Eb; [|discriminate].
  rewrite number_cons in Hn.
  destruct (digit_of c) as [c'|] eqn:Ec; [|discriminate].
  rewrite number_cons in Hn.
  destruct (digit_of d) as [d'|] eqn:Ed; [|discriminate].
  rewrite number_cons in Hn.
  destruct (digit_of e) as [e'|] eqn:Ee; [|discriminate].
  rewrite number_nil in Hn.
  assert (Hn' : 10 * (10 * (10 * (10 * (10 * 0 + a') + b') + c') + d') + e'
                = n) by congruence.
  clear Hn.
  apply digit_of_Some in Ea, Eb, Ec, Ed, Ee.
  destruct (Z.leb_spec 1000 n) as [Hn1|Hn1].
  - destruct (Z_lt_le_dec n 10000) as [Hn2|Hn2].
    + unfold numb_of. rewrite (@str_of_int_4 n) by lia.
      cbn [List.map List.length Nat.eqb format_numb app].
      change (!"0") with [48%N]. cbn [app].
      repeat f_equal; Z.to_euclidean_division_equations; lia.
    + unfold numb_of. rewrite (@str_of_int_5 n) by lia.
      cbn [List.map List.length Nat.eqb format_numb].
      rewrite (@str_of_int_5 n) by lia. cbn [List.map].
      repeat f_equal; Z.to_euclidean_division_equations; lia.
  - unfold numb_of. rewrite short_number by lia. reflexivity.
Qed.

End IdentifierText.

(** The identifier "07459". *)
Lemma five_digit_text_kept_witness :
  get_variables no_int sample_api (AStr !"07459") fresh
  = (Return [sample_region; sample_year],
     fetched fresh !"http://data.ssb.no/api/v0/en/table/07459" []).
Proof.
  apply (@five_digit_text_kept no_int sample_api !"07459" 7459 fresh);
    reflexivity.
Defined.

Section NewSession.

Variable int_unicode : str -> option Z.
Variable read_json : str -> outcome TableInfo.

(** In a session without an address, an identifier that [int] does not
    read sends nothing: [get_variables] and [select] raise, [TypeError] for
    [None] and [UnboundLocalError] after the message for a text, and the
    object is as it was. *)
Theorem unreadable_identifier_sends_nothing (table_id : arg)
    (w : world pyobj) :
  furl (self w) = None ->
  (forall n, int int_unicode table_id <> Return n) ->
  let e := match table_id with
           | ANone => TypeError
           | _ => UnboundLocalError
           end in
  let out := match table_id with
             | ANone => []
             | _ => [ !"table_id mus be of type integer" ]
             end in
  let w' := {| self := self w; stdout := stdout w ++ out; wire := wire w |} in
  get_variables int_unicode read_json table_id w = (Raise e, w') /\
  select int_unicode read_json table_id w = (Raise e, w').
Proof.
  intros Hf Hn e out w'.
  assert (G : get_variables int_unicode read_json table_id w = (Raise e, w')).
  { destruct (int_cases int_unicode table_id) as [E|[[n E]|E]].
    - subst table_id e out w'. rewrite get_variables_none.
      rewrite app_nil_r. destruct w; reflexivity.
    - exfalso. exact (Hn n E).
    - rewrite (get_variables_not_int int_unicode read_json _ w E), Hf.
      subst e out w'. destruct table_id; [discriminate| |]; reflexivity. }
  split; [exact G|].
  unfold Client.select, bind. rewrite G. reflexivity.
Qed.

End NewSession.

(** The identifier "abc" in a new session. *)
Lemma unreadable_identifier_sends_nothing_witness :
  select no_int sample_api (AStr !"abc") fresh
  = (Raise UnboundLocalError,
     {| self := self fresh;
        stdout := [ !"table_id mus be of type integer" ];
        wire := [] |}).
Proof.
  apply (@unreadable_identifier_sends_nothing no_int sample_api (AStr !"abc")
           fresh).
  - reflexivity.
  - intros n H. discriminate H.
Defined.

Section StuckAddress.

Variable int_unicode : str -> option Z.
Variable read_json : str -> outcome TableInfo.

(** The address is stored before it is fetched: when the first fetch of
    a session fails, the address stays in [furl], and a later call for
    any identifier that [int] reads fetches that same address again and
    fails in the same way. *)
Theorem failed_fetch_fixes_address (table_id table_id' : arg) (n n' : Z)
    (w : world pyobj) (e : exn) :
  furl (self w) = None ->
  int int_unicode table_id = Return n ->
  int int_unicode table_id' = Return n' ->
  let u := table_url (self w) (numb_of n) in
  read_json u = Raise e ->
  let w1 := fetched w u [] in
  get_variables int_unicode read_json table_id w = (Raise e, w1) /\
  get_variables int_unicode read_json table_id' w1
  = (Raise e, fetched w1 u []).
Proof.
  intros Hf Hn Hn' u R w1.
  rewrite (get_variables_int int_unicode read_json _ w Hn), Hf.
  rewrite (get_variables_int int_unicode read_json _ w1 Hn').
  cbn [w1 fetched self with_furl furl]. cbv zeta.
  unfold Notions.read_variables. fold u. rewrite R. auto.
Qed.

End StuckAddress.

(** After a failed call for table 10714, a call for table 5327 fetches
    the address of 10714. *)
Lemma failed_fetch_fixes_address_witness :
  get_variables no_int failing_api (AInt 5327)
    (fetched fresh url_10714 [])
  = (Raise HTTPError, fetched (fetched fresh url_10714 []) url_10714 []).
Proof.
  apply (@failed_fetch_fixes_address no_int failing_api (AStr !"10714")
           (AInt 5327) 10714 5327 fresh HTTPError); reflexivity.
Defined.

(** ** [select]: the value that a label selects *)

Section LastValue.

(** Looking a label up after an assignment, in two dictionaries in a
    row, and in the dictionary built from pairs. *)
Lemma lookup_odict_set (d : list (str * str)) (k k' v : str) :
  lookup k (odict_set d k' v)
  = if PyStr.eqb k' k then Some v else lookup k d.
Proof.
  unfold lookup. induction d as [|[a b] d IH]; cbn [odict_set find fst].
  - destruct (PyStr.eqb k' k); reflexivity.
  - destruct (str_eqb_spec a k') as [->|Hne]; cbn [find fst].
    + destruct (PyStr.eqb k' k); reflexivity.
    + destruct (str_eqb_spec a k) as [->|Hne']; [|exact IH].
      destruct (str_eqb_spec k' k) as [->|]; [contradiction|reflexivity].
Qed.

Lemma lookup_app (a b : list (str * str)) (k : str) :
  lookup k (a ++ b)
  = match lookup k a with
    | Some v => Some v
    | None => lookup k b
    end.
Proof.
  unfold lookup. induction a as [|[x y] a IH]; cbn [app find fst];
    [reflexivity|].
  destruct (PyStr.eqb x k); [reflexivity | exact IH].
Qed.

Lemma lookup_fold (pairs d : list (str * str)) (k : str) :
  lookup k (fold_left (fun d kv => odict_set d (fst kv) (snd kv)) pairs d)
  = match lookup k (rev pairs) with
    | Some v => Some v
    | None => lookup k d
    end.
Proof.
  revert d. induction pairs as [|[a b] pairs IH]; intros d;
    cbn [fold_left rev fst snd]; [reflexivity|].
  rewrite IH, lookup_app, lookup_odict_set.
  destruct (lookup k (rev pairs)); [reflexivity|].
  unfold lookup. cbn [find fst option_map snd].
  destruct (PyStr.eqb a k); reflexivity.
Qed.

(** The options that [select] builds for a variable have each label once,
    and a label selects the value of its last occurrence in
    [valueTexts]. *)
Theorem option_takes_last_value (v : variable) (label : str) :
  let pairs := combine (valueTexts v) (values v) in
  NoDup (keys (OrderedDict pairs)) /\
  lookup label (OrderedDict pairs) = lookup label (rev pairs).
Proof.
  intros pairs. split.
  - exact (proj1 (@fold_odict_keys pairs [] (NoDup_nil _))).
  - unfold OrderedDict. rewrite lookup_fold.
    destruct (lookup label (rev pairs)); reflexivity.
Qed.

End LastValue.

(** ** From [select] to [read_box] *)

Section Pipeline.

Variable int_unicode : str -> option Z.
Variable read_json : str -> outcome TableInfo.
Variable post : str -> pyobj -> outcome (DataFrame * str).
Variable isprintable : char -> bool.

Local Abbreviation safe_entry := (safe_entry isprintable).

(** [get_json] on safe codes and values: the text, and the document. *)
Lemma get_json_entries (w : world pyobj) (box : VBox) (vars : list variable)
    (out : str) :
  variables (self w) = Some vars ->
  let tabs := children (variables_container box) in
  let entries :=
    List.map (fun p => (code (fst p), value (snd p))) (combine vars tabs) in
  (List.length tabs <= List.length vars)%nat ->
  forallb safe_entry entries = true ->
  get_json isprintable (Some box) out w
  = (if PyStr.eqb out !"dict"
     then Return (document (List.map entry_of entries))
     else Return (PStr (query_nice (List.map element_of entries))), w).
Proof.
  intros Hv tabs entries Hl H.
  unfold get_json, bind, ret, lift, get_self. rewrite Hv.
  pose proof (@query_element_safe isprintable [] vars tabs Hl H) as Q.
  cbn [app List.length] in Q. fold tabs. rewrite Q.
  rewrite (query_text_nice isprintable) by (apply elements_mild, H).
  fold entries.
  destruct (PyStr.eqb out !"dict"); [|reflexivity].
  rewrite (literal_eval_query isprintable) by exact H. reflexivity.
Qed.

(** With [out] other than "dict", [get_json] on safe codes and values
    returns the text of the query and changes nothing, and [to_dict]
    reads that text back as the document of the entries. *)
Theorem get_json_text_is_read_back (w : world pyobj) (box : VBox)
    (vars : list variable) (out : str) :
  variables (self w) = Some vars ->
  let tabs := children (variables_container box) in
  let entries :=
    List.map (fun p => (code (fst p), value (snd p))) (combine vars tabs) in
  (List.length tabs <= List.length vars)%nat ->
  forallb safe_entry entries = true ->
  out <> !"dict" ->
  get_json isprintable (Some box) out w
  = (Return (PStr (query_nice (List.map element_of entries))), w) /\
  to_dict (query_nice (List.map element_of entries))
  = Return (document (List.map entry_of entries)).
Proof.
  intros Hv tabs entries Hl H Hout.
  rewrite (get_json_entries w box _ Hv Hl H).
  destruct (str_eqb_spec out !"dict") as [E|_]; [contradiction|].
  split; [reflexivity|].
  unfold to_dict. apply (literal_eval_query isprintable). exact H.
Qed.

(** The entries of a box in which [sels] has been picked. *)
Lemma picked_entries (f : variable -> SelectMultiple) (vars : list variable)
    (sels : list (list str)) :
  List.map (fun p => (code (fst p), value (snd p)))
    (combine vars
       (List.map (fun p => {| options := options (fst p); value := snd p;
                              rows := rows (fst p); width := width (fst p) |})
          (combine (List.map f vars) sels)))
  = combine (List.map code vars) sels.
Proof.
  revert sels. induction vars as [|v vars IH]; intros [|s sels];
    cbn [List.map combine fst snd value]; try reflexivity.
  rewrite IH. reflexivity.
Qed.

Lemma picked_length (f : variable -> SelectMultiple) (vars : list variable)
    (sels : list (list str)) :
  (List.length
     (List.map (fun p => {| options := options (fst p); value := snd p;
                            rows := rows (fst p); width := width (fst p) |})
        (combine (List.map f vars) sels)) <= List.length vars)%nat.
Proof.
  rewrite length_map, length_combine, length_map. lia.
Qed.

(** In a session without an address, for an identifier that [int] reads
    and a table with variables whose codes are safe texts: [select]
    returns a box after two GETs of the address of the table and stores
    the variables; for any selection of safe values in that box,
    [get_json] returns the document with one entry for each variable, and
    [read_box] posts that document to the address of the table and returns
    the answer, or prints its message when the request fails. *)
Theorem selection_is_posted (table_id : arg) (n : Z) (w : world pyobj)
    (info : TableInfo) (sels : list (list str)) :
  furl (self w) = None ->
  int int_unicode table_id = Return n ->
  let u := table_url (self w) (numb_of n) in
  read_json u = Return info ->
  table_variables info <> [] ->
  List.length sels = List.length (table_variables info) ->
  let entries := combine (List.map code (table_variables info)) sels in
  forallb safe_entry entries = true ->
  let query := document (List.map entry_of entries) in
  exists box w',
    select int_unicode read_json table_id w = (Return box, w') /\
    url_text box = u /\
    variables (self w') = Some (table_variables info) /\
    wire w' = wire w ++ [GET u; GET u] /\
    get_json isprintable (pick sels (Some box)) !"dict" w'
    = (Return query, w') /\
    read_box post isprintable (pick sels (Some box)) w'
    = match post u query with
      | Return r => (Return (Some r), sent w' (POST u query))
      | Raise NotModelled => (Raise NotModelled, sent w' (POST u query))
      | Raise _ => (Return None, printed (sent w' (POST u query)) choose)
      end.
Proof.
  intros Hf Hn u R Hvars _ entries Hsafe query.
  unfold Client.select, bind.
  rewrite (get_variables_int int_unicode read_json _ w Hn), Hf.
  cbv zeta. fold u. unfold Notions.read_variables. rewrite R. cbn [obind].
  unfold set_variables, bind, get_self, set_self, read_furl, send, ret, raise.
  cbn [self furl fetched with_furl fst snd stdout wire variables language burl
       State.time].
  unfold bind, get_self, send, ret, raise.
  cbn [self furl fst snd stdout wire variables].
  rewrite R.
  destruct (table_variables info) as [|v vars] eqn:V; [contradiction|].
  cbn [fst snd self furl].
  eexists. eexists. split; [reflexivity|].
  cbn [url_text self variables wire].
  split; [reflexivity|]. split; [reflexivity|].
  split; [rewrite <- app_assoc; reflexivity|].
  match goal with
  | |- get_json _ (pick _ (Some ?b)) _ ?w1 = _ /\ _ =>
      set (box := b); set (w' := w1)
  end.
  assert (G : get_json isprintable (pick sels (Some box)) !"dict" w'
              = (Return query, w')).
  { unfold pick, option_map.
    match goal with
    | |- get_json _ (Some ?b) _ _ = _ => set (picked := b)
    end.
    assert (Hv : variables (self w') = Some (v :: vars)) by reflexivity.
    pose proof (@get_json_entries w' picked (v :: vars) !"dict" Hv) as J.
    cbv zeta in J.
    assert (En : List.map (fun p => (code (fst p), value (snd p)))
                   (combine (v :: vars) (children (variables_container picked)))
                 = entries).
    { unfold picked. cbn [children variables_container box].
      unfold option_list. rewrite map_map. apply picked_entries. }
    rewrite En in J.
    refine (J _ Hsafe).
    unfold picked. cbn [children variables_container box].
    unfold option_list. rewrite map_map. apply picked_length. }
  split; [exact G|].
  unfold read_box, try_except, bind. rewrite G.
  unfold pick, option_map. cbn [url_text box].
  unfold send, ret.
  destruct (post u query) as [r|e]; [reflexivity|].
  destruct e; reflexivity.
Qed.

End Pipeline.

(** Table 10714 with "0301" selected for the region. *)
Lemma selection_is_posted_witness :
  exists box w',
    select no_int sample_api (AStr !"10714") fresh = (Return box, w') /\
    read_box answering latin1_printable
      (pick [ [ !"0301" ]; [] ] (Some box)) w'
    = (Return (Some answer),
       sent w' (POST url_10714
                  (document [entry !"Region" [ !"0301" ]; entry !"Tid" []]))).
Proof.
  destruct (@selection_is_posted no_int sample_api answering latin1_printable
              (AStr !"10714") 10714 fresh
              {| title := !"10714: Sample table";
                 table_variables := [sample_region; sample_year] |}
              [ [ !"0301" ]; [] ])
    as (box & w' & S & _ & _ & _ & _ & R); try reflexivity.
  - discriminate.
  - exists box, w'. split; [exact S | exact R].
Defined.

(** The text of the query for "Norway". *)
Lemma get_json_text_is_read_back_witness :
  to_dict (query_nice [ element_text !"Land" [ !"Norway" ];
                        element_text !"Tid" [] ])
  = Return (document [entry !"Land" [ !"Norway" ]; entry !"Tid" []]).
Proof.
  refine (proj2 (@get_json_text_is_read_back latin1_printable
                   (snd country_select)
                   (unbox (pick [ [ !"Norway" ]; [] ]
                             (box_of (fst country_select))))
                   [sample_country; sample_year] !"str" _ _ _ _)).
  - reflexivity.
  - vm_compute. repeat constructor.
  - vm_compute. reflexivity.
  - discriminate.
Defined.

Section ForeignBox.

Variable post : str -> pyobj -> outcome (DataFrame * str).
Variable isprintable : char -> bool.

(** The loop of [get_json] runs out of variables. *)
Lemma query_element_short (vars : list variable) (x : nat)
    (tabs : list SelectMultiple) :
  (x <= List.length vars < x + List.length tabs)%nat ->
  query_element isprintable (Some vars) x tabs = Raise IndexError.
Proof.
  revert x. induction tabs as [|t tabs IH]; intros x H; cbn [List.length] in H.
  - lia.
  - cbn [query_element].
    destruct (nth_error vars x) as [v|] eqn:E; cbn [obind]; [|reflexivity].
    rewrite IH; [reflexivity|].
    assert (x < List.length vars)%nat
      by (apply nth_error_Some; congruence).
    lia.
Qed.

(** A box with more widgets than the session has variables, as when
    [select] has not been called on this object: [get_json] raises,
    [TypeError] without variables and [IndexError] with too few, and
    [read_box] prints its message, returns [None] and sends nothing. *)
Theorem read_box_without_variables (box : VBox) (w : world pyobj)
    (out : str) :
  let tabs := children (variables_container box) in
  let vars := match variables (self w) with
              | Some vars => vars
              | None => []
              end in
  (List.length vars < List.length tabs)%nat ->
  get_json isprintable (Some box) out w
  = (Raise (match variables (self w) with
            | None => TypeError
            | Some _ => IndexError
            end), w) /\
  read_box post isprintable (Some box) w = (Return None, printed w choose).
Proof.
  intros tabs vars H.
  assert (G : forall out', get_json isprintable (Some box) out' w
              = (Raise (match variables (self w) with
                        | None => TypeError
                        | Some _ => IndexError
                        end), w)).
  { intros out'. unfold get_json, bind, ret, lift, get_self. fold tabs.
    subst vars. destruct (variables (self w)) as [vs|].
    - rewrite query_element_short by (cbn [Nat.add]; lia). reflexivity.
    - destruct tabs as [|t tabs']; [cbn in H; lia|]. reflexivity. }
  split; [apply G|].
  unfold read_box, try_except, bind. rewrite G.
  destruct (variables (self w)); reflexivity.
Qed.

End ForeignBox.

(** The box of the sample table handed to a new session. *)
Lemma read_box_without_variables_witness :
  read_box answering latin1_printable (box_of (fst sample_select)) fresh
  = (Return None, printed fresh choose).
Proof.
  refine (proj2 (@read_box_without_variables answering latin1_printable
                   (unbox (box_of (fst sample_select))) fresh !"dict" _)).
  vm_compute. repeat constructor.
Defined.

(** ** [fiksDato]: the characters that it reads *)

Section FiksDatoFields.

Local Open Scope Z_scope.

Variable pandas_reads : option str -> str -> outcome Timestamp.
Variable int_unicode : str -> option Z.

Local Abbreviation fiksDato := (fiksDato pandas_reads int_unicode).

(** [fiksDato] reads the first four characters and the sixth only: for a
    year from 1678 to 2261 written with its four digits [y] and a
    quarter from 1 to 4, whatever the fifth character and whatever
    follows the quarter, it returns the year followed by the last day of
    the quarter at midnight: -03-31, -06-30, -09-30 or -12-31.  This is
    how the cell "2020K2" is read. *)
Theorem fiksDato_reads_year_and_quarter (y : str) (Y q : Z) (sep : char)
    (rest : str) :
  List.length y = 4%nat -> number 0 y = Some Y ->
  1678 <= Y <= 2261 -> 1 <= q <= 4 ->
  fiksDato (y ++ [sep] ++ str_of_int q ++ rest)
  = Return (y ++ match q with
                 | 1 => !"-03-31 00:00:00"
                 | 2 => !"-06-30 00:00:00"
                 | 3 => !"-09-30 00:00:00"
                 | _ => !"-12-31 00:00:00"
                 end).
Proof.
  intros Hl Hnum HY Hq.
  destruct y as [|y1 [|y2 [|y3 [|y4 [|]]]]]; try discriminate.
  assert (Hq' : q = 1 \/ q = 2 \/ q = 3 \/ q = 4) by lia.
  destruct Hq' as [-> | [-> | [-> | ->]]]; read_quarter Hnum.
Qed.

(** [int] on one character of Latin-1 that is no decimal digit: checked
    on all 256. *)
Lemma latin1_not_digit :
  forallb (fun k => let c := N.of_nat k in
                    match digit_of c with
                    | Some _ => true
                    | None => is_value_error (int_of_str int_unicode [c])
                    end) (seq 0 256) = true.
Proof. vm_compute. reflexivity. Qed.

Lemma int_of_char (c : char) :
  (c <= 255)%N -> digit_of c = None ->
  int_of_str int_unicode [c] = Raise ValueError.
Proof.
  intros Hc Hd. pose proof latin1_not_digit as L.
  rewrite forallb_forall in L. specialize (L (N.to_nat c)).
  cbv zeta in L. rewrite N2Nat.id, Hd in L.
  assert (V : is_value_error (int_of_str int_unicode [c]) = true)
    by (apply L, in_seq; lia).
  destruct (int_of_str int_unicode [c]) as [a|e]; [discriminate|].
  destruct e; try discriminate. reflexivity.
Qed.

(** [fiksDato] raises [ValueError] on a text that has no sixth
    character, and on one whose sixth character is a character of
    Latin-1 other than a decimal digit. *)
Theorem fiksDato_without_quarter (dato : str) :
  match nth_error dato 5 with
  | None => True
  | Some c => (c <= 255)%N /\ digit_of c = None
  end ->
  fiksDato dato = Raise ValueError.
Proof.
  intros H. unfold Reshape.fiksDato, fiksDato_month.
  assert (E : slice 5 6 dato = match nth_error dato 5 with
                               | Some c => [c]
                               | None => []
                               end).
  { unfold slice. do 5 (destruct dato as [|? dato]; [reflexivity|]).
    destruct dato; reflexivity. }
  rewrite E. destruct (nth_error dato 5) as [c|].
  - destruct H as [Hc Hd]. rewrite (int_of_char Hc Hd). reflexivity.
  - reflexivity.
Qed.

End FiksDatoFields.

(** The cell "2020K2". *)
Lemma fiksDato_reads_year_and_quarter_witness :
  fiksDato no_reading no_int !"2020K2" = Return !"2020-06-30 00:00:00".
Proof.
  exact (@fiksDato_reads_year_and_quarter no_reading no_int !"2020" 2020 2
           75%N [] eq_refl eq_refl ltac:(lia) ltac:(lia)).
Defined.

(** The text "2020". *)
Lemma fiksDato_without_quarter_witness :
  fiksDato no_reading no_int !"2020" = Raise ValueError.
Proof.
  apply (@fiksDato_without_quarter no_reading no_int !"2020"). exact I.
Defined.

(** ** [prepare_dataframe]: monthly and quarterly data, and what is refused *)

Section Reshaped.

Local Open Scope Z_scope.

Variable pandas_reads : option str -> str -> outcome Timestamp.
Variable int_unicode : str -> option Z.

Local Abbreviation to_datetime := (to_datetime pandas_reads).
Local Abbreviation fiksDato := (fiksDato pandas_reads int_unicode).
Local Abbreviation prepare_dataframe :=
  (prepare_dataframe (Body:=pyobj) pandas_reads int_unicode).

(** Searching a text for one character. *)
Lemma contains_char (k : char) (s : str) :
  contains [k] s = existsb (N.eqb k) s.
Proof.
  induction s as [|c s IH]; [reflexivity|].
  cbn [contains startswith existsb]. rewrite IH, andb_true_r. reflexivity.
Qed.

Lemma no_letter_in_digits (k : char) (s : str) :
  Forall (fun c => 48 <= c <= 57)%N s -> (57 < k)%N ->
  existsb (N.eqb k) s = false.
Proof.
  intros H Hk. induction H as [|c s Hc _ IH]; [reflexivity|].
  cbn [existsb]. rewrite IH, orb_false_r. apply N.eqb_neq. lia.
Qed.

(** The texts of a year, of a month, of a quarter. *)
Lemma year_text (Y : Z) :
  1000 <= Y <= 9999 ->
  exists y1 y2 y3 y4,
    str_of_int Y = [y1; y2; y3; y4] /\ number 0 [y1; y2; y3; y4] = Some Y /\
    Forall (fun c => 48 <= c <= 57)%N [y1; y2; y3; y4].
Proof.
  intros H. destruct (four_digits H) as (y1 & y2 & y3 & y4 & E & Hn).
  exists y1, y2, y3, y4. repeat split; try assumption.
  exact (number_digits _ _ Hn).
Qed.

Lemma month_text (m : Z) :
  1 <= m <= 12 ->
  exists m1 m2,
    zfill 2 (str_of_int m) = [m1; m2] /\ number 0 [m1; m2] = Some m /\
    Forall (fun c => 48 <= c <= 57)%N [m1; m2].
Proof.
  intros H.
  assert (C : m = 1 \/ m = 2 \/ m = 3 \/ m = 4 \/ m = 5 \/ m = 6 \/ m = 7
              \/ m = 8 \/ m = 9 \/ m = 10 \/ m = 11 \/ m = 12) by lia.
  repeat (destruct C as [-> | C];
          [do 2 eexists; split; [vm_compute; reflexivity|];
           split; [reflexivity|]; repeat constructor; lia|]).
  subst m. do 2 eexists. split; [vm_compute; reflexivity|].
  split; [reflexivity|]. repeat constructor; lia.
Qed.

(** Every month has a first day. *)
Lemma valid_first (Y m : Z) : 1 <= m <= 12 -> valid_date Y m 1 = true.
Proof.
  intros H.
  assert (C : m = 1 \/ m = 2 \/ m = 3 \/ m = 4 \/ m = 5 \/ m = 6 \/ m = 7
              \/ m = 8 \/ m = 9 \/ m = 10 \/ m = 11 \/ m = 12) by lia.
  unfold valid_date.
  repeat (destruct C as [-> | C];
          [cbn; try destruct (is_leap Y); reflexivity|]).
  subst m. reflexivity.
Qed.

Lemma subst_other (k : char) (new : str) (c : char) :
  c <> k -> subst1 k new c = [c].
Proof.
  intros H. unfold subst1. rewrite (proj2 (N.eqb_neq c k) H). reflexivity.
Qed.

(** A cell of a month: it has the marker, and is read as the first day
    of the month once the marker is a hyphen. *)
Lemma month_cell_read (r : Z * Z) :
  dated 12 r ->
  contains !"M" (month_cell r) = true /\
  to_datetime (replace !"M" !"-" (month_cell r)) = Return (month_start r).
Proof.
  destruct r as [Y m]. unfold dated, month_cell, month_start. cbn [fst snd].
  intros [HY Hm].
  destruct (@year_text Y ltac:(lia)) as (y1 & y2 & y3 & y4 & E & Hn & D).
  destruct (month_text Hm) as (m1 & m2 & E' & Hn' & D').
  rewrite E, E'. split.
  - change (!"M") with [77%N]. rewrite contains_char. cbn [app existsb].
    rewrite !orb_true_r. reflexivity.
  - change (!"M") with [77%N]. rewrite replace_char. cbn [app flat_map].
    inversion D as [|? ? H1 D1]; subst. inversion D1 as [|? ? H2 D2]; subst.
    inversion D2 as [|? ? H3 D3]; subst. inversion D3 as [|? ? H4 _]; subst.
    inversion D' as [|? ? H5 D5]; subst. inversion D5 as [|? ? H6 _]; subst.
    rewrite (@subst_other 77%N !"-" y1), (@subst_other 77%N !"-" y2),
      (@subst_other 77%N !"-" y3), (@subst_other 77%N !"-" y4),
      (@subst_other 77%N !"-" m1), (@subst_other 77%N !"-" m2) by lia.
    change (subst1 77%N !"-" 77%N) with [45%N]. cbn [app].
    unfold Dates.to_datetime, parse_iso. rewrite Hn.
    cbv beta iota zeta. rewrite Hn'. cbv beta iota zeta.
    rewrite valid_first by exact Hm.
    apply in_bounds_years; lia.
Qed.

(** The column of the months, cell by cell. *)
Lemma month_cells_read (rows : list (Z * Z)) :
  Forall (dated 12) rows ->
  omap to_datetime (List.map (replace !"M" !"-") (List.map month_cell rows))
  = Return (List.map month_start rows).
Proof.
  induction 1 as [|r rows Hr _ IH]; [reflexivity|].
  cbn [List.map omap]. rewrite (proj2 (month_cell_read Hr)). cbn [obind].
  rewrite IH. reflexivity.
Qed.

(** The steps of a branch, one at a time. *)
Lemma set_time_run (name : str) (w : world pyobj) :
  set_time name w = (Return tt, with_time w name).
Proof. reflexivity. Qed.

Lemma take_run (df : DataFrame) (val_col t : str) (c v : Series)
    (w : world pyobj) :
  time (self w) = Some t ->
  getitem df t = Return c -> getitem df val_col = Return v ->
  take df val_col w = (Return [(t, c); (val_col, v)], w).
Proof.
  intros Ht Hc Hv. unfold take, self_time, bind, get_self, ret, lift.
  rewrite Ht. unfold getitems. cbn [omap obind]. rewrite Hc, Hv. reflexivity.
Qed.

Lemma assign_run (df : DataFrame) (val_col t : str) (c v col : Series)
    (conv : Series -> outcome Series) (w : world pyobj) :
  time (self w) = Some t -> val_col <> t ->
  obind (getitem df t) conv = Return col ->
  assign df [(t, c); (val_col, v)] conv w
  = (Return [(t, col); (val_col, v)], w).
Proof.
  intros Ht Hne Hc. unfold assign, self_time, bind, get_self, ret, lift.
  rewrite Ht, Hc. cbn [setcol List.map fst].
  rewrite str_eqb_refl.
  destruct (str_eqb_spec val_col t); [contradiction|]. reflexivity.
Qed.

(** Lines 410-412, once a branch has assigned the three locals. *)
Lemma result_run (t val_col f : str) (col v : Series) (p : Z)
    (w : world pyobj) :
  (df_ret <- local (Some [(t, col); (val_col, v)]) ;;
   df_ret <- lift (set_columns df_ret [ !"ds"; !"y" ]) ;;
   freq <- local (Some f) ;;
   periods <- local (Some p) ;;
   ret (df_ret, freq, periods)) w
  = (Return ([ (!"ds", col); (!"y", v) ], f, p), w).
Proof. reflexivity. Qed.

(** Lines 358-360 and 384: the time column, and the language. *)
Lemma prepare_run (df : DataFrame) (val_col t : str) (w : world pyobj) :
  columns_m2 df = Return t ->
  prepare_dataframe df val_col w
  = (l <- (if PyStr.eqb (language (self w)) !"no"
           then by_marker pandas_reads int_unicode df val_col maaned !"uke"
                  !"kvartal" aar false
           else if PyStr.eqb (language (self w)) !"en"
           then by_marker pandas_reads int_unicode df val_col !"month" !"week"
                  !"quarter" !"year" true
           else ret {| df_ret := None; freq := None; freg := None;
                       periods := None |}) ;;
     df_ret <- local (df_ret l) ;;
     df_ret <- lift (set_columns df_ret [ !"ds"; !"y" ]) ;;
     freq <- local (freq l) ;;
     periods <- local (periods l) ;;
     ret (df_ret, freq, periods)) (with_time w t).
Proof.
  intros Hc. unfold Reshape.prepare_dataframe.
  unfold bind at 1. unfold lift at 1. rewrite Hc.
  unfold bind at 1. rewrite set_time_run.
  unfold bind at 1. unfold get_self at 1. reflexivity.
Qed.

(** The month branch on such a column. *)
Lemma month_branch_run (df : DataFrame) (val_col name : str) (v : Series)
    (rows : list (Z * Z)) (w : world pyobj) :
  getitem df name = Return (StrCol (List.map month_cell rows)) ->
  getitem df val_col = Return v -> val_col <> name ->
  Forall (dated 12) rows ->
  month_branch pandas_reads df val_col name w
  = (Return {| df_ret := Some [ (name, TimeCol (List.map month_start rows));
                                (val_col, v) ];
               freq := Some !"M"; freg := None; periods := Some 12 |},
     with_time w name).
Proof.
  intros Hg Hv Hne Hrows. unfold Reshape.month_branch.
  unfold bind at 1. rewrite set_time_run.
  unfold bind at 1.
  rewrite (@take_run df val_col name _ v (with_time w name) eq_refl Hg Hv).
  unfold bind at 1.
  rewrite (@assign_run df val_col name _ v
             (TimeCol (List.map month_start rows)) _ (with_time w name)
             eq_refl Hne).
  - reflexivity.
  - rewrite Hg. cbn [obind str_replace str_accessor to_datetime_col].
    rewrite (month_cells_read Hrows). reflexivity.
Qed.

(** On a frame by month whose column of time, the last but one, has the
    name that the language expects ("month" or "maaned" with a-ring) and
    cells of the shape year, "M", two digits: [prepare_dataframe] returns
    the frame with the first day of each month under "ds" and the values
    under "y", the frequency "M" and 12 periods, and leaves the name in
    [self.time]. *)
Theorem month_data_reshaped (df : DataFrame) (val_col name : str)
    (v : Series) (r : Z * Z) (rows : list (Z * Z)) (w : world pyobj) :
  (language (self w) = !"en" /\ name = !"month")
  \/ (language (self w) = !"no" /\ name = maaned) ->
  NoDup (columns df) ->
  columns_m2 df = Return name ->
  getitem df name = Return (StrCol (List.map month_cell (r :: rows))) ->
  getitem df val_col = Return v -> val_col <> name ->
  Forall (dated 12) (r :: rows) ->
  prepare_dataframe df val_col w
  = (Return ([ (!"ds", TimeCol (List.map month_start (r :: rows)));
               (!"y", v) ], !"M", 12),
     with_time w name).
Proof.
  intros Hlang _ Hc Hg Hv Hne Hrows.
  rewrite (prepare_run df val_col w Hc).
  assert (HM : contains !"M" (month_cell r) = true).
  { inversion Hrows as [|? ? Hr _]; subst.
    exact (proj1 (month_cell_read Hr)). }
  unfold bind at 1.
  destruct Hlang as [[L ->] | [L ->]]; cbn [with_time self language];
    rewrite L;
    [ change (PyStr.eqb !"en" !"no") with false;
      change (PyStr.eqb !"en" !"en") with true
    | change (PyStr.eqb !"no" !"no") with true ];
    cbv iota;
    (erewrite by_marker_cell; [|reflexivity|exact Hne|exact Hg]);
    rewrite Hv, HM; cbv iota;
    rewrite (month_branch_run df (with_time w _) Hg Hv Hne Hrows);
    reflexivity.
Qed.

Lemma quarter_digit (q : Z) :
  1 <= q <= 4 ->
  exists qd, str_of_int q = [qd] /\ (48 <= qd <= 57)%N.
Proof.
  intros H. assert (C : q = 1 \/ q = 2 \/ q = 3 \/ q = 4) by lia.
  destruct C as [-> | [-> | [-> | ->]]]; eexists;
    (split; [vm_compute; reflexivity | lia]).
Qed.

(** A cell of a quarter: it has the marker of quarters only; with a hyphen
    for the marker it is a text that the ISO shapes do not cover; and
    [fiksDato] makes of it the year and the last day of the quarter. *)
Lemma quarter_cell_read (r : str * Z) :
  quarter_row r ->
  contains !"M" (quarter_cell r) = false /\
  contains !"U" (quarter_cell r) = false /\
  contains !"K" (quarter_cell r) = true /\
  to_datetime (replace !"K" !"-" (quarter_cell r))
  = pandas_reads None (quarter_hyphen r) /\
  fiksDato (quarter_cell r) = Return (fst r ++ quarter_end_text (snd r)).
Proof.
  destruct r as [y q]. unfold quarter_row, quarter_cell, quarter_hyphen.
  cbn [fst snd]. intros (Hl & (Y & Hnum & HY) & Hq).
  destruct y as [|y1 [|y2 [|y3 [|y4 [|]]]]]; try discriminate.
  split; [|split; [|split; [|split]]].
  5:{ assert (Hq' : q = 1 \/ q = 2 \/ q = 3 \/ q = 4) by lia.
      destruct Hq' as [-> | [-> | [-> | ->]]]; read_quarter Hnum. }
  all: pose proof (number_digits _ _ Hnum) as D;
    destruct (quarter_digit Hq) as (qd & E' & Hd);
    rewrite E';
    inversion D as [|? ? H1 D1]; subst; inversion D1 as [|? ? H2 D2]; subst;
    inversion D2 as [|? ? H3 D3]; subst; inversion D3 as [|? ? H4 _]; subst.
  - change (!"M") with [77%N]. change (!"K") with [75%N].
    rewrite contains_char. cbn [app existsb].
    rewrite (proj2 (N.eqb_neq 77 y1)), (proj2 (N.eqb_neq 77 y2)),
      (proj2 (N.eqb_neq 77 y3)), (proj2 (N.eqb_neq 77 y4)),
      (proj2 (N.eqb_neq 77 qd)) by lia.
    reflexivity.
  - change (!"U") with [85%N]. change (!"K") with [75%N].
    rewrite contains_char. cbn [app existsb].
    rewrite (proj2 (N.eqb_neq 85 y1)), (proj2 (N.eqb_neq 85 y2)),
      (proj2 (N.eqb_neq 85 y3)), (proj2 (N.eqb_neq 85 y4)),
      (proj2 (N.eqb_neq 85 qd)) by lia.
    reflexivity.
  - change (!"K") with [75%N]. rewrite contains_char. cbn [app existsb].
    rewrite !orb_true_r. reflexivity.
  - change (!"K") with [75%N]. rewrite replace_char. cbn [app flat_map].
    rewrite (@subst_other 75%N !"-" y1), (@subst_other 75%N !"-" y2),
      (@subst_other 75%N !"-" y3), (@subst_other 75%N !"-" y4),
      (@subst_other 75%N !"-" qd) by lia.
    change (subst1 75%N !"-" 75%N) with [45%N]. cbn [app].
    reflexivity.
Qed.

(** The column of the quarters, cell by cell. *)
Lemma quarter_cells_read (rows : list (str * Z)) :
  Forall quarter_row rows ->
  Forall (fun r => exists t, pandas_reads None (quarter_hyphen r) = Return t)
    rows ->
  (exists ts,
     omap to_datetime
       (List.map (replace !"K" !"-") (List.map quarter_cell rows))
     = Return ts) /\
  omap fiksDato (List.map quarter_cell rows)
  = Return (List.map (fun r => fst r ++ quarter_end_text (snd r)) rows).
Proof.
  induction 1 as [|r rows Hr _ IH]; intros Hp.
  - split; [exists []|]; reflexivity.
  - inversion Hp as [|? ? [t Ht] Hp']; subst.
    destruct (IH Hp') as [[ts Hts] F].
    destruct (quarter_cell_read Hr) as (_ & _ & _ & T & Q).
    cbn [List.map omap]. rewrite T, Ht, Hts, Q, F. cbn [obind].
    split; [eexists|]; reflexivity.
Qed.

(** The quarter branch on such a column, whether it renames [self.time]
    or not. *)
Lemma quarter_branch_run (df : DataFrame) (val_col name t : str) (v : Series)
    (rows : list (str * Z)) (renames : bool) (w : world pyobj) :
  time (self w) = Some t -> (renames = true -> name = t) ->
  getitem df t = Return (StrCol (List.map quarter_cell rows)) ->
  getitem df val_col = Return v -> val_col <> t ->
  Forall quarter_row rows ->
  Forall (fun r => exists t, pandas_reads None (quarter_hyphen r) = Return t)
    rows ->
  quarter_branch pandas_reads int_unicode df val_col name renames w
  = (Return {| df_ret :=
                 Some [ (t, StrCol (List.map (fun r => fst r ++ quarter_end_text
                                                               (snd r)) rows));
                        (val_col, v) ];
               freq := Some !"q"; freg := None; periods := Some 4 |},
     with_time w t).
Proof.
  intros Ht Hname Hg Hv Hne Hrows Hp.
  destruct (quarter_cells_read Hrows Hp) as [[ts Hts] F].
  assert (W : (if renames then set_time name else ret tt) w
              = (Return tt, with_time w t)).
  { destruct renames.
    - rewrite (Hname eq_refl). reflexivity.
    - unfold ret, with_time. destruct w as [s o wr]. cbn [self] in *.
      destruct s. cbn in *. subst. reflexivity. }
  unfold Reshape.quarter_branch.
  unfold bind at 1. rewrite W.
  unfold bind at 1.
  rewrite (@take_run df val_col t _ v (with_time w t) eq_refl Hg Hv).
  unfold bind at 1.
  rewrite (@assign_run df val_col t _ v (TimeCol ts) _ (with_time w t)
             eq_refl Hne).
  2:{ rewrite Hg. cbn [obind str_replace str_accessor to_datetime_col].
      rewrite Hts. reflexivity. }
  unfold bind at 1.
  rewrite (@assign_run df val_col t _ v
             (StrCol (List.map (fun r => fst r ++ quarter_end_text (snd r))
                        rows))
             _ (with_time w t) eq_refl Hne).
  - reflexivity.
  - rewrite Hg. cbn [obind apply]. rewrite F. reflexivity.
Qed.

(** On a frame by quarter whose cells are a year from 1678 to 2261 in four
    digits, "K" and a quarter from 1 to 4, when pandas reads each cell
    with a hyphen for the "K" as some date: [prepare_dataframe] returns
    the frame that has under "ds", for each cell, the year followed by
    -03-31, -06-30, -09-30 or -12-31 and the midnight, and the values
    under "y", with the frequency "q" and 4 periods.  In English the
    column of time must be named "quarter"; in Norwegian any name does,
    since that branch does not rename [self.time]. *)
Theorem quarter_data_reshaped (df : DataFrame) (val_col name : str)
    (v : Series) (r : str * Z) (rows : list (str * Z)) (w : world pyobj) :
  (language (self w) = !"en" /\ name = !"quarter")
  \/ language (self w) = !"no" ->
  NoDup (columns df) ->
  columns_m2 df = Return name ->
  getitem df name = Return (StrCol (List.map quarter_cell (r :: rows))) ->
  getitem df val_col = Return v -> val_col <> name ->
  Forall quarter_row (r :: rows) ->
  Forall (fun r => exists t, pandas_reads None (quarter_hyphen r) = Return t)
    (r :: rows) ->
  prepare_dataframe df val_col w
  = (Return ([ (!"ds",
                StrCol (List.map
                          (fun r => fst r ++ match snd r with
                                             | 1 => !"-03-31 00:00:00"
                                             | 2 => !"-06-30 00:00:00"
                                             | 3 => !"-09-30 00:00:00"
                                             | _ => !"-12-31 00:00:00"
                                             end)
                          (r :: rows)));
               (!"y", v) ], !"q", 4),
     with_time w name).
Proof.
  intros Hlang _ Hc Hg Hv Hne Hrows Hp.
  change (fun r0 : str * Z => fst r0 ++ match snd r0 with
                                        | 1 => !"-03-31 00:00:00"
                                        | 2 => !"-06-30 00:00:00"
                                        | 3 => !"-09-30 00:00:00"
                                        | _ => !"-12-31 00:00:00"
                                        end)
    with (fun r0 : str * Z => fst r0 ++ quarter_end_text (snd r0)).
  rewrite (prepare_run df val_col w Hc).
  assert (HM : contains !"M" (quarter_cell r) = false
               /\ contains !"U" (quarter_cell r) = false
               /\ contains !"K" (quarter_cell r) = true).
  { inversion Hrows as [|? ? Hr _]; subst.
    destruct (quarter_cell_read Hr) as (A & B & C & _). auto. }
  destruct HM as (HM & HU & HK).
  unfold bind at 1.
  destruct Hlang as [[L ->] | L]; cbn [with_time self language];
    rewrite L;
    [ change (PyStr.eqb !"en" !"no") with false;
      change (PyStr.eqb !"en" !"en") with true
    | change (PyStr.eqb !"no" !"no") with true ];
    cbv iota;
    (erewrite by_marker_cell; [|reflexivity|exact Hne|exact Hg]);
    rewrite Hv, HM, HU, HK; cbv iota;
    (erewrite quarter_branch_run;
     [reflexivity | reflexivity | | exact Hg | exact Hv | exact Hne
      | exact Hrows | exact Hp ]);
    [reflexivity | discriminate].
Qed.

(** A frame with distinct labels has one column under a label at most. *)
Lemma count_absent (df : DataFrame) (name : str) :
  ~ In name (columns df) -> count df name = 0%nat.
Proof.
  unfold count. induction df as [|[n c] df IH];
    cbn [filter columns List.map fst In]; [reflexivity|].
  intros H. destruct (str_eqb_spec n name) as [->|]; [tauto|].
  apply IH. unfold columns. tauto.
Qed.

Lemma getitem_NoDup (df : DataFrame) (name : str) :
  NoDup (columns df) -> getitem df name = column df name.
Proof.
  intros N. unfold getitem.
  assert (L : (count df name <= 1)%nat).
  { induction df as [|[n c] df IH]; [cbn; lia|].
    inversion N as [|? ? Hn N']; subst.
    unfold count. cbn [filter fst].
    destruct (str_eqb_spec n name) as [->|].
    - cbn [List.length]. fold (count df name).
      rewrite (count_absent _ _ Hn). lia.
    - fold (count df name). specialize (IH N'). lia. }
  destruct (Nat.ltb_spec 1 (count df name)); [lia|reflexivity].
Qed.

Lemma column_raises (df : DataFrame) (name : str) (e : exn) :
  column df name = Raise e -> e = KeyError.
Proof.
  induction df as [|[n c] df IH]; cbn [column].
  - intros H. injection H as <-. reflexivity.
  - destruct (PyStr.eqb n name); [discriminate | exact IH].
Qed.

(** A label that the frame does not have. *)
Lemma getitem_absent (df : DataFrame) (name : str) :
  ~ In name (columns df) -> getitem df name = Raise KeyError.
Proof.
  intros H. unfold getitem. rewrite (count_absent _ _ H). cbn [Nat.ltb Nat.leb].
  induction df as [|[n c] df IH]; cbn [column columns List.map fst In] in *;
    [reflexivity|].
  destruct (str_eqb_spec n name) as [->|]; [tauto|].
  apply IH. tauto.
Qed.

Lemma take_missing (df : DataFrame) (val_col name : str) (w : world pyobj) :
  ~ In name (columns df) ->
  take df val_col (with_time w name) = (Raise KeyError, with_time w name).
Proof.
  intros H. unfold take, self_time, bind, get_self, ret, lift.
  cbn [with_time self State.time]. unfold getitems. cbn [omap].
  rewrite (getitem_absent _ _ H). reflexivity.
Qed.

(** The branches write a fixed name to [self.time] and then select the
    column of that name: when the frame has no such column, whatever the
    label of its column of time, [prepare_dataframe] raises [KeyError]
    and leaves the fixed name in [self.time]. *)
Theorem misnamed_time_column_raises (df : DataFrame)
    (val_col t name cell : str) (cells : list str) (v : Series)
    (w : world pyobj) :
  language (self w) = !"no" \/ language (self w) = !"en" ->
  NoDup (columns df) ->
  columns_m2 df = Return t ->
  getitem df t = Return (StrCol (cell :: cells)) ->
  getitem df val_col = Return v -> val_col <> t ->
  time_name (language (self w)) cell = Some name ->
  ~ In name (columns df) ->
  prepare_dataframe df val_col w = (Raise KeyError, with_time w name).
Proof.
  intros Hlang _ Hc Hg Hv Hne Hname Habs.
  rewrite (prepare_run df val_col w Hc).
  unfold bind at 1. unfold time_name in Hname.
  destruct Hlang as [L | L]; cbn [with_time self language];
    rewrite L in *;
    [ change (PyStr.eqb !"no" !"no") with true in *
    | change (PyStr.eqb !"en" !"no") with false in *;
      change (PyStr.eqb !"en" !"en") with true ];
    cbv iota in *;
    (erewrite by_marker_cell; [|reflexivity|exact Hne|exact Hg]);
    rewrite Hv;
    destruct (contains !"M" cell);
    [ | destruct (contains !"U" cell);
        [ | destruct (contains !"K" cell) ] | |
      destruct (contains !"U" cell);
        [ | destruct (contains !"K" cell) ] ];
    try discriminate;
    injection Hname as <-;
    unfold Reshape.month_branch, Reshape.week_branch, Reshape.quarter_branch,
      Reshape.year_branch;
    unfold bind at 1; rewrite set_time_run;
    unfold bind at 1; rewrite (@take_missing df _ _ _ Habs); reflexivity.
Qed.

(** In a language other than "no" and "en" no branch is taken:
    [prepare_dataframe] raises [UnboundLocalError] on every frame with
    two columns or more, after it has set [self.time], and [IndexError]
    on a frame with fewer. *)
Theorem other_language_never_returns (df : DataFrame) (val_col : str)
    (w : world pyobj) :
  language (self w) <> !"no" -> language (self w) <> !"en" ->
  prepare_dataframe df val_col w
  = match columns_m2 df with
    | Return t => (Raise UnboundLocalError, with_time w t)
    | Raise e => (Raise e, w)
    end.
Proof.
  intros Hno Hen.
  destruct (columns_m2 df) as [t|e] eqn:Hc.
  - rewrite (prepare_run df val_col w Hc). unfold bind at 1.
    cbn [with_time self language].
    destruct (str_eqb_spec (language (self w)) !"no"); [contradiction|].
    destruct (str_eqb_spec (language (self w)) !"en"); [contradiction|].
    reflexivity.
  - unfold Reshape.prepare_dataframe, bind, lift. rewrite Hc. reflexivity.
Qed.

(** On a frame with distinct labels and a column of values other than
    the column of time: when the frame has no column of values under the
    name given, or when the first cell of its column of time is missing
    or is no text, [prepare_dataframe] raises [KeyError] or [TypeError]
    once it has set [self.time]. *)
Theorem frame_without_text_raises (df : DataFrame) (val_col t : str)
    (w : world pyobj) :
  language (self w) = !"no" \/ language (self w) = !"en" ->
  NoDup (columns df) ->
  columns_m2 df = Return t ->
  val_col <> t ->
  ~ In val_col (columns df)
  \/ (forall cell cells, getitem df t <> Return (StrCol (cell :: cells))) ->
  exists e,
    (e = KeyError \/ e = TypeError) /\
    prepare_dataframe df val_col w = (Raise e, with_time w t).
Proof.
  intros Hlang Hnd Hc Hne Hbad.
  rewrite (prepare_run df val_col w Hc). unfold bind at 1.
  assert (B : forall month week quarter year renames,
            exists e,
              (e = KeyError \/ e = TypeError) /\
              by_marker pandas_reads int_unicode df val_col month week quarter
                year renames (with_time w t) = (Raise e, with_time w t)).
  { intros. unfold Reshape.by_marker, take, marked, self_time, bind, get_self,
      ret, lift.
    cbn [with_time self State.time]. unfold getitems. cbn [omap].
    destruct (getitem df t) as [c|e] eqn:Hg; cbn [obind].
    2:{ exists e. split; [|reflexivity]. left.
        rewrite (getitem_NoDup _ _ Hnd) in Hg.
        exact (column_raises _ _ Hg). }
    destruct Hbad as [Hv | Hcell].
    - rewrite (getitem_absent _ _ Hv). cbn [obind]. eauto.
    - destruct (getitem df val_col) as [v|e] eqn:Hv; cbn [obind].
      2:{ exists e. split; [|reflexivity]. left.
          rewrite (getitem_NoDup _ _ Hnd) in Hv.
          exact (column_raises _ _ Hv). }
      unfold loc0_contains. rewrite (getitem_first _ _ Hne).
      cbn [obind].
      destruct c as [[|cell cells]|[|z l]|[|z l]]; cbn [fst snd]; eauto.
      exfalso. exact (Hcell cell cells eq_refl). }
  destruct Hlang as [L | L]; cbn [with_time self language]; rewrite L;
    [ change (PyStr.eqb !"no" !"no") with true
    | change (PyStr.eqb !"en" !"no") with false;
      change (PyStr.eqb !"en" !"en") with true ];
    cbv iota;
    match goal with
    | |- context [by_marker _ _ _ _ ?m ?k ?q ?y ?r _] =>
        destruct (B m k q y r) as (e & He & ->)
    end;
    exists e; auto.
Qed.

End Reshaped.

(** January and February 2020. *)
Lemma month_data_reshaped_witness :
  prepare_dataframe no_reading no_int month_frame !"value" fresh
  = (Return ([ (!"ds", TimeCol [ {| year := 2020; month := 1; day := 1 |};
                                 {| year := 2020; month := 2; day := 1 |} ]);
               (!"y", NumCol [5%Z; 7%Z]) ], !"M", 12%Z),
     with_time fresh !"month").
Proof.
  apply (@month_data_reshaped no_reading no_int month_frame !"value" !"month"
           (NumCol [5%Z; 7%Z]) (2020, 1)%Z [ (2020, 2)%Z ] fresh).
  - left. split; reflexivity.
  - repeat constructor; cbn; intuition discriminate.
  - reflexivity.
  - reflexivity.
  - reflexivity.
  - discriminate.
  - repeat constructor; cbn; lia.
Defined.

(** The second quarter of 2020. *)
Lemma quarter_data_reshaped_witness :
  prepare_dataframe short_month_reading no_int quarter_frame !"value" fresh
  = (Return ([ (!"ds", StrCol [ !"2020-06-30 00:00:00" ]);
               (!"y", NumCol [5%Z]) ], !"q", 4%Z),
     with_time fresh !"quarter").
Proof.
  apply (@quarter_data_reshaped short_month_reading no_int quarter_frame
           !"value" !"quarter" (NumCol [5%Z]) (!"2020", 2%Z) [] fresh).
  - left. split; reflexivity.
  - repeat constructor; cbn; intuition discriminate.
  - reflexivity.
  - reflexivity.
  - reflexivity.
  - discriminate.
  - repeat constructor; cbn; [exists 2020%Z; split; [reflexivity | lia] | lia | lia].
  - repeat constructor. eexists. reflexivity.
Defined.

(** Monthly data under the label "time". *)
Lemma misnamed_time_column_raises_witness :
  prepare_dataframe no_reading no_int time_frame !"value" fresh
  = (Raise KeyError, with_time fresh !"month").
Proof.
  apply (@misnamed_time_column_raises no_reading no_int time_frame !"value"
           !"time" !"month" !"2020M01" [ !"2020M02" ] (NumCol [5%Z; 7%Z])
           fresh).
  - right. reflexivity.
  - repeat constructor; cbn; intuition discriminate.
  - reflexivity.
  - reflexivity.
  - reflexivity.
  - discriminate.
  - reflexivity.
  - cbn. intuition discriminate.
Defined.

(** The frame by month in a Swedish session. *)
Lemma other_language_never_returns_witness :
  prepare_dataframe no_reading no_int month_frame !"value" swedish
  = (Raise UnboundLocalError, with_time swedish !"month").
Proof.
  apply (@other_language_never_returns no_reading no_int month_frame !"value"
           swedish); discriminate.
Defined.

(** Years that are numbers. *)
Lemma frame_without_text_raises_witness :
  exists e,
    prepare_dataframe no_reading no_int number_frame !"value" fresh
    = (Raise e, with_time fresh !"year").
Proof.
  destruct (@frame_without_text_raises no_reading no_int number_frame !"value"
              !"year" fresh) as (e & _ & E).
  - right. reflexivity.
  - repeat constructor; cbn; intuition discriminate.
  - reflexivity.
  - discriminate.
  - right. intros cell cells H. discriminate H.
  - exists e. exact E.
Defined.
